(** * Code quality analyzer: metrics, duplicate detection, coverage estimate

    A shallow embedding of [src/metrics.py], [src/duplicate_detector.py] and
    [src/coverage_analyzer.py].

    Numbers.  Python [int]s are [Z] (or [nat] for lengths).  A Python
    [float] is given by the rational it denotes.  [Py.double] rounds a
    rational to the nearest binary64 number, and the quotients, products
    and sums of the code are computed with it ([Py.truediv], [Py.fdiv],
    [Py.fmul], [Py.fadd]): the coverage estimate, the figures of the
    duplicate detector, the documentation coverage and the score.
    [round(x, 1)] gives the tenth nearest to [x], ties going to the even
    tenth; a rounded value is kept as that decimal.  Two quotients are
    kept exact, the mean complexity and the filled part of the progress
    bar: the float differs from them in the last binary place, which
    shows at ties of the rounding and for counts beyond [2^53].

    Text.  A Python [str] is a Rocq [string]; each character stands for the
    code point of the same number (0..255).

    Library calls.  [ast.parse], [os.path.exists] and [pathlib.Path.stem]
    belong to the platform and are parameters of the development.  The
    values of [ast.get_docstring(node)] and
    [ast.get_source_segment(code, node)] are recorded in the node they are
    computed for.  [difflib.SequenceMatcher] is modelled after CPython's
    implementation (no junk predicate, [autojunk] left at its default). *)

From Stdlib Require Import ZArith QArith Qround Qpower Qabs String Ascii List Bool Lia Arith.
From Stdlib Require Import Permutation ListSet Lqa.
Import ListNotations.

Local Open Scope string_scope.
Local Open Scope list_scope.
Local Open Scope Z_scope.

(** ** Python built-ins *)

Module Py.

(** Exceptions the modelled code can raise. *)
Inductive exn : Type := SyntaxError.

Inductive outcome (A : Type) : Type :=
| Returned (a : A)
| Raised (e : exn).
Arguments Returned {A} a.
Arguments Raised {A} e.

Definition bind {A B : Type} (m : outcome A) (k : A -> outcome B) : outcome B :=
  match m with
  | Returned a => k a
  | Raised e => Raised e
  end.

(** [str.isspace] on one character. *)
Definition isspace (c : ascii) : bool :=
  let n := nat_of_ascii c in
  (((9 <=? n) && (n <=? 13)) || ((28 <=? n) && (n <=? 32))
   || (n =? 133) || (n =? 160))%nat.

(** [str.lower] on one character. *)
Definition lower_char (c : ascii) : ascii :=
  let n := nat_of_ascii c in
  if (((65 <=? n) && (n <=? 90))
      || ((192 <=? n) && (n <=? 222) && negb (n =? 215)))%nat
  then ascii_of_nat (n + 32) else c.

Fixpoint lower (s : string) : string :=
  match s with
  | EmptyString => EmptyString
  | String c r => String (lower_char c) (lower r)
  end.

Fixpoint lstrip (s : string) : string :=
  match s with
  | EmptyString => EmptyString
  | String c r => if isspace c then lstrip r else s
  end.

(** [rstrip] keeps a character when it is not a space or when something
    is left after it. *)
Fixpoint rstrip (s : string) : string :=
  match s with
  | EmptyString => EmptyString
  | String c r =>
      match rstrip r with
      | EmptyString => if isspace c then EmptyString else String c EmptyString
      | r' => String c r'
      end
  end.

Definition strip (s : string) : string := rstrip (lstrip s).

Fixpoint startswith (s p : string) : bool :=
  match p, s with
  | EmptyString, _ => true
  | String _ _, EmptyString => false
  | String a p', String b s' => Ascii.eqb a b && startswith s' p'
  end.

(** Truth value of a [str]: non-empty. *)
Definition truthy (s : string) : bool :=
  match s with EmptyString => false | String _ _ => true end.

Definition newline : ascii := ascii_of_nat 10.

(** [s.split('\n')]: the segments between newlines, one more than there
    are newlines. *)
Fixpoint split_nl (s : string) : list string :=
  match s with
  | EmptyString => [EmptyString]
  | String c r =>
      if Ascii.eqb c newline then EmptyString :: split_nl r
      else match split_nl r with
           | [] => [String c EmptyString]
           | seg :: segs => String c seg :: segs
           end
  end.

(** ['\n'.join(lines)] *)
Fixpoint join_nl (lines : list string) : string :=
  match lines with
  | [] => EmptyString
  | [l] => l
  | l :: ls => (l ++ String newline (join_nl ls))%string
  end.

(** Nearest integer, ties to even. *)
Definition round_half_even (x : Q) : Z :=
  let f := Qfloor x in
  match Qcompare (x - inject_Z f) (1 # 2) with
  | Lt => f
  | Gt => f + 1
  | Eq => if Z.even f then f else f + 1
  end.

(** Binary64.  A finite float is [m * 2^e] with [|m| < 2^53] and
    [-1074 <= e].  [exponent x] is the [e] with [2^e <= x < 2^(e+1)], for
    a positive [x]; the floats between [2^e] and [2^(e+1)] are the
    multiples of [2^(e-52)], and below [2^-1022] those of [2^-1074]. *)
Definition pow2 (k : Z) : Q := Qpower 2 k.

Definition exponent (x : Q) : Z :=
  let e := Z.log2 (Qnum x) - Z.log2 (Zpos (Qden x)) in
  if Qle_bool (pow2 e) x then e else e - 1.

Definition double_pos (x : Q) : Q :=
  let e := Z.max (exponent x) (-1022) in
  (inject_Z (round_half_even (x / pow2 (e - 52))) * pow2 (e - 52))%Q.

(** The float nearest to [x], ties going to the even significand: what a
    division, a product or a sum of floats returns for the exact result
    [x].  (No result of the code reaches [2^1024], where Python stops.) *)
Definition double (x : Q) : Q :=
  match Qcompare x 0 with
  | Eq => 0%Q
  | Gt => double_pos x
  | Lt => (- double_pos (- x))%Q
  end.

(** [a / b] on two ints, [b] not 0: the float nearest to the quotient. *)
Definition truediv (a b : Z) : Q := double (inject_Z a / inject_Z b).

(** [x * y], [x / y] and [x + y] on floats; an int operand is converted
    first, without loss for the ints of the code. *)
Definition fmul (x y : Q) : Q := double (x * y).

Definition fdiv (x y : Q) : Q := double (x / y).

Definition fadd (x y : Q) : Q := double (x + y).

(** [round(x, 1)] on a float: the decimal with one digit nearest to [x],
    ties going to the even digit.  Python returns the float nearest to
    this decimal and prints it as the decimal. *)
Definition round1 (x : Q) : Q := Qmake (round_half_even (x * 10)) 10.

(** [round(x, 2)] *)
Definition round2 (x : Q) : Q := Qmake (round_half_even (x * 100)) 100.

(** [min(x, y)] on floats: the first argument unless the second is
    smaller. *)
Definition qmin (x y : Q) : Q := if Qle_bool x y then x else y.

(** [sum(xs)] and [max(xs)] on a non-empty list of ints. *)
Definition sum (xs : list Z) : Z := fold_left Z.add xs 0.

Definition max_list (xs : list Z) : Z :=
  match xs with
  | [] => 0
  | x :: r => fold_left Z.max r x
  end.

End Py.

(** ** The syntax tree *)

Module Ast.

(** The node classes the analyzer tests with [isinstance], with the
    attributes it reads; every other class of [ast] is [Other]. *)
Inductive kind : Type :=
| FunctionDef (name : string) (lineno end_lineno : Z)
    (nargs : nat) (docstring segment : option string)
| ClassDef (name : string) (lineno : Z) (docstring : option string)
| Import
| ImportFrom
| If
| While
| For
| ExceptHandler
| With
| BoolOp (nvalues : nat)
| Other.

#[warnings="-register-all"]
Inductive node : Type :=
| Node (k : kind) (children : list node).

Definition node_kind (n : node) : kind :=
  match n with Node k _ => k end.

(** [ast.iter_child_nodes] *)
Definition iter_child_nodes (n : node) : list node :=
  match n with Node _ cs => cs end.

(** The nodes of a tree, parents before children (pre-order). *)
Fixpoint subnodes (n : node) : list node :=
  match n with
  | Node _ cs => n :: flat_map subnodes cs
  end.

(** Number of nodes of a tree. *)
Definition size (n : node) : nat := length (subnodes n).

(** [ast.walk]: a queue starts with the root; the first node is taken
    off, its children are put at the end and the node is yielded, until
    the queue is empty.  [fuel] bounds the number of nodes yielded. *)
Fixpoint walk_queue (fuel : nat) (todo : list node) : list node :=
  match fuel with
  | O => []
  | S fuel' =>
      match todo with
      | [] => []
      | n :: rest => n :: walk_queue fuel' (rest ++ iter_child_nodes n)
      end
  end.

Definition walk (n : node) : list node := walk_queue (size n) [n].

Definition is_FunctionDef (n : node) : bool :=
  match node_kind n with FunctionDef _ _ _ _ _ _ => true | _ => false end.

Definition is_ClassDef (n : node) : bool :=
  match node_kind n with ClassDef _ _ _ => true | _ => false end.

Definition is_import (n : node) : bool :=
  match node_kind n with Import | ImportFrom => true | _ => false end.

(** [node.name] of a function or class definition. *)
Definition name (n : node) : string :=
  match node_kind n with
  | FunctionDef nm _ _ _ _ _ => nm
  | ClassDef nm _ _ => nm
  | _ => EmptyString
  end.

Definition lineno (n : node) : Z :=
  match node_kind n with
  | FunctionDef _ l _ _ _ _ => l
  | ClassDef _ l _ => l
  | _ => 0
  end.

Definition end_lineno (n : node) : Z :=
  match node_kind n with
  | FunctionDef _ _ e _ _ _ => e
  | _ => 0
  end.

(** [len(node.args.args)] *)
Definition nargs (n : node) : nat :=
  match node_kind n with
  | FunctionDef _ _ _ a _ _ => a
  | _ => 0%nat
  end.

(** [ast.get_docstring(node)] *)
Definition get_docstring (n : node) : option string :=
  match node_kind n with
  | FunctionDef _ _ _ _ d _ => d
  | ClassDef _ _ d => d
  | _ => None
  end.

(** [ast.get_source_segment(code, node)] *)
Definition get_source_segment (n : node) : option string :=
  match node_kind n with
  | FunctionDef _ _ _ _ _ s => s
  | _ => None
  end.

(** Truth value of an optional string: present and non-empty. *)
Definition truthy (o : option string) : bool :=
  match o with
  | Some s => Py.truthy s
  | None => false
  end.

End Ast.

(** ** [difflib.SequenceMatcher(None, a, b)] *)

Module Difflib.

Definition seq_of (s : string) : list ascii := list_ascii_of_string s.

(** [a[i] == b[j]] for indices in range. *)
Definition same_at (a b : list ascii) (i j : nat) : bool :=
  match nth_error a i, nth_error b j with
  | Some x, Some y => Ascii.eqb x y
  | _, _ => false
  end.

(** [__chain_b]: with at least 200 elements in [b], an element occurring
    more than [n // 100 + 1] times is popular and loses its entry in
    [b2j]. *)
Definition popular (b : list ascii) (c : ascii) : bool :=
  let n := length b in
  ((200 <=? n) && (n / 100 + 1 <? count_occ ascii_dec b c))%nat.

Fixpoint indices_from (b : list ascii) (c : ascii) (j : nat) : list nat :=
  match b with
  | [] => []
  | x :: r =>
      if Ascii.eqb x c then j :: indices_from r c (S j)
      else indices_from r c (S j)
  end.

(** [b2j.get(c, [])]: the positions of [c] in [b], increasing. *)
Definition b2j (b : list ascii) (c : ascii) : list nat :=
  if popular b c then [] else indices_from b c 0.

(** The dictionaries [j2len] and [newj2len], absent keys reading 0. *)
Definition dict : Type := nat -> nat.
Definition empty_dict : dict := fun _ => 0%nat.
Definition dict_set (d : dict) (j k : nat) : dict :=
  fun x => if (x =? j)%nat then k else d x.
(** [j2len.get(j-1, 0)] *)
Definition dict_get_pred (d : dict) (j : nat) : nat :=
  match j with
  | O => 0%nat
  | S j' => d j'
  end.

(** A match [(i, j, size)]. *)
Definition triple : Type := (nat * nat * nat)%type.
Definition size_of (t : triple) : nat := snd t.

(** Inner loop of [find_longest_match] over the positions [js] of
    [a[i]] in [b]; positions below [blo] are skipped and the first one
    at or above [bhi] breaks the loop. *)
Fixpoint scan_row (i blo bhi : nat) (j2len : dict) (js : list nat)
    (newj2len : dict) (best : triple) : dict * triple :=
  match js with
  | [] => (newj2len, best)
  | j :: js' =>
      if (j <? blo)%nat then scan_row i blo bhi j2len js' newj2len best
      else if (bhi <=? j)%nat then (newj2len, best)
      else
        let k := (dict_get_pred j2len j + 1)%nat in
        let newj2len' := dict_set newj2len j k in
        if (size_of best <? k)%nat
        then scan_row i blo bhi j2len js' newj2len'
               ((i + 1 - k)%nat, (j + 1 - k)%nat, k)
        else scan_row i blo bhi j2len js' newj2len' best
  end.

(** Outer loop: [for i in range(alo, ahi)]. *)
Fixpoint scan_rows (a b : list ascii) (blo bhi : nat) (rows : list nat)
    (j2len : dict) (best : triple) : triple :=
  match rows with
  | [] => best
  | i :: rows' =>
      match nth_error a i with
      | None => best
      | Some c =>
          let '(newj2len, best') :=
            scan_row i blo bhi j2len (b2j b c) empty_dict best in
          scan_rows a b blo bhi rows' newj2len best'
      end
  end.

(** First [while]: extend the match to the left. *)
Fixpoint extend_left (a b : list ascii) (alo blo : nat)
    (besti bestj bestsize : nat) : triple :=
  match besti with
  | O => (besti, bestj, bestsize)
  | S i' =>
      if ((alo <? besti) && (blo <? bestj)
          && same_at a b i' (bestj - 1))%nat
      then extend_left a b alo blo i' (bestj - 1)%nat (S bestsize)
      else (besti, bestj, bestsize)
  end.

(** Second [while]: extend the match to the right; [fuel] is the
    distance from [besti + bestsize] to [ahi]. *)
Fixpoint extend_right (a b : list ascii) (ahi bhi : nat)
    (besti bestj : nat) (fuel bestsize : nat) : triple :=
  match fuel with
  | O => (besti, bestj, bestsize)
  | S fuel' =>
      if ((besti + bestsize <? ahi) && (bestj + bestsize <? bhi)
          && same_at a b (besti + bestsize) (bestj + bestsize))%nat
      then extend_right a b ahi bhi besti bestj fuel' (S bestsize)
      else (besti, bestj, bestsize)
  end.

(** [find_longest_match(alo, ahi, blo, bhi)].  No element of [b] is junk,
    so the two loops that extend over junk do nothing and are left out. *)
Definition find_longest_match (a b : list ascii) (alo ahi blo bhi : nat)
    : triple :=
  let '(besti, bestj, bestsize) :=
    scan_rows a b blo bhi (seq alo (ahi - alo)) empty_dict (alo, blo, 0%nat) in
  let '(besti, bestj, bestsize) :=
    extend_left a b alo blo besti bestj bestsize in
  extend_right a b ahi bhi besti bestj (ahi - (besti + bestsize)) bestsize.

(** The work list of [get_matching_blocks]: [queue.pop()] takes the
    element appended last, so the head of the list is the last element
    of the Python list. *)
Definition range4 : Type := (nat * nat * nat * nat)%type.

Fixpoint blocks_loop (a b : list ascii) (fuel : nat) (queue : list range4)
    (matching_blocks : list triple) : list range4 * list triple :=
  match fuel with
  | O => (queue, matching_blocks)
  | S fuel' =>
      match queue with
      | [] => (queue, matching_blocks)
      | (alo, ahi, blo, bhi) :: queue' =>
          let '(i, j, k) := find_longest_match a b alo ahi blo bhi in
          if (k =? 0)%nat then blocks_loop a b fuel' queue' matching_blocks
          else
            let q1 := if ((alo <? i) && (blo <? j))%nat
                      then (alo, i, blo, j) :: queue' else queue' in
            let q2 := if ((i + k <? ahi) && (j + k <? bhi))%nat
                      then ((i + k)%nat, ahi, (j + k)%nat, bhi) :: q1 else q1 in
            blocks_loop a b fuel' q2 (matching_blocks ++ [(i, j, k)])
      end
  end.

(** Order of tuples, as [list.sort] uses it. *)
Definition triple_leb (x y : triple) : bool :=
  let '(i1, j1, k1) := x in
  let '(i2, j2, k2) := y in
  ((i1 <? i2) || ((i1 =? i2) && ((j1 <? j2) || ((j1 =? j2) && (k1 <=? k2)))))%nat.

Fixpoint insert_sorted (x : triple) (l : list triple) : list triple :=
  match l with
  | [] => [x]
  | y :: r => if triple_leb x y then x :: l else y :: insert_sorted x r
  end.

Definition sort (l : list triple) : list triple :=
  fold_right insert_sorted [] l.

(** Adjacent blocks are merged. *)
Fixpoint collapse (l : list triple) (cur : triple) (non_adjacent : list triple)
    : list triple :=
  let '(i1, j1, k1) := cur in
  match l with
  | [] => if (k1 =? 0)%nat then non_adjacent else non_adjacent ++ [cur]
  | (i2, j2, k2) :: r =>
      if ((i1 + k1 =? i2) && (j1 + k1 =? j2))%nat
      then collapse r (i1, j1, (k1 + k2)%nat) non_adjacent
      else collapse r (i2, j2, k2)
             (if (k1 =? 0)%nat then non_adjacent else non_adjacent ++ [cur])
  end.

(** Every pass of the loop that finds a block takes at least one element
    of [a] out of the ranges still to be searched, so [2 * len(a) + 1]
    passes empty the work list (lemma [get_matching_blocks_fuel]). *)
Definition get_matching_blocks (a b : list ascii) : list triple :=
  let la := length a in
  let lb := length b in
  let '(_, matching_blocks) :=
    blocks_loop a b (2 * la + 1) [(0%nat, la, 0%nat, lb)] [] in
  collapse (sort matching_blocks) (0%nat, 0%nat, 0%nat) [] ++ [(la, lb, 0%nat)].

Definition matches (a b : list ascii) : nat :=
  fold_right (fun t acc => (size_of t + acc)%nat) 0%nat (get_matching_blocks a b).

(** [_calculate_ratio(matches, length)]: the quotient [2.0 * matches /
    length]; the float Python holds is the one nearest to it, [Py.double]
    of it. *)
Definition calculate_ratio (m len : nat) : Q :=
  match len with
  | O => 1
  | S _ => Qmake (2 * Z.of_nat m) (Pos.of_nat len)
  end.

(** [SequenceMatcher(None, code1, code2).ratio()] *)
Definition ratio (code1 code2 : string) : Q :=
  let a := seq_of code1 in
  let b := seq_of code2 in
  calculate_ratio (matches a b) (length a + length b).

End Difflib.

(** ** The platform *)

(** What the interpreter and the operating system supply: [ast.parse]
    (which returns a tree or raises [SyntaxError]), [os.path.exists] and
    [pathlib.Path(p).stem]. *)
Record platform : Type := {
  ast_parse : string -> Py.outcome Ast.node;
  os_path_exists : string -> bool;
  path_stem : string -> string
}.

(** [try: tree = ast.parse(code) / except SyntaxError: tree = None] *)
Definition parse_or_none (pf : platform) (code : string) : option Ast.node :=
  match ast_parse pf code with
  | Py.Returned t => Some t
  | Py.Raised Py.SyntaxError => None
  end.

(** ** [duplicate_detector.py] *)

Module DuplicateCodeDetector.

Record detector : Type := {
  code : string;
  min_function_lines : Z;
  tree : option Ast.node
}.

(** An entry of the list [functions] of [detect]. *)
Record candidate : Type := {
  cand_name : string;
  cand_code : string;
  normalized : string;
  cand_line : Z
}.

(** An entry of [duplicates]. *)
Record duplicate : Type := {
  function1 : string;
  function2 : string;
  similarity : Q;
  line1 : Z;
  line2 : Z
}.

Record result : Type := {
  duplicate_pairs : Z;
  duplicates : list duplicate;
  duplication_percent : Q;
  severity : string
}.

Definition init (pf : platform) (code : string) (min_function_lines : Z)
    : detector :=
  {| code := code;
     min_function_lines := min_function_lines;
     tree := parse_or_none pf code |}.

Definition _empty_result : result :=
  {| duplicate_pairs := 0;
     duplicates := [];
     duplication_percent := 0;
     severity := "none" |}.

Definition _normalize_code (code : string) : string :=
  let lines :=
    map Py.strip (filter (fun line => Py.truthy (Py.strip line)) (Py.split_nl code)) in
  Py.lower (Py.join_nl lines).

Definition _calculate_similarity (code1 code2 : string) : Q :=
  Difflib.ratio code1 code2.

Definition _calculate_severity (duplicate_pairs : Z) (duplication_percent : Q)
    : string :=
  if duplicate_pairs =? 0 then "none"
  else if (duplicate_pairs <=? 2) && negb (Qle_bool 30 duplication_percent)
  then "low"
  else if (duplicate_pairs <=? 5) || negb (Qle_bool 50 duplication_percent)
  then "medium"
  else "high".

(** The lines of a function's text that are neither blank nor start with
    [def]. *)
Definition body_lines (func_code : string) : list string :=
  filter (fun line => Py.truthy (Py.strip line)
                      && negb (Py.startswith (Py.strip line) "def"))
         (Py.split_nl func_code).

(** One pass of the extraction loop over a node of the walk. *)
Definition extract_step (d : detector) (functions : list candidate)
    (node : Ast.node) : list candidate :=
  if Ast.is_FunctionDef node then
    if Py.startswith (Ast.name node) "test_" then functions
    else
      match Ast.get_source_segment node with
      | Some func_code =>
          if Py.truthy func_code then
            if min_function_lines d <=? Z.of_nat (length (body_lines func_code))
            then functions ++ [ {| cand_name := Ast.name node;
                                   cand_code := func_code;
                                   normalized := _normalize_code func_code;
                                   cand_line := Ast.lineno node |} ]
            else functions
          else functions
      | None => functions
      end
  else functions.

Definition extract (d : detector) (t : Ast.node) : list candidate :=
  fold_left (extract_step d) (Ast.walk t) [].

(** The state of the comparison loops: [duplicates] and
    [duplicate_function_names]. *)
Definition found : Type := (list duplicate * set string)%type.

Definition names_add (x : string) (s : set string) : set string :=
  set_add string_dec x s.

(** Body of the inner loop for the indices [i] and [j]. *)
Definition compare_pair (functions : list candidate) (i j : nat) (st : found)
    : found :=
  match nth_error functions i, nth_error functions j with
  | Some fi, Some fj =>
      let sim := Py.double (_calculate_similarity (normalized fi) (normalized fj)) in
      if Qle_bool (75 # 100) sim then
        (fst st ++ [ {| function1 := cand_name fi;
                        function2 := cand_name fj;
                        similarity := Py.round1 (Py.fmul sim 100);
                        line1 := cand_line fi;
                        line2 := cand_line fj |} ],
         names_add (cand_name fj) (names_add (cand_name fi) (snd st)))
      else st
  | _, _ => st
  end.

(** [for j in range(i + 1, len(functions))] *)
Definition inner_loop (functions : list candidate) (i : nat) (st : found)
    : found :=
  fold_left (fun st j => compare_pair functions i j st)
            (seq (i + 1) (length functions - (i + 1))) st.

(** [for i in range(len(functions))] *)
Definition compare_all (functions : list candidate) : found :=
  fold_left (fun st i => inner_loop functions i st)
            (seq 0 (length functions)) ([], empty_set string).

(** The part of [detect] after the extraction. *)
Definition detect_in (functions : list candidate) : result :=
  let '(dups, duplicate_function_names) := compare_all functions in
  let total_functions :=
    match functions with [] => 1%nat | _ => length functions end in
  let percent :=
    Py.fmul (Py.truediv (Z.of_nat (length duplicate_function_names))
               (Z.of_nat total_functions)) 100 in
  {| duplicate_pairs := Z.of_nat (length dups);
     duplicates := dups;
     duplication_percent := Py.round1 percent;
     severity := _calculate_severity (Z.of_nat (length dups)) percent |}.

Definition detect (d : detector) : result :=
  match tree d with
  | None => _empty_result
  | Some t => detect_in (extract d t)
  end.

Definition analyze (d : detector) : result :=
  match tree d with
  | None => _empty_result
  | Some _ =>
      let r := detect d in
      {| duplicate_pairs := duplicate_pairs r;
         duplicates := duplicates r;
         duplication_percent := duplication_percent r;
         severity := severity r |}
  end.

End DuplicateCodeDetector.

(** ** [coverage_analyzer.py] *)

Module CoverageAnalyzer.

Record function_entry : Type := {
  fn_name : string;
  fn_line : Z;
  is_test : bool
}.

Record class_entry : Type := {
  cls_name : string;
  cls_line : Z
}.

Record analyzer : Type := {
  code : string;
  filepath : string;
  tree : Ast.node;
  functions : list function_entry;
  classes : list class_entry
}.

(** The messages of [_generate_recommendations]; the third carries the
    number the message prints. *)
Inductive recommendation : Type :=
| AddUnitTests
| CreateTestsDirectory
| ImproveCoverage (current : Q)
| AddTestsForUntested.

Record result : Type := {
  has_tests : bool;
  coverage_estimate : Q;
  test_count : Z;
  function_count : Z;
  test_ratio : Q;
  coverage_level : string;
  recommendations : list recommendation
}.

(** One pass of the loop of [_extract_definitions]. *)
Definition extract_step (st : list function_entry * list class_entry)
    (node : Ast.node) : list function_entry * list class_entry :=
  if Ast.is_FunctionDef node then
    (fst st ++ [ {| fn_name := Ast.name node;
                    fn_line := Ast.lineno node;
                    is_test := Py.startswith (Ast.name node) "test_" |} ],
     snd st)
  else if Ast.is_ClassDef node then
    (fst st,
     snd st ++ [ {| cls_name := Ast.name node; cls_line := Ast.lineno node |} ])
  else st.

Definition _extract_definitions (t : Ast.node)
    : list function_entry * list class_entry :=
  fold_left extract_step (Ast.walk t) ([], []).

(** The constructor; [ast.parse] is called outside any [try]. *)
Definition init (pf : platform) (code filepath : string) : Py.outcome analyzer :=
  Py.bind (ast_parse pf code) (fun t =>
    let '(fs, cs) := _extract_definitions t in
    Py.Returned {| code := code; filepath := filepath; tree := t;
                   functions := fs; classes := cs |}).

Definition _check_test_file_exists (pf : platform) (a : analyzer) : bool :=
  if negb (Py.truthy (filepath a)) || String.eqb (filepath a) "code.py"
  then false
  else
    let base_name := path_stem pf (filepath a) in
    let test_file_patterns :=
      [ ("tests/test_" ++ base_name ++ ".py")%string;
        ("test_" ++ base_name ++ ".py")%string;
        (base_name ++ "_test.py")%string ] in
    existsb (os_path_exists pf) test_file_patterns.

Definition check_test_presence (pf : platform) (a : analyzer) : bool :=
  let has_tests_in_file := existsb is_test (functions a) in
  let has_test_file := _check_test_file_exists pf a in
  has_tests_in_file || has_test_file.

Definition count_tests (a : analyzer) : Z :=
  Z.of_nat (length (filter is_test (functions a))).

Definition estimate_coverage (pf : platform) (a : analyzer) : Q :=
  if check_test_presence pf a then
    let test_functions := count_tests a in
    let non_test_functions := Z.of_nat (length (functions a)) - test_functions in
    if non_test_functions =? 0 then
      if 0 <? test_functions then 100 else 0
    else
      let coverage_ratio :=
        Py.qmin (Py.truediv test_functions non_test_functions) 1 in
      Py.round1 (Py.fmul coverage_ratio 100)
  else 0.

Definition _get_coverage_level (coverage : Q) : string :=
  if Qle_bool 80 coverage then "excellent"
  else if Qle_bool 60 coverage then "good"
  else if Qle_bool 40 coverage then "moderate"
  else if negb (Qle_bool coverage 0) then "low"
  else "none".

Definition _generate_recommendations (has_tests : bool) (coverage : Q)
    : list recommendation :=
  if negb has_tests then [AddUnitTests; CreateTestsDirectory]
  else if negb (Qle_bool 60 coverage)
  then [ImproveCoverage coverage; AddTestsForUntested]
  else [].

Definition analyze (pf : platform) (a : analyzer) : result :=
  let has_tests := check_test_presence pf a in
  let coverage_estimate := estimate_coverage pf a in
  let test_functions := filter is_test (functions a) in
  let non_test_functions := filter (fun f => negb (is_test f)) (functions a) in
  {| has_tests := has_tests;
     coverage_estimate := coverage_estimate;
     test_count := Z.of_nat (length test_functions);
     function_count := Z.of_nat (length non_test_functions);
     test_ratio :=
       match non_test_functions with
       | [] => 0
       | _ => Py.round2 (Py.truediv (Z.of_nat (length test_functions))
                           (Z.of_nat (length non_test_functions)))
       end;
     coverage_level := _get_coverage_level coverage_estimate;
     recommendations := _generate_recommendations has_tests coverage_estimate |}.

End CoverageAnalyzer.

(** ** [metrics.py] *)

Module CodeMetrics.

Record analyzer : Type := {
  code : string;
  filename : string;
  tree : option Ast.node
}.

Record name_info : Type := {
  count : Z;
  names : list string
}.

Record complex_function : Type := {
  cf_name : string;
  cf_complexity : Z;
  cf_line : Z
}.

Record complexity_info : Type := {
  average : Q;
  maximum : Z;
  complex_functions : list complex_function
}.

Record docstring_info : Type := {
  total_functions : Z;
  functions_documented : Z;
  total_classes : Z;
  classes_documented : Z;
  coverage_percent : Q
}.

(** The two messages of [_check_code_style], with the values they print. *)
Inductive issue_message : Type :=
| TooLong (name : string) (func_length : Z)
| TooManyParameters (name : string) (n : Z).

Record issue : Type := {
  issue_line : Z;
  message : issue_message
}.

Record style_info : Type := {
  issues_count : Z;
  issues : list issue
}.

(** The dictionary under ['coverage']: the one [CoverageAnalyzer.analyze]
    builds, or the one [_empty_metrics] writes out, which has other keys. *)
Inductive coverage_dict : Type :=
| CoverageOf (r : CoverageAnalyzer.result)
| CoverageEmpty (has_tests : bool) (test_functions : Z)
    (coverage_estimate : Q) (coverage_level : string).

(** [coverage.get('coverage_estimate', 0)] *)
Definition get_coverage_estimate (c : coverage_dict) : Q :=
  match c with
  | CoverageOf r => CoverageAnalyzer.coverage_estimate r
  | CoverageEmpty _ _ e _ => e
  end.

Record breakdown : Type := {
  b_documentation : Q;
  b_complexity : Q;
  b_code_style : Q;
  b_structure : Q;
  b_duplication : Q;
  b_test_coverage : Q
}.

Record score : Type := {
  total : Q;
  letter_grade : string;
  score_breakdown : breakdown
}.

(** The dictionary [metrics] before ['overall_score'] is stored in it. *)
Record measures : Type := {
  m_filename : string;
  total_lines : Z;
  code_lines : Z;
  functions : name_info;
  classes : name_info;
  imports : Z;
  complexity : complexity_info;
  docstrings : docstring_info;
  code_style : style_info;
  duplication : DuplicateCodeDetector.result;
  coverage : coverage_dict
}.

Record report : Type := {
  metrics : measures;
  overall_score : score
}.

Definition init (pf : platform) (code filename : string) : analyzer :=
  {| code := code; filename := filename; tree := parse_or_none pf code |}.

Definition _count_code_lines (a : analyzer) : Z :=
  let lines := Py.split_nl (code a) in
  fold_left (fun code_lines line =>
               let stripped := Py.strip line in
               if Py.truthy stripped && negb (Py.startswith stripped "#")
               then code_lines + 1 else code_lines)
            lines 0.

Definition _function_info (t : Ast.node) : name_info :=
  let functions := filter Ast.is_FunctionDef (Ast.walk t) in
  {| count := Z.of_nat (length functions); names := map Ast.name functions |}.

Definition _class_info (t : Ast.node) : name_info :=
  let classes := filter Ast.is_ClassDef (Ast.walk t) in
  {| count := Z.of_nat (length classes); names := map Ast.name classes |}.

Definition _import_info (t : Ast.node) : Z :=
  Z.of_nat (length (filter Ast.is_import (Ast.walk t))).

(** One pass of the loop of [_calculate_complexity]. *)
Definition complexity_step (complexity : Z) (child : Ast.node) : Z :=
  match Ast.node_kind child with
  | Ast.If | Ast.While | Ast.For | Ast.ExceptHandler | Ast.With => complexity + 1
  | Ast.BoolOp nvalues => complexity + (Z.of_nat nvalues - 1)
  | _ => complexity
  end.

Definition _calculate_complexity (node : Ast.node) : Z :=
  fold_left complexity_step (Ast.walk node) 1.

Definition non_test_functions (t : Ast.node) : list Ast.node :=
  filter (fun node => Ast.is_FunctionDef node
                      && negb (Py.startswith (Ast.name node) "test_"))
         (Ast.walk t).

(** One pass of the loop of [_function_complexity]. *)
Definition function_step (st : list Z * list complex_function) (func : Ast.node)
    : list Z * list complex_function :=
  let complexity := _calculate_complexity func in
  (fst st ++ [complexity],
   if 10 <? complexity
   then snd st ++ [ {| cf_name := Ast.name func;
                       cf_complexity := complexity;
                       cf_line := Ast.lineno func |} ]
   else snd st).

(** [_function_complexity]; [avg_complexity] is the exact quotient. *)
Definition _function_complexity (t : Ast.node) : complexity_info :=
  match non_test_functions t with
  | [] => {| average := 1; maximum := 1; complex_functions := [] |}
  | functions =>
      let '(complexities, complex_funcs) :=
        fold_left function_step functions ([], []) in
      let avg_complexity :=
        (inject_Z (Py.sum complexities)
         / inject_Z (Z.of_nat (length complexities)))%Q in
      {| average := Py.round1 avg_complexity;
         maximum := match complexities with
                    | [] => 1
                    | _ => Py.max_list complexities
                    end;
         complex_functions := complex_funcs |}
  end.

Definition count_documented (l : list Ast.node) : Z :=
  Z.of_nat (length (filter (fun n => Ast.truthy (Ast.get_docstring n)) l)).

Definition _check_docstrings (t : Ast.node) : docstring_info :=
  let functions := filter Ast.is_FunctionDef (Ast.walk t) in
  let classes := filter Ast.is_ClassDef (Ast.walk t) in
  let functions_with_docs := count_documented functions in
  let classes_with_docs := count_documented classes in
  let total_items := Z.of_nat (length functions) + Z.of_nat (length classes) in
  let documented_items := functions_with_docs + classes_with_docs in
  let coverage :=
    if 0 <? total_items
    then Py.fmul (Py.truediv documented_items total_items) 100
    else 0%Q in
  {| total_functions := Z.of_nat (length functions);
     functions_documented := functions_with_docs;
     total_classes := Z.of_nat (length classes);
     classes_documented := classes_with_docs;
     coverage_percent := Py.round1 coverage |}.

(** One pass of the loop of [_check_code_style]. *)
Definition style_step (issues : list issue) (node : Ast.node) : list issue :=
  if Ast.is_FunctionDef node then
    let func_length := Ast.end_lineno node - Ast.lineno node in
    let issues1 :=
      if 50 <? func_length
      then issues ++ [ {| issue_line := Ast.lineno node;
                          message := TooLong (Ast.name node) func_length |} ]
      else issues in
    if (5 <? Ast.nargs node)%nat
    then issues1 ++ [ {| issue_line := Ast.lineno node;
                         message := TooManyParameters (Ast.name node)
                                      (Z.of_nat (Ast.nargs node)) |} ]
    else issues1
  else issues.

Definition _check_code_style (t : Ast.node) : style_info :=
  let issues := fold_left style_step (Ast.walk t) [] in
  {| issues_count := Z.of_nat (length issues); issues := issues |}.

(** [DuplicateCodeDetector(self.code).analyze()] *)
Definition _check_duplication (pf : platform) (a : analyzer)
    : DuplicateCodeDetector.result :=
  DuplicateCodeDetector.analyze (DuplicateCodeDetector.init pf (code a) 3).

(** [CoverageAnalyzer(self.code).analyze()] *)
Definition _check_coverage (pf : platform) (a : analyzer)
    : Py.outcome CoverageAnalyzer.result :=
  Py.bind (CoverageAnalyzer.init pf (code a) "code.py") (fun an =>
    Py.Returned (CoverageAnalyzer.analyze pf an)).

Definition grade_of (total : Q) : string :=
  if Qle_bool 90 total then "A"
  else if Qle_bool 80 total then "B"
  else if Qle_bool 70 total then "C"
  else if Qle_bool 60 total then "D"
  else "F".

(** [_calculate_score].  The percentages of the report are decimals
    ([round(x, 1)]); the float that enters the arithmetic is the one
    nearest to the decimal, [Py.double]. *)
Definition _calculate_score (m : measures) : score :=
  let doc_coverage := coverage_percent (docstrings m) in
  let doc_score := Py.fmul (Py.fdiv (Py.double doc_coverage) 100) 15 in
  let avg_complexity := average (complexity m) in
  let complexity_score : Q :=
    (if Qle_bool avg_complexity 5 then 20
     else if Qle_bool avg_complexity 10 then 15
     else if Qle_bool avg_complexity 15 then 10
     else 5)%Q in
  let style_issues := issues_count (code_style m) in
  let style_score : Q :=
    if style_issues =? 0 then 20%Q
    else if style_issues <=? 3 then 15%Q
    else if style_issues <=? 10 then 10%Q
    else 5%Q in
  let structure0 := 15 in
  let structure1 :=
    if count (functions m) =? 0 then structure0 - 5 else structure0 in
  let structure2 :=
    if 500 <? code_lines m then structure1 - 5 else structure1 in
  let structure_score := Z.max 0 structure2 in
  let duplication_percent :=
    DuplicateCodeDetector.duplication_percent (duplication m) in
  let duplication_score : Q :=
    (if Qeq_bool duplication_percent 0 then 15
     else if negb (Qle_bool 10 duplication_percent) then 12
     else if negb (Qle_bool 25 duplication_percent) then 8
     else 3)%Q in
  let coverage_estimate := get_coverage_estimate (coverage m) in
  let coverage_score : Q :=
    (if Qle_bool 80 coverage_estimate then 15
     else if Qle_bool 60 coverage_estimate then 12
     else if Qle_bool 40 coverage_estimate then 8
     else if Qle_bool 20 coverage_estimate then 5
     else 0)%Q in
  let total :=
    Py.round1
      (Py.fadd
         (Py.fadd
            (Py.fadd
               (Py.fadd (Py.fadd doc_score complexity_score) style_score)
               (inject_Z structure_score))
            duplication_score)
         coverage_score) in
  {| total := total;
     letter_grade := grade_of total;
     score_breakdown :=
       {| b_documentation := Py.round1 doc_score;
          b_complexity := Py.round1 complexity_score;
          b_code_style := Py.round1 style_score;
          b_structure := Py.round1 (inject_Z structure_score);
          b_duplication := Py.round1 duplication_score;
          b_test_coverage := Py.round1 coverage_score |} |}.

Definition _empty_metrics (a : analyzer) : report :=
  {| metrics :=
       {| m_filename := filename a;
          total_lines := 0;
          code_lines := 0;
          functions := {| count := 0; names := [] |};
          classes := {| count := 0; names := [] |};
          imports := 0;
          complexity := {| average := 0; maximum := 0; complex_functions := [] |};
          docstrings := {| total_functions := 0;
                           functions_documented := 0;
                           total_classes := 0;
                           classes_documented := 0;
                           coverage_percent := 0 |};
          code_style := {| issues_count := 0; issues := [] |};
          duplication :=
            {| DuplicateCodeDetector.duplicate_pairs := 0;
               DuplicateCodeDetector.duplicates := [];
               DuplicateCodeDetector.duplication_percent := 0;
               DuplicateCodeDetector.severity := "none" |};
          coverage := CoverageEmpty false 0 0 "none" |};
     overall_score :=
       {| total := 0;
          letter_grade := "F";
          score_breakdown :=
            {| b_documentation := 0; b_complexity := 0; b_code_style := 0;
               b_structure := 0; b_duplication := 0; b_test_coverage := 0 |} |} |}.

(** [analyze]: the entries of the dictionary are evaluated in the order
    they are written; an exception of one of them leaves [analyze]. *)
Definition analyze (pf : platform) (a : analyzer) : Py.outcome report :=
  match tree a with
  | None => Py.Returned (_empty_metrics a)
  | Some t =>
      let total_lines := Z.of_nat (length (Py.split_nl (code a))) in
      let code_lines := _count_code_lines a in
      let functions := _function_info t in
      let classes := _class_info t in
      let imports := _import_info t in
      let complexity := _function_complexity t in
      let docstrings := _check_docstrings t in
      let code_style := _check_code_style t in
      let duplication := _check_duplication pf a in
      Py.bind (_check_coverage pf a) (fun cov =>
        let m := {| m_filename := filename a;
                    total_lines := total_lines;
                    code_lines := code_lines;
                    functions := functions;
                    classes := classes;
                    imports := imports;
                    complexity := complexity;
                    docstrings := docstrings;
                    code_style := code_style;
                    duplication := duplication;
                    coverage := CoverageOf cov |} in
        Py.Returned {| metrics := m; overall_score := _calculate_score m |})
  end.

End CodeMetrics.

(** ** Concrete platforms and inputs *)

Module Examples.

(** A platform whose parser knows the listed texts and raises
    [SyntaxError] on any other, with no file on disk. *)
Fixpoint lookup_source (table : list (string * Ast.node)) (code : string)
    : Py.outcome Ast.node :=
  match table with
  | [] => Py.Raised Py.SyntaxError
  | (text, t) :: rest =>
      if String.eqb text code then Py.Returned t else lookup_source rest code
  end.

Definition known_sources (table : list (string * Ast.node)) : platform :=
  {| ast_parse := lookup_source table;
     os_path_exists := fun _ => false;
     path_stem := fun p => p |}.

(** [ast.parse("")] is [Module(body=[])]: a node without children. *)
Definition empty_module : Ast.node := Ast.Node Ast.Other [].

Definition pf_empty : platform := known_sources [("", empty_module)].

(** The text of the repository's test of invalid syntax. *)
Definition invalid_text : string := "def invalid syntax here".

(** Building blocks of parsed modules: a node without children
    ([arg], [Constant], [Load], [Store]), a [Name] with its context, an
    [arguments] node with [n] positional parameters, an [Assign] and a
    [Return]. *)
Definition leaf : Ast.node := Ast.Node Ast.Other [].
Definition name_node : Ast.node := Ast.Node Ast.Other [leaf].
Definition arguments (n : nat) : Ast.node := Ast.Node Ast.Other (repeat leaf n).
Definition assign (value : Ast.node) : Ast.node :=
  Ast.Node Ast.Other [name_node; value].
Definition return_ (value : Ast.node) : Ast.node := Ast.Node Ast.Other [value].

Definition text_f : string :=
"def f(a, b):
    a = b
    b = a
    a = b".

Definition text_g : string :=
"def g(a, b):
    b = 2
    a = b
    a = b".

Definition text_g2 : string :=
"def g(a, b):
    a = b
    b = a
    a = b".

Definition text_h : string :=
"def h(x):
    x = 0
    x = 1
    return 7".

Definition blank : string := String Py.newline (String Py.newline EmptyString).
Definition nl : string := String Py.newline EmptyString.

(** A module with the functions [f] and [g] of three statements each. *)
Definition two_functions_text : string :=
  (text_f ++ blank ++ text_g ++ nl)%string.

Definition def_f (lineno : Z) : Ast.node :=
  Ast.Node (Ast.FunctionDef "f" lineno (lineno + 3) 2 None (Some text_f))
    [arguments 2; assign name_node; assign name_node; assign name_node].

Definition def_g (lineno : Z) : Ast.node :=
  Ast.Node (Ast.FunctionDef "g" lineno (lineno + 3) 2 None (Some text_g))
    [arguments 2; assign leaf; assign name_node; assign name_node].

Definition def_g2 (lineno : Z) : Ast.node :=
  Ast.Node (Ast.FunctionDef "g" lineno (lineno + 3) 2 None (Some text_g2))
    [arguments 2; assign name_node; assign name_node; assign name_node].

Definition def_h (lineno : Z) : Ast.node :=
  Ast.Node (Ast.FunctionDef "h" lineno (lineno + 3) 1 None (Some text_h))
    [arguments 1; assign leaf; assign leaf; return_ leaf].

Definition two_functions : Ast.node := Ast.Node Ast.Other [def_f 1; def_g 6].

(** A module with [f], a copy of [f] named [g], and an unrelated [h]. *)
Definition three_functions_text : string :=
  (text_f ++ blank ++ text_g2 ++ blank ++ text_h ++ nl)%string.

Definition three_functions : Ast.node :=
  Ast.Node Ast.Other [def_f 1; def_g2 6; def_h 11].

Definition pf_examples : platform :=
  known_sources [ ("", empty_module);
                  (two_functions_text, two_functions);
                  (three_functions_text, three_functions) ].

(** The module [def f(): return 1 / def test_f(): assert f()==1]. *)
Definition tested_text : string :=
"def f(): return 1
def test_f(): assert f()==1".

Definition call_node : Ast.node := Ast.Node Ast.Other [name_node].
Definition assert_node : Ast.node :=
  Ast.Node Ast.Other [Ast.Node Ast.Other [call_node; leaf; leaf]].

Definition tested_module : Ast.node :=
  Ast.Node Ast.Other
    [ Ast.Node (Ast.FunctionDef "f" 1 1 0 None (Some "def f(): return 1"))
        [arguments 0; return_ leaf];
      Ast.Node (Ast.FunctionDef "test_f" 2 2 0 None
                  (Some "def test_f(): assert f()==1"))
        [arguments 0; assert_node] ].

(** The analyzer [CoverageAnalyzer(tested_text)] holds. *)
Definition tested_analyzer : CoverageAnalyzer.analyzer :=
  {| CoverageAnalyzer.code := tested_text;
     CoverageAnalyzer.filepath := "code.py";
     CoverageAnalyzer.tree := tested_module;
     CoverageAnalyzer.functions :=
       fst (CoverageAnalyzer._extract_definitions tested_module);
     CoverageAnalyzer.classes :=
       snd (CoverageAnalyzer._extract_definitions tested_module) |}.

(** A function with three [if] statements one after the other:
    [def sign(x): if x > 0: return 1 / if x < 0: return -1 /
    if x == 0: return 0 / return x]. *)
Definition compare_node : Ast.node := Ast.Node Ast.Other [name_node; leaf; leaf].
Definition if_return : Ast.node :=
  Ast.Node Ast.If [compare_node; return_ leaf].
Definition three_ifs : Ast.node :=
  Ast.Node (Ast.FunctionDef "sign" 1 8 1 None None)
    [arguments 1; if_return; if_return; if_return; return_ name_node].

End Examples.

(** ** Reference definitions used in the statements *)

Module Ref.

(** The candidate functions of a detector: what [detect] extracts, none
    when the text did not parse. *)
Definition candidates (d : DuplicateCodeDetector.detector)
    : list DuplicateCodeDetector.candidate :=
  match DuplicateCodeDetector.tree d with
  | None => []
  | Some t => DuplicateCodeDetector.extract d t
  end.

(** The index pairs [(i, j)] with [i < j < n], in the order of the two
    loops. *)
Definition index_pairs (n : nat) : list (nat * nat) :=
  flat_map (fun i => map (pair i) (seq (i + 1) (n - (i + 1)))) (seq 0 n).

Definition similar (fs : list DuplicateCodeDetector.candidate) (p : nat * nat)
    : bool :=
  match nth_error fs (fst p), nth_error fs (snd p) with
  | Some fi, Some fj =>
      Qle_bool (75 # 100)
        (Py.double
           (DuplicateCodeDetector._calculate_similarity
              (DuplicateCodeDetector.normalized fi)
              (DuplicateCodeDetector.normalized fj)))
  | _, _ => false
  end.

(** The index pairs that are recorded as duplicates. *)
Definition recorded_pairs (fs : list DuplicateCodeDetector.candidate)
    : list (nat * nat) :=
  filter (similar fs) (index_pairs (length fs)).

(** The entry [detect] appends for the candidates at [i] and [j]. *)
Definition duplicate_of (fs : list DuplicateCodeDetector.candidate) (p : nat * nat)
    : list DuplicateCodeDetector.duplicate :=
  match nth_error fs (fst p), nth_error fs (snd p) with
  | Some fi, Some fj =>
      [ {| DuplicateCodeDetector.function1 := DuplicateCodeDetector.cand_name fi;
           DuplicateCodeDetector.function2 := DuplicateCodeDetector.cand_name fj;
           DuplicateCodeDetector.similarity :=
             Py.round1
               (Py.fmul
                  (Py.double
                     (DuplicateCodeDetector._calculate_similarity
                        (DuplicateCodeDetector.normalized fi)
                        (DuplicateCodeDetector.normalized fj)))
                  100);
           DuplicateCodeDetector.line1 := DuplicateCodeDetector.cand_line fi;
           DuplicateCodeDetector.line2 := DuplicateCodeDetector.cand_line fj |} ]
  | _, _ => []
  end.

(** The set of names after the two names of every entry were added. *)
Definition names_after (dups : list DuplicateCodeDetector.duplicate)
    (s : set string) : set string :=
  fold_left (fun s d =>
               DuplicateCodeDetector.names_add (DuplicateCodeDetector.function2 d)
                 (DuplicateCodeDetector.names_add (DuplicateCodeDetector.function1 d) s))
            dups s.

(** The names that occur in a list of duplicates, each once. *)
Definition names_in (dups : list DuplicateCodeDetector.duplicate) : list string :=
  nodup string_dec
    (flat_map (fun d => [DuplicateCodeDetector.function1 d;
                         DuplicateCodeDetector.function2 d]) dups).

(** A binary64 number: [m * 2^e] with [|m| <= 2^53] and an exponent of
    at least -1074; [2^53 * 2^e] is the float [2^52 * 2^(e+1)].  (The
    largest exponent is left out: no value of the code comes near it.) *)
Definition is_float (d : Q) : Prop :=
  exists m e : Z, Z.abs m <= 2 ^ 53 /\ -1074 <= e /\ (d == inject_Z m * 2 ^ e)%Q.

(** [d] is a float and no float is nearer to [x]. *)
Definition nearest_float (x d : Q) : Prop :=
  is_float d /\ forall d', is_float d' -> (Qabs (d - x) <= Qabs (d' - x))%Q.

(** [t] is a number of tenths and no number of tenths is nearer to [x]. *)
Definition nearest_tenth (x t : Q) : Prop :=
  (exists k : Z, t == inject_Z k / 10)%Q
  /\ forall k' : Z, (Qabs (t - x) <= Qabs (inject_Z k' / 10 - x))%Q.

(** The percentage before rounding. *)
Definition raw_percent (names candidates : nat) : Q :=
  Py.fmul (Py.truediv (Z.of_nat names) (Z.of_nat (Nat.max candidates 1))) 100.

(** [a[i]] and [b[j]] are equal and not popular in [b]: the position [j]
    is met in row [i] of [find_longest_match]. *)
Definition matchable (a b : list ascii) (i j : nat) : bool :=
  match nth_error a i, nth_error b j with
  | Some x, Some y => Ascii.eqb y x && negb (Difflib.popular b y)
  | _, _ => false
  end.

(** Length of the run of such positions that ends at [(i, j)] and goes
    back along the diagonal: the value [j2len] holds for [j] after row
    [i]. *)
Fixpoint run_length (a b : list ascii) (i j : nat) : nat :=
  if matchable a b i j
  then S (match i, j with
          | S i', S j' => run_length a b i' j'
          | _, _ => 0%nat
          end)
  else 0%nat.

(** What [j2len.get(j-1, 0)] reads in row [i]. *)
Definition run_pred (a b : list ascii) (i j : nat) : nat :=
  match i, j with
  | S i', S j' => run_length a b i' j'
  | _, _ => 0%nat
  end.

(** [b[j] == c] *)
Definition at_char (b : list ascii) (c : ascii) (j : nat) : bool :=
  match nth_error b j with
  | Some y => Ascii.eqb y c
  | None => false
  end.

(** The best match found before row [i] when a sequence is compared with
    itself: it lies on the diagonal, within the rows seen, and is at least
    as long as every diagonal run seen. *)
Definition on_diagonal (a : list ascii) (i : nat) (best : Difflib.triple) : Prop :=
  fst (fst best) = snd (fst best)
  /\ (fst (fst best) + snd best <= i)%nat
  /\ forall i', (i' < i)%nat -> (run_length a a i' i' <= snd best)%nat.

(** A match lies within the ranges it was searched in. *)
Definition in_range (alo ahi blo bhi : nat) (t : Difflib.triple) : Prop :=
  (alo <= fst (fst t))%nat /\ (fst (fst t) + snd t <= ahi)%nat
  /\ (blo <= snd (fst t))%nat /\ (snd (fst t) + snd t <= bhi)%nat.

(** Before row [i] no run is longer than the rows and columns it can
    cover. *)
Definition dict_bounded (alo blo i : nat) (d : Difflib.dict) : Prop :=
  forall x, (d x <= i - alo)%nat /\ (d x <= x + 1 - blo)%nat.

Definition well_formed (r : Difflib.range4) : Prop :=
  let '(alo, ahi, blo, bhi) := r in (alo <= ahi)%nat /\ (blo <= bhi)%nat.

(** The passes of [get_matching_blocks] a work list can still cause. *)
Definition work (queue : list Difflib.range4) : nat :=
  fold_right (fun r acc =>
                let '(alo, ahi, _, _) := r in (2 * (ahi - alo) + 1 + acc)%nat)
             0%nat queue.

(** Conditionals, loops, exception handlers and [with] blocks. *)
Definition is_branch (n : Ast.node) : bool :=
  match Ast.node_kind n with
  | Ast.If | Ast.While | Ast.For | Ast.ExceptHandler | Ast.With => true
  | _ => false
  end.

Definition is_BoolOp (n : Ast.node) : bool :=
  match Ast.node_kind n with Ast.BoolOp _ => true | _ => false end.

(** Operands of a boolean combinator beyond the first. *)
Definition extra_operands (n : Ast.node) : Z :=
  match Ast.node_kind n with
  | Ast.BoolOp nvalues => Z.of_nat nvalues - 1
  | _ => 0
  end.

Definition sum_extra_operands (l : list Ast.node) : Z :=
  fold_right (fun n acc => extra_operands n + acc) 0 l.

Definition function_entry_of (n : Ast.node) : CoverageAnalyzer.function_entry :=
  {| CoverageAnalyzer.fn_name := Ast.name n;
     CoverageAnalyzer.fn_line := Ast.lineno n;
     CoverageAnalyzer.is_test := Py.startswith (Ast.name n) "test_" |}.

Definition class_entry_of (n : Ast.node) : CoverageAnalyzer.class_entry :=
  {| CoverageAnalyzer.cls_name := Ast.name n;
     CoverageAnalyzer.cls_line := Ast.lineno n |}.

End Ref.

(** ** [report_generator.py] *)

Module ReportGenerator.

(** A text with characters beyond 255, as the list of its code points. *)
Definition ustr : Type := list N.

Definition full_block : N := 9608%N.
Definition light_shade : N := 9617%N.
Definition left_bracket : N := 91%N.
Definition right_bracket : N := 93%N.

(** [int(x)] on a float: the integer part, rounding toward zero. *)
Definition int_of_float (x : Q) : Z := Z.quot (Qnum x) (Zpos (Qden x)).

(** [c * n] on a one-character text: empty when [n] is not positive. *)
Definition times (c : N) (n : Z) : ustr := repeat c (Z.to_nat n).

(** [_progress_bar(value, max_value, width)]; [None] stands for the
    [ZeroDivisionError] of [value / max_value]; the product is the exact
    one. *)
Definition _progress_bar (value max_value : Q) (width : Z) : option ustr :=
  if Qeq_bool max_value 0 then None
  else
    let filled := int_of_float (value / max_value * inject_Z width) in
    let empty := width - filled in
    Some ([left_bracket] ++ times full_block filled
          ++ times light_shade empty ++ [right_bracket]).

(** The bars of the six breakdown lines of [generate_text_report], each
    with the default width 20. *)
Definition breakdown_bars (b : CodeMetrics.breakdown) : list (option ustr) :=
  [ _progress_bar (CodeMetrics.b_documentation b) 15 20;
    _progress_bar (CodeMetrics.b_complexity b) 20 20;
    _progress_bar (CodeMetrics.b_code_style b) 20 20;
    _progress_bar (CodeMetrics.b_structure b) 15 20;
    _progress_bar (CodeMetrics.b_duplication b) 15 20;
    _progress_bar (CodeMetrics.b_test_coverage b) 15 20 ].

(** [', '.join(names)] *)
Fixpoint join_comma (names : list string) : string :=
  match names with
  | [] => EmptyString
  | [n] => n
  | n :: rest => (n ++ ", " ++ join_comma rest)%string
  end.

(** [coverage.get('has_tests', False)]: both dictionaries have the key. *)
Definition coverage_get_has_tests (c : CodeMetrics.coverage_dict) : bool :=
  match c with
  | CodeMetrics.CoverageOf r => CoverageAnalyzer.has_tests r
  | CodeMetrics.CoverageEmpty h _ _ _ => h
  end.

(** [coverage.get('test_functions', 0)]: the dictionary of
    [CoverageAnalyzer.analyze] has no such key. *)
Definition coverage_get_test_functions (c : CodeMetrics.coverage_dict) : Z :=
  match c with
  | CodeMetrics.CoverageOf _ => 0
  | CodeMetrics.CoverageEmpty _ t _ _ => t
  end.

(** The messages of [_generate_recommendations], with the values they
    print. *)
Inductive recommendation : Type :=
| AddDocstrings (current_coverage : Q)
| ReduceComplexity (func_names : string)
| RemoveDuplication (pairs : Z)
| AddUnitTests
| IncreaseCoverage (current : Q)
| FixStyle (issues : Z)
| ExcellentQuality.

Definition _generate_recommendations (r : CodeMetrics.report)
    : list recommendation :=
  let m := CodeMetrics.metrics r in
  let doc_coverage := CodeMetrics.coverage_percent (CodeMetrics.docstrings m) in
  let rec1 :=
    if negb (Qle_bool 80 doc_coverage) then [AddDocstrings doc_coverage] else [] in
  let complex_funcs := CodeMetrics.complex_functions (CodeMetrics.complexity m) in
  let rec2 :=
    match complex_funcs with
    | [] => rec1
    | _ => rec1 ++ [ReduceComplexity
                      (join_comma (map CodeMetrics.cf_name (firstn 3 complex_funcs)))]
    end in
  let pairs := DuplicateCodeDetector.duplicate_pairs (CodeMetrics.duplication m) in
  let rec3 := if 0 <? pairs then rec2 ++ [RemoveDuplication pairs] else rec2 in
  let coverage := CodeMetrics.coverage m in
  let rec4 :=
    if negb (coverage_get_has_tests coverage) then rec3 ++ [AddUnitTests]
    else if negb (Qle_bool 80 (CodeMetrics.get_coverage_estimate coverage))
    then rec3 ++ [IncreaseCoverage (CodeMetrics.get_coverage_estimate coverage)]
    else rec3 in
  let style_issues := CodeMetrics.issues_count (CodeMetrics.code_style m) in
  let rec5 := if 0 <? style_issues then rec4 ++ [FixStyle style_issues] else rec4 in
  match rec5 with
  | [] => [ExcellentQuality]
  | _ => rec5
  end.

End ReportGenerator.

(** ** The helpers of [web_app.py] that compute *)

Module WebApp.

(** The messages of [generate_recommendations], with the values they
    print. *)
Inductive recommendation : Type :=
| AddDocstrings (current_coverage : Q)
| SimplifyComplex (found : Z)
| RemoveDuplication (pairs : Z)
| AddUnitTests
| FixStyle (issues : Z)
| ExcellentQuality.

Definition generate_recommendations (r : CodeMetrics.report) : list recommendation :=
  let m := CodeMetrics.metrics r in
  let doc_coverage := CodeMetrics.coverage_percent (CodeMetrics.docstrings m) in
  let rec1 :=
    if negb (Qle_bool 80 doc_coverage) then [AddDocstrings doc_coverage] else [] in
  let complex_funcs := CodeMetrics.complex_functions (CodeMetrics.complexity m) in
  let rec2 :=
    match complex_funcs with
    | [] => rec1
    | _ => rec1 ++ [SimplifyComplex (Z.of_nat (length complex_funcs))]
    end in
  let pairs := DuplicateCodeDetector.duplicate_pairs (CodeMetrics.duplication m) in
  let rec3 := if 0 <? pairs then rec2 ++ [RemoveDuplication pairs] else rec2 in
  let rec4 :=
    if negb (ReportGenerator.coverage_get_has_tests (CodeMetrics.coverage m))
    then rec3 ++ [AddUnitTests] else rec3 in
  let style_issues := CodeMetrics.issues_count (CodeMetrics.code_style m) in
  let rec5 := if 0 <? style_issues then rec4 ++ [FixStyle style_issues] else rec4 in
  match rec5 with
  | [] => [ExcellentQuality]
  | _ => rec5
  end.

(** [colors.get(grade, '#6c757d')] *)
Definition get_grade_color (grade : string) : string :=
  if String.eqb grade "A" then "#28a745"
  else if String.eqb grade "B" then "#5cb85c"
  else if String.eqb grade "C" then "#ffc107"
  else if String.eqb grade "D" then "#fd7e14"
  else if String.eqb grade "F" then "#dc3545"
  else "#6c757d".

(** The five labels, as code points: excellent, good, average, below
    average, poor. *)
Definition label_excellent : ReportGenerator.ustr :=
  [1054; 1090; 1083; 1080; 1095; 1085; 1086]%N.
Definition label_good : ReportGenerator.ustr :=
  [1061; 1086; 1088; 1086; 1096; 1086]%N.
Definition label_average : ReportGenerator.ustr :=
  [1057; 1088; 1077; 1076; 1085; 1077]%N.
Definition label_below_average : ReportGenerator.ustr :=
  [1053; 1080; 1078; 1077; 32; 1089; 1088; 1077; 1076; 1085; 1077; 1075; 1086]%N.
Definition label_poor : ReportGenerator.ustr :=
  [1055; 1083; 1086; 1093; 1086]%N.

Definition get_quality_label (score : Q) : ReportGenerator.ustr :=
  if Qle_bool 90 score then label_excellent
  else if Qle_bool 80 score then label_good
  else if Qle_bool 70 score then label_average
  else if Qle_bool 60 score then label_below_average
  else label_poor.

End WebApp.

(** ** Further reference definitions *)

Module Terms.

(** The nodes [n] levels below the nodes of [l], left to right. *)
Fixpoint level (n : nat) (l : list Ast.node) : list Ast.node :=
  match n with
  | O => l
  | S n' => level n' (flat_map Ast.iter_child_nodes l)
  end.

(** The nodes of the first [depth] levels of a tree, level by level. *)
Definition level_order (depth : nat) (t : Ast.node) : list Ast.node :=
  flat_map (fun d => level d [t]) (seq 0 depth).

(** What a node itself adds to the complexity. *)
Definition own_weight (k : Ast.kind) : Z :=
  match k with
  | Ast.If | Ast.While | Ast.For | Ast.ExceptHandler | Ast.With => 1
  | Ast.BoolOp nvalues => Z.of_nat nvalues - 1
  | _ => 0
  end.

(** Every boolean operation of the list has at least one operand (the
    parser gives each at least two). *)
Definition boolops_have_operands (l : list Ast.node) : Prop :=
  forall n nvalues,
    In n l -> Ast.node_kind n = Ast.BoolOp nvalues -> (1 <= nvalues)%nat.

(** Number of newline characters of a text. *)
Fixpoint count_newlines (s : string) : nat :=
  match s with
  | EmptyString => 0%nat
  | String c r =>
      if Ascii.eqb c Py.newline then S (count_newlines r) else count_newlines r
  end.

(** The two checks of [_check_code_style]. *)
Definition too_long (n : Ast.node) : bool :=
  Ast.is_FunctionDef n && (50 <? Ast.end_lineno n - Ast.lineno n).

Definition too_many_parameters (n : Ast.node) : bool :=
  Ast.is_FunctionDef n && (5 <? Ast.nargs n)%nat.

(** A line that [_count_code_lines] counts. *)
Definition is_code_line (line : string) : bool :=
  Py.truthy (Py.strip line) && negb (Py.startswith (Py.strip line) "#").

(** The entry of [complex_functions] for a function. *)
Definition complex_entry (f : Ast.node) : CodeMetrics.complex_function :=
  {| CodeMetrics.cf_name := Ast.name f;
     CodeMetrics.cf_complexity := CodeMetrics._calculate_complexity f;
     CodeMetrics.cf_line := Ast.lineno f |}.

(** The candidate [detect] builds from a function definition. *)
Definition candidate_of (n : Ast.node) (func_code : string)
    : DuplicateCodeDetector.candidate :=
  {| DuplicateCodeDetector.cand_name := Ast.name n;
     DuplicateCodeDetector.cand_code := func_code;
     DuplicateCodeDetector.normalized := DuplicateCodeDetector._normalize_code func_code;
     DuplicateCodeDetector.cand_line := Ast.lineno n |}.

(** A function definition that [detect] keeps. *)
Definition is_candidate (d : DuplicateCodeDetector.detector) (n : Ast.node) : bool :=
  Ast.is_FunctionDef n
  && negb (Py.startswith (Ast.name n) "test_")
  && match Ast.get_source_segment n with
     | Some func_code =>
         Py.truthy func_code
         && (DuplicateCodeDetector.min_function_lines d
             <=? Z.of_nat (length (DuplicateCodeDetector.body_lines func_code)))
     | None => false
     end.

(** The issues [_check_code_style] appends for a node. *)
Definition issues_of (n : Ast.node) : list CodeMetrics.issue :=
  (if too_long n
   then [ {| CodeMetrics.issue_line := Ast.lineno n;
             CodeMetrics.message :=
               CodeMetrics.TooLong (Ast.name n) (Ast.end_lineno n - Ast.lineno n) |} ]
   else [])
  ++ (if too_many_parameters n
      then [ {| CodeMetrics.issue_line := Ast.lineno n;
                CodeMetrics.message :=
                  CodeMetrics.TooManyParameters (Ast.name n) (Z.of_nat (Ast.nargs n)) |} ]
      else []).

(** The candidates [detect] appends for a node. *)
Definition candidates_of (d : DuplicateCodeDetector.detector) (n : Ast.node)
    : list DuplicateCodeDetector.candidate :=
  match Ast.get_source_segment n with
  | Some func_code => if is_candidate d n then [candidate_of n func_code] else []
  | None => []
  end.

(** What the nodes of a list add to the complexity. *)
Definition node_weight (n : Ast.node) : Z := own_weight (Ast.node_kind n).

Definition weight (l : list Ast.node) : Z :=
  fold_right (fun n acc => node_weight n + acc) 0 l.

Definition sum_z (l : list Z) : Z := fold_right Z.add 0 l.

(** The elements of [a], and of [b], in the ranges of a work list. *)
Definition span_a (queue : list Difflib.range4) : nat :=
  fold_right (fun r acc => let '(alo, ahi, _, _) := r in (ahi - alo + acc)%nat)
             0%nat queue.

Definition span_b (queue : list Difflib.range4) : nat :=
  fold_right (fun r acc => let '(_, _, blo, bhi) := r in (bhi - blo + acc)%nat)
             0%nat queue.

Definition sum_sizes (l : list Difflib.triple) : nat :=
  fold_right (fun t acc => (Difflib.size_of t + acc)%nat) 0%nat l.

End Terms.

(** ** Further concrete inputs *)

Module MoreExamples.

(** A module with one function of 61 lines and six parameters. *)
Definition big_function : Ast.node :=
  Ast.Node (Ast.FunctionDef "big" 1 61 6 None None)
    [Examples.arguments 6; Examples.return_ Examples.leaf].

Definition big_module : Ast.node := Ast.Node Ast.Other [big_function].

(** A module with a documented function and a documented test of it. *)
Definition text_add : string :=
"def add(a, b):
    '''Add two numbers.'''
    return a + b".

Definition text_test_add : string :=
"def test_add():
    '''Check add.'''
    assert add(1, 2) == 3".

Definition documented_text : string :=
  (text_add ++ Examples.blank ++ text_test_add ++ Examples.nl)%string.

Definition expr_constant : Ast.node := Ast.Node Ast.Other [Examples.leaf].

Definition documented_module : Ast.node :=
  Ast.Node Ast.Other
    [ Ast.Node (Ast.FunctionDef "add" 1 3 2 (Some "Add two numbers.")
                  (Some text_add))
        [ Examples.arguments 2; expr_constant;
          Examples.return_
            (Ast.Node Ast.Other
               [Examples.name_node; Examples.leaf; Examples.name_node]) ];
      Ast.Node (Ast.FunctionDef "test_add" 5 7 0 (Some "Check add.")
                  (Some text_test_add))
        [ Examples.arguments 0; expr_constant;
          Ast.Node Ast.Other
            [ Ast.Node Ast.Other
                [ Ast.Node Ast.Other
                    [Examples.name_node; Examples.leaf; Examples.leaf];
                  Examples.leaf; Examples.leaf ] ] ] ].

(** A file with 80 functions and 23 tests, one definition per line. *)
Definition plain_function (name : string) (lineno : nat) : Ast.node :=
  Ast.Node (Ast.FunctionDef name (Z.of_nat lineno) (Z.of_nat lineno) 0 None
              (Some ("def " ++ name ++ "(): pass")%string))
    [Examples.arguments 0; Examples.leaf].

Definition many_tests_module : Ast.node :=
  Ast.Node Ast.Other
    (map (plain_function "f") (seq 1 80)
     ++ map (plain_function "test_f") (seq 81 23)).

Definition many_tests_text : string :=
  Py.join_nl (map (fun _ => "def f(): pass") (seq 1 80)
              ++ map (fun _ => "def test_f(): pass") (seq 81 23)).

Definition many_tests_analyzer : CoverageAnalyzer.analyzer :=
  {| CoverageAnalyzer.code := many_tests_text;
     CoverageAnalyzer.filepath := "code.py";
     CoverageAnalyzer.tree := many_tests_module;
     CoverageAnalyzer.functions :=
       fst (CoverageAnalyzer._extract_definitions many_tests_module);
     CoverageAnalyzer.classes :=
       snd (CoverageAnalyzer._extract_definitions many_tests_module) |}.

Definition pf_more : platform :=
  Examples.known_sources
    [ (Examples.tested_text, Examples.tested_module);
      ("def big(a, b, c, d, e, f): ...", big_module);
      (documented_text, documented_module) ].

(** An analyzer for a file with one function and no test, next to which
    a file [tests/test_mod.py] exists. *)
Definition pf_sibling : platform :=
  {| ast_parse := Examples.lookup_source [];
     os_path_exists := fun p => String.eqb p "tests/test_mod.py";
     path_stem := fun p => if String.eqb p "mod.py" then "mod" else p |}.

Definition untested_analyzer : CoverageAnalyzer.analyzer :=
  {| CoverageAnalyzer.code := Examples.text_f;
     CoverageAnalyzer.filepath := "mod.py";
     CoverageAnalyzer.tree := Examples.def_f 1;
     CoverageAnalyzer.functions :=
       fst (CoverageAnalyzer._extract_definitions (Examples.def_f 1));
     CoverageAnalyzer.classes :=
       snd (CoverageAnalyzer._extract_definitions (Examples.def_f 1)) |}.

End MoreExamples.

(** * Properties *)

(** ** Rounding to the nearest float *)

Section Floats.

Lemma Qle_bool_false_lt (x y : Q) : Qle_bool x y = false -> (y < x)%Q.
Proof.
  intro H. apply Qnot_le_lt. intro Hle.
  apply Qle_bool_iff in Hle. congruence.
Qed.

Lemma Qle_bool_lt_false (x y : Q) : (y < x)%Q -> Qle_bool x y = false.
Proof.
  intro H. destruct (Qle_bool x y) eqn:E; [|reflexivity].
  apply Qle_bool_iff in E. exfalso. exact (Qlt_not_le _ _ H E).
Qed.

Lemma Qle_bool_true (x y : Q) : (x <= y)%Q -> Qle_bool x y = true.
Proof. apply Qle_bool_iff. Qed.

Lemma round_half_even_ge (z : Z) (x : Q) :
  (inject_Z z <= x)%Q -> z <= Py.round_half_even x.
Proof.
  intro H. unfold Py.round_half_even.
  pose proof (Qfloor_resp_le _ _ H) as Hf. rewrite Qfloor_Z in Hf.
  destruct (Qcompare _ _); [destruct (Z.even _)| |]; lia.
Qed.

Lemma round_half_even_le (z : Z) (x : Q) :
  (x <= inject_Z z)%Q -> Py.round_half_even x <= z.
Proof.
  intro H. unfold Py.round_half_even.
  pose proof (Qfloor_resp_le _ _ H) as Hf. rewrite Qfloor_Z in Hf.
  destruct (Z.eq_dec (Qfloor x) z) as [Heq|Hne].
  - assert (Hlt : (x - inject_Z (Qfloor x) < 1 # 2)%Q) by (rewrite Heq; lra).
    destruct (Qcompare (x - inject_Z (Qfloor x)) (1 # 2)) eqn:E.
    + apply Qeq_alt in E. lra.
    + lia.
    + apply Qgt_alt in E. lra.
  - destruct (Qcompare _ _); [destruct (Z.even _)| |]; lia.
Qed.

Lemma round1_range (lo hi : Z) (q : Q) :
  (inject_Z lo <= q)%Q -> (q <= inject_Z hi)%Q ->
  (inject_Z lo <= Py.round1 q)%Q /\ (Py.round1 q <= inject_Z hi)%Q.
Proof.
  intros Hlo Hhi. unfold Py.round1.
  assert (H1 : lo * 10 <= Py.round_half_even (q * 10)).
  { apply round_half_even_ge. rewrite inject_Z_mult.
    change (inject_Z 10) with (10 # 1). lra. }
  assert (H2 : Py.round_half_even (q * 10) <= hi * 10).
  { apply round_half_even_le. rewrite inject_Z_mult.
    change (inject_Z 10) with (10 # 1). lra. }
  unfold Qle, inject_Z. simpl. lia.
Qed.

Ltac compare_prop H :=
  match type of H with
  | _ = Eq => apply Qeq_alt in H
  | _ = Lt => apply Qlt_alt in H
  | _ = Gt => apply Qgt_alt in H
  end.

Lemma round_half_even_monotone (x y : Q) :
  (x <= y)%Q -> Py.round_half_even x <= Py.round_half_even y.
Proof.
  intro Hxy. unfold Py.round_half_even.
  pose proof (Qfloor_resp_le _ _ Hxy) as Hf.
  destruct (Z.eq_dec (Qfloor x) (Qfloor y)) as [Heq|Hne].
  - rewrite <- Heq.
    destruct (Qcompare (x - inject_Z (Qfloor x)) (1 # 2)) eqn:Ex;
      destruct (Qcompare (y - inject_Z (Qfloor x)) (1 # 2)) eqn:Ey;
      compare_prop Ex; compare_prop Ey;
      destruct (Z.even (Qfloor x)); first [lia|exfalso; lra].
  - destruct (Qcompare (x - inject_Z (Qfloor x)) (1 # 2));
      destruct (Qcompare (y - inject_Z (Qfloor y)) (1 # 2));
      destruct (Z.even (Qfloor x)); destruct (Z.even (Qfloor y)); lia.
Qed.

Lemma pow2_pos (k : Z) : (0 < Py.pow2 k)%Q.
Proof. apply Qpower_0_lt. reflexivity. Qed.

Lemma pow2_add (a b : Z) : (Py.pow2 (a + b) == Py.pow2 a * Py.pow2 b)%Q.
Proof. apply Qpower_plus. discriminate. Qed.

Lemma pow2_le (a b : Z) : a <= b -> (Py.pow2 a <= Py.pow2 b)%Q.
Proof. intro H. apply Qpower_le_compat_l; [exact H|discriminate]. Qed.

Lemma pow2_Z (a : Z) : 0 <= a -> (Py.pow2 a == inject_Z (2 ^ a))%Q.
Proof. intro H. unfold Py.pow2. now rewrite Zpower_Qpower. Qed.

Lemma Qdiv_lt_cross (a b c d : Z) :
  0 < b -> 0 < d -> a * d < c * b ->
  (inject_Z a / inject_Z b < inject_Z c / inject_Z d)%Q.
Proof.
  intros Hb Hd H.
  assert (Hbq : (0 < inject_Z b)%Q) by (rewrite <- (Zlt_Qlt 0); exact Hb).
  assert (Hdq : (0 < inject_Z d)%Q) by (rewrite <- (Zlt_Qlt 0); exact Hd).
  apply Qlt_shift_div_r; [exact Hbq|].
  assert (E : (inject_Z c / inject_Z d * inject_Z b
               == inject_Z c * inject_Z b / inject_Z d)%Q)
    by (field; intro H0; rewrite H0 in Hdq; now apply Qlt_irrefl in Hdq).
  rewrite E. apply Qlt_shift_div_l; [exact Hdq|].
  rewrite <- !inject_Z_mult, <- Zlt_Qlt. exact H.
Qed.

Lemma Qdiv_le_cross (a b c d : Z) :
  0 < b -> 0 < d -> a * d <= c * b ->
  (inject_Z a / inject_Z b <= inject_Z c / inject_Z d)%Q.
Proof.
  intros Hb Hd H.
  assert (Hbq : (0 < inject_Z b)%Q) by (rewrite <- (Zlt_Qlt 0); exact Hb).
  assert (Hdq : (0 < inject_Z d)%Q) by (rewrite <- (Zlt_Qlt 0); exact Hd).
  apply Qle_shift_div_r; [exact Hbq|].
  assert (E : (inject_Z c / inject_Z d * inject_Z b
               == inject_Z c * inject_Z b / inject_Z d)%Q)
    by (field; intro H0; rewrite H0 in Hdq; now apply Qlt_irrefl in Hdq).
  rewrite E. apply Qle_shift_div_l; [exact Hdq|].
  rewrite <- !inject_Z_mult, <- Zle_Qle. exact H.
Qed.

Lemma pow2_diff (a b : Z) :
  0 <= a -> 0 <= b -> (Py.pow2 (a - b) == inject_Z (2 ^ a) / inject_Z (2 ^ b))%Q.
Proof.
  intros Ha Hb. unfold Py.pow2. rewrite Qpower_minus by discriminate.
  now rewrite !Zpower_Qpower.
Qed.

(** [Py.exponent x] is the binary exponent of a positive [x]. *)
Lemma exponent_spec (x : Q) :
  (0 < x)%Q ->
  (Py.pow2 (Py.exponent x) <= x)%Q /\ (x < Py.pow2 (Py.exponent x + 1))%Q.
Proof.
  intro Hx. unfold Py.exponent.
  destruct x as [n d]. cbn [Qnum Qden].
  assert (Hn : 0 < n) by (unfold Qlt in Hx; simpl in Hx; lia).
  pose proof (Z.log2_spec n Hn) as [Hn1 Hn2].
  pose proof (Z.log2_spec (Zpos d) (Pos2Z.is_pos d)) as [Hd1 Hd2].
  pose proof (Z.log2_nonneg n) as Ha. pose proof (Z.log2_nonneg (Zpos d)) as Hb.
  set (a := Z.log2 n) in *. set (b := Z.log2 (Zpos d)) in *.
  assert (Hpa : 0 < 2 ^ a) by (apply Z.pow_pos_nonneg; lia).
  assert (Hpb : 0 < 2 ^ b) by (apply Z.pow_pos_nonneg; lia).
  assert (Hx' : (n # d == inject_Z n / inject_Z (Zpos d))%Q) by apply Qmake_Qdiv.
  assert (Hup : (n # d < Py.pow2 (a - b + 1))%Q).
  { replace (a - b + 1) with (Z.succ a - b) by lia.
    rewrite pow2_diff, Hx' by lia.
    apply Qdiv_lt_cross; [lia|exact Hpb|]. nia. }
  assert (Hlo : (Py.pow2 (a - b - 1) <= n # d)%Q).
  { replace (a - b - 1) with (a - Z.succ b) by lia.
    rewrite pow2_diff, Hx' by lia.
    apply Qdiv_le_cross; [apply Z.pow_pos_nonneg; lia|lia|]. nia. }
  destruct (Qle_bool (Py.pow2 (a - b)) (n # d)) eqn:E.
  - apply Qle_bool_iff in E. split; [exact E|exact Hup].
  - apply Qle_bool_false_lt in E. split; [exact Hlo|].
    replace (a - b - 1 + 1) with (a - b) by lia. exact E.
Qed.

Lemma exponent_monotone (x y : Q) :
  (0 < x)%Q -> (x <= y)%Q -> Py.exponent x <= Py.exponent y.
Proof.
  intros Hx Hxy.
  assert (Hy : (0 < y)%Q) by lra.
  destruct (exponent_spec x Hx) as [Hx1 _].
  destruct (exponent_spec y Hy) as [_ Hy2].
  destruct (Z_le_gt_dec (Py.exponent x) (Py.exponent y)) as [H|H]; [exact H|].
  exfalso. pose proof (pow2_le (Py.exponent y + 1) (Py.exponent x) ltac:(lia)). lra.
Qed.

Lemma pow2_53 (e : Z) : (inject_Z (2 ^ 53) * Py.pow2 (e - 52) == Py.pow2 (e + 1))%Q.
Proof.
  rewrite <- (pow2_Z 53) by lia. rewrite <- pow2_add. now replace (53 + (e - 52)) with (e + 1) by lia.
Qed.

Lemma pow2_52 (e : Z) : (inject_Z (2 ^ 52) * Py.pow2 (e - 52) == Py.pow2 e)%Q.
Proof.
  rewrite <- (pow2_Z 52) by lia. rewrite <- pow2_add. now replace (52 + (e - 52)) with e by lia.
Qed.

Lemma double_pos_nonneg (x : Q) : (0 <= x)%Q -> (0 <= Py.double_pos x)%Q.
Proof.
  intro Hx. unfold Py.double_pos.
  set (u := Py.pow2 _). pose proof (pow2_pos (Z.max (Py.exponent x) (-1022) - 52)) as Hu.
  fold u in Hu.
  apply Qmult_le_0_compat; [|lra].
  rewrite <- (Zle_Qle 0). apply round_half_even_ge.
  apply Qle_shift_div_l; [exact Hu|]. change (inject_Z 0) with 0%Q. lra.
Qed.

Lemma double_pos_upper (x : Q) :
  (0 < x)%Q ->
  (Py.double_pos x <= Py.pow2 (Z.max (Py.exponent x) (-1022) + 1))%Q.
Proof.
  intro Hx. unfold Py.double_pos.
  set (e := Z.max (Py.exponent x) (-1022)).
  pose proof (pow2_pos (e - 52)) as Hu.
  destruct (exponent_spec x Hx) as [_ Hup].
  pose proof (pow2_le (Py.exponent x + 1) (e + 1) ltac:(lia)) as Hle.
  rewrite <- pow2_53.
  apply Qmult_le_compat_r; [|lra].
  rewrite <- Zle_Qle. apply round_half_even_le.
  apply Qle_shift_div_r; [exact Hu|]. rewrite pow2_53. lra.
Qed.

Lemma double_pos_lower (x : Q) :
  (0 < x)%Q -> -1022 <= Py.exponent x ->
  (Py.pow2 (Py.exponent x) <= Py.double_pos x)%Q.
Proof.
  intros Hx He. unfold Py.double_pos.
  rewrite Z.max_l by lia.
  pose proof (pow2_pos (Py.exponent x - 52)) as Hu.
  destruct (exponent_spec x Hx) as [Hlo _].
  rewrite <- (pow2_52 (Py.exponent x)) at 1.
  apply Qmult_le_compat_r; [|lra].
  rewrite <- Zle_Qle. apply round_half_even_ge.
  apply Qle_shift_div_l; [exact Hu|]. rewrite pow2_52. exact Hlo.
Qed.

Lemma double_pos_monotone (x y : Q) :
  (0 < x)%Q -> (x <= y)%Q -> (Py.double_pos x <= Py.double_pos y)%Q.
Proof.
  intros Hx Hxy.
  assert (Hy : (0 < y)%Q) by lra.
  pose proof (exponent_monotone x y Hx Hxy) as He.
  destruct (Z.eq_dec (Z.max (Py.exponent x) (-1022)) (Z.max (Py.exponent y) (-1022)))
    as [Heq|Hne].
  - unfold Py.double_pos. rewrite <- Heq.
    set (u := Py.pow2 _).
    pose proof (pow2_pos (Z.max (Py.exponent x) (-1022) - 52)) as Hu. fold u in Hu.
    apply Qmult_le_compat_r; [|lra].
    rewrite <- Zle_Qle. apply round_half_even_monotone.
    apply Qmult_le_compat_r; [exact Hxy|].
    apply Qlt_le_weak, Qinv_lt_0_compat. exact Hu.
  - eapply Qle_trans; [apply double_pos_upper; exact Hx|].
    eapply Qle_trans; [|apply double_pos_lower; [exact Hy|lia]].
    apply pow2_le. lia.
Qed.

(** Rounding to the nearest float keeps the order. *)
Lemma double_monotone (x y : Q) : (x <= y)%Q -> (Py.double x <= Py.double y)%Q.
Proof.
  intro Hxy. unfold Py.double.
  destruct (Qcompare x 0) eqn:Ex; destruct (Qcompare y 0) eqn:Ey;
    compare_prop Ex; compare_prop Ey; try (exfalso; lra).
  - lra.
  - apply double_pos_nonneg; lra.
  - pose proof (double_pos_nonneg (- x) ltac:(lra)). lra.
  - pose proof (double_pos_monotone (- y) (- x) ltac:(lra) ltac:(lra)). lra.
  - pose proof (double_pos_nonneg (- x) ltac:(lra)).
    pose proof (double_pos_nonneg y ltac:(lra)). lra.
  - apply double_pos_monotone; lra.
Qed.

Lemma double_proper (x y : Q) : (x == y)%Q -> (Py.double x == Py.double y)%Q.
Proof.
  intro H. apply Qle_antisym; apply double_monotone; rewrite H; apply Qle_refl.
Qed.

Lemma double_between (lo hi x : Q) :
  (Py.double lo == lo)%Q -> (Py.double hi == hi)%Q ->
  (lo <= x)%Q -> (x <= hi)%Q -> (lo <= Py.double x)%Q /\ (Py.double x <= hi)%Q.
Proof.
  intros Hlo Hhi H1 H2. split.
  - rewrite <- Hlo. now apply double_monotone.
  - rewrite <- Hhi. now apply double_monotone.
Qed.

Lemma Qabs_le_of (a b : Q) :
  (a <= Qabs b)%Q -> (- a <= Qabs b)%Q -> (Qabs a <= Qabs b)%Q.
Proof.
  intros H1 H2. apply Qabs_case; intros _; assumption.
Qed.

Lemma Qabs_bounds (b : Q) : (b <= Qabs b)%Q /\ (- b <= Qabs b)%Q.
Proof.
  split; [apply Qle_Qabs|]. rewrite <- Qabs_opp. apply Qle_Qabs.
Qed.

Lemma round_half_even_nearest (y : Q) (j : Z) :
  (Qabs (inject_Z (Py.round_half_even y) - y) <= Qabs (inject_Z j - y))%Q.
Proof.
  pose proof (Qfloor_le y) as Hlo. pose proof (Qlt_floor y) as Hhi.
  rewrite inject_Z_plus in Hhi. change (inject_Z 1) with 1%Q in Hhi.
  destruct (Qabs_bounds (inject_Z j - y)) as [Hb1 Hb2].
  assert (Hj : (inject_Z j <= inject_Z (Qfloor y))%Q
               \/ (inject_Z (Qfloor y) + 1 <= inject_Z j)%Q).
  { destruct (Z_le_gt_dec j (Qfloor y)) as [H|H].
    - left. now rewrite <- Zle_Qle.
    - right. rewrite <- (inject_Z_plus _ 1), <- Zle_Qle. lia. }
  unfold Py.round_half_even.
  set (f := inject_Z (Qfloor y)) in *. set (jq := inject_Z j) in *.
  apply Qabs_le_of;
    destruct (Qcompare (y - f) (1 # 2)) eqn:E; compare_prop E;
    try destruct (Z.even (Qfloor y));
    rewrite ?inject_Z_plus; change (inject_Z 1) with 1%Q; fold f;
    destruct Hj; lra.
Qed.

Lemma round_half_even_nonneg_le (y : Q) (hi : Z) :
  (0 <= y)%Q -> (y <= inject_Z hi)%Q ->
  0 <= Py.round_half_even y <= hi.
Proof.
  intros H0 H1. split; [apply round_half_even_ge; exact H0|now apply round_half_even_le].
Qed.

Lemma is_float_opp (d : Q) : Ref.is_float d -> Ref.is_float (- d).
Proof.
  intros (m & e & Hm & He & Hd). exists (- m), e.
  split; [lia|]. split; [exact He|].
  rewrite Hd, inject_Z_opp. ring.
Qed.

Lemma pow2_split (a b : Z) : (Py.pow2 a == Py.pow2 (a - b) * Py.pow2 b)%Q.
Proof.
  rewrite <- pow2_add. now replace (a - b + b) with a by lia.
Qed.

(** A float whose exponent is at least [k] is a multiple of [2^k]. *)
Lemma float_multiple (m e k : Z) :
  k <= e -> exists j : Z, (inject_Z m * Py.pow2 e == inject_Z j * Py.pow2 k)%Q.
Proof.
  intro H. exists (m * 2 ^ (e - k)).
  rewrite inject_Z_mult, <- (pow2_Z (e - k)) by lia.
  rewrite (pow2_split e k). ring.
Qed.

Lemma double_pos_nearest (x : Q) :
  (0 < x)%Q -> Ref.nearest_float x (Py.double_pos x).
Proof.
  intro Hx. unfold Py.double_pos.
  destruct (exponent_spec x Hx) as [Hlo Hup].
  set (e := Z.max (Py.exponent x) (-1022)).
  pose proof (pow2_pos (e - 52)) as Hu.
  set (u := Py.pow2 (e - 52)) in *.
  set (k := Py.round_half_even (x / u)).
  assert (Hxu : (x / u * u == x)%Q) by (field; lra).
  assert (Hk : 0 <= k <= 2 ^ 53).
  { apply round_half_even_nonneg_le.
    - apply Qle_shift_div_l; [exact Hu|]. lra.
    - apply Qle_shift_div_r; [exact Hu|]. unfold u. rewrite pow2_53.
      pose proof (pow2_le (Py.exponent x + 1) (e + 1) ltac:(lia)). lra. }
  assert (Hnear : forall j : Z,
             (Qabs (inject_Z k * u - x) <= Qabs (inject_Z j * u - x))%Q).
  { intro j.
    assert (E1 : (inject_Z k * u - x == (inject_Z k - x / u) * u)%Q)
      by (field; lra).
    assert (E2 : (inject_Z j * u - x == (inject_Z j - x / u) * u)%Q)
      by (field; lra).
    rewrite E1, E2, !Qabs_Qmult.
    apply Qmult_le_compat_r; [apply round_half_even_nearest|apply Qabs_nonneg]. }
  split.
  - exists k, (e - 52). split; [lia|]. split; [lia|reflexivity].
  - intros d' (m & e' & Hm & He' & Hd'). rewrite Hd'.
    fold (Py.pow2 e').
    destruct (Z_le_gt_dec (e - 52) e') as [Hge|Hlt].
    + destruct (float_multiple m e' (e - 52) Hge) as [j Hj].
      rewrite Hj. apply Hnear.
    + assert (He : e = Py.exponent x) by lia.
      assert (Hd : (inject_Z m * Py.pow2 e' <= Py.pow2 e)%Q).
      { rewrite <- (pow2_52 e).
        eapply Qle_trans with (inject_Z (2 ^ 53) * Py.pow2 e')%Q.
        - apply Qmult_le_compat_r; [rewrite <- Zle_Qle; lia|].
          apply Qlt_le_weak, pow2_pos.
        - unfold u. rewrite (pow2_split (e - 52) e').
          assert (Hp : (2 <= Py.pow2 (e - 52 - e'))%Q).
          { change 2%Q with (Py.pow2 1). apply pow2_le. lia. }
          pose proof (pow2_pos e') as Hpe.
          change (inject_Z (2 ^ 53)) with (inject_Z (2 ^ 52) * 2)%Q.
          rewrite <- !Qmult_assoc.
          apply Qmult_le_l; [reflexivity|].
          apply Qmult_le_compat_r; [exact Hp|lra]. }
      eapply Qle_trans; [apply (Hnear (2 ^ 52))|].
      unfold u. rewrite (pow2_52 e).
      rewrite He in *.
      rewrite Qabs_neg by lra.
      destruct (Qabs_bounds (inject_Z m * Py.pow2 e' - x)) as [_ Hb]. lra.
Qed.

Lemma nearest_float_opp (x d : Q) : Ref.nearest_float x d -> Ref.nearest_float (- x) (- d).
Proof.
  intros [Hf Hn]. split; [now apply is_float_opp|].
  intros d' Hd'. specialize (Hn (- d')%Q (is_float_opp _ Hd')).
  assert (E1 : (- d - - x == - (d - x))%Q) by ring.
  assert (E2 : (d' - - x == - (- d' - x))%Q) by ring.
  rewrite E1, E2, !Qabs_opp. exact Hn.
Qed.

Lemma nearest_float_proper (x y d : Q) :
  (x == y)%Q -> Ref.nearest_float x d -> Ref.nearest_float y d.
Proof.
  intros Hxy [Hf Hn]. split; [exact Hf|].
  intros d' Hd'. rewrite <- Hxy. now apply Hn.
Qed.

(** [Py.double x] is a float, and no float is nearer to [x]. *)
Lemma double_nearest (x : Q) : Ref.nearest_float x (Py.double x).
Proof.
  unfold Py.double.
  destruct (Qcompare x 0) eqn:E; compare_prop E.
  - split.
    + exists 0, 0. split; [lia|]. split; [lia|reflexivity].
    + intros d' _. rewrite E. apply Qabs_nonneg.
  - apply (nearest_float_proper (- - x)%Q); [ring|].
    apply nearest_float_opp, double_pos_nearest. lra.
  - apply double_pos_nearest. lra.
Qed.

(** [Py.round1 x] is a number of tenths, and none is nearer to [x]. *)
Lemma round1_nearest (x : Q) : Ref.nearest_tenth x (Py.round1 x).
Proof.
  unfold Ref.nearest_tenth, Py.round1. split.
  - exists (Py.round_half_even (x * 10)). apply Qmake_Qdiv.
  - intro k'.
    rewrite (Qmake_Qdiv (Py.round_half_even (x * 10)) 10).
    change (inject_Z (Z.pos 10)) with 10%Q.
    assert (E1 : (inject_Z (Py.round_half_even (x * 10)) / 10 - x
                  == (inject_Z (Py.round_half_even (x * 10)) - x * 10) * (1 # 10))%Q)
      by field.
    assert (E2 : (inject_Z k' / 10 - x == (inject_Z k' - x * 10) * (1 # 10))%Q)
      by field.
    rewrite E1, E2, !Qabs_Qmult.
    apply Qmult_le_compat_r; [apply round_half_even_nearest|apply Qabs_nonneg].
Qed.

Lemma double_nonneg (x : Q) : (0 <= x)%Q -> (0 <= Py.double x)%Q.
Proof.
  intro H. change 0%Q with (Py.double 0) at 1. now apply double_monotone.
Qed.

Lemma double_zero (x : Q) : (x == 0)%Q -> (Py.double x == 0)%Q.
Proof.
  intro H. now rewrite (double_proper x 0 H).
Qed.

Lemma double_unit (x : Q) :
  (0 <= x)%Q -> (x <= 1)%Q -> (0 <= Py.double x)%Q /\ (Py.double x <= 1)%Q.
Proof.
  intros H0 H1. apply (double_between 0 1); try assumption; vm_compute; reflexivity.
Qed.

Lemma truediv_unit (a b : Z) :
  0 <= a <= b -> 0 < b ->
  (0 <= Py.truediv a b)%Q /\ (Py.truediv a b <= 1)%Q.
Proof.
  intros Ha Hb.
  assert (Hbq : (0 < inject_Z b)%Q) by (rewrite <- (Zlt_Qlt 0); exact Hb).
  apply double_unit.
  - apply Qle_shift_div_l; [exact Hbq|]. rewrite Qmult_0_l, <- (Zle_Qle 0). lia.
  - apply Qle_shift_div_r; [exact Hbq|]. rewrite Qmult_1_l, <- Zle_Qle. lia.
Qed.

Lemma truediv_nonneg (a b : Z) : 0 <= a -> 0 < b -> (0 <= Py.truediv a b)%Q.
Proof.
  intros Ha Hb.
  assert (Hbq : (0 < inject_Z b)%Q) by (rewrite <- (Zlt_Qlt 0); exact Hb).
  apply double_nonneg.
  apply Qle_shift_div_l; [exact Hbq|]. rewrite Qmult_0_l, <- (Zle_Qle 0). lia.
Qed.

Lemma truediv_zero (b : Z) : (Py.truediv 0 b == 0)%Q.
Proof.
  apply double_zero. unfold Qdiv. change (inject_Z 0) with 0%Q. ring.
Qed.

Lemma fmul_percent (x : Q) :
  (0 <= x)%Q -> (x <= 1)%Q ->
  (0 <= Py.fmul x 100)%Q /\ (Py.fmul x 100 <= 100)%Q.
Proof.
  intros H0 H1. unfold Py.fmul.
  apply (double_between 0 100); try (vm_compute; reflexivity); lra.
Qed.

Lemma percent_range (d n : Z) :
  0 <= d <= n -> 0 < n ->
  (0 <= Py.fmul (Py.truediv d n) 100)%Q /\ (Py.fmul (Py.truediv d n) 100 <= 100)%Q.
Proof.
  intros Hd Hn. destruct (truediv_unit d n Hd Hn) as [H0 H1].
  now apply fmul_percent.
Qed.

Lemma fmul_zero (x y : Q) : (x == 0)%Q -> (Py.fmul x y == 0)%Q.
Proof.
  intro H. apply double_zero. rewrite H. ring.
Qed.

Lemma double_of (x y : Q) :
  (x == y)%Q -> (Py.double y == y)%Q -> (Py.double x == y)%Q.
Proof.
  intros Hxy Hy. now rewrite (double_proper x y Hxy).
Qed.

Lemma percent_zero (n : Z) : (Py.fmul (Py.truediv 0 n) 100 == 0)%Q.
Proof.
  apply fmul_zero, truediv_zero.
Qed.

Lemma percent_full (n : Z) : 0 < n -> (Py.fmul (Py.truediv n n) 100 == 100)%Q.
Proof.
  intro Hn.
  assert (Hq : ~ (inject_Z n == 0)%Q).
  { intro Heq.
    assert (Hz : (inject_Z 0 < inject_Z n)%Q) by (rewrite <- Zlt_Qlt; exact Hn).
    change (inject_Z 0) with 0%Q in Hz. rewrite Heq in Hz.
    now apply Qlt_irrefl in Hz. }
  assert (H1 : (Py.truediv n n == 1)%Q).
  { apply double_of; [field; exact Hq|vm_compute; reflexivity]. }
  apply double_of; [rewrite H1; reflexivity|vm_compute; reflexivity].
Qed.

Lemma fadd_monotone (x x' y y' : Q) :
  (x <= x')%Q -> (y <= y')%Q -> (Py.fadd x y <= Py.fadd x' y')%Q.
Proof.
  intros Hx Hy. apply double_monotone. lra.
Qed.

Lemma fmul_monotone (x x' k : Q) :
  (0 <= k)%Q -> (x <= x')%Q -> (Py.fmul x k <= Py.fmul x' k)%Q.
Proof.
  intros Hk Hx. apply double_monotone. now apply Qmult_le_compat_r.
Qed.

Lemma fdiv_monotone (x x' k : Q) :
  (0 < k)%Q -> (x <= x')%Q -> (Py.fdiv x k <= Py.fdiv x' k)%Q.
Proof.
  intros Hk Hx. apply double_monotone.
  apply Qmult_le_compat_r; [exact Hx|].
  apply Qlt_le_weak, Qinv_lt_0_compat. exact Hk.
Qed.

(** The documentation score [(doc_coverage / 100) * 15]. *)
Lemma doc_score_monotone (c c' : Q) :
  (c <= c')%Q ->
  (Py.fmul (Py.fdiv (Py.double c) 100) 15
   <= Py.fmul (Py.fdiv (Py.double c') 100) 15)%Q.
Proof.
  intro H. apply fmul_monotone; [discriminate|].
  apply fdiv_monotone; [reflexivity|]. now apply double_monotone.
Qed.

Lemma doc_score_range (c : Q) :
  (0 <= c)%Q -> (c <= 100)%Q ->
  (0 <= Py.fmul (Py.fdiv (Py.double c) 100) 15)%Q
  /\ (Py.fmul (Py.fdiv (Py.double c) 100) 15 <= 15)%Q.
Proof.
  intros H0 H1. split.
  - eapply Qle_trans; [|apply (doc_score_monotone 0 c H0)].
    vm_compute. discriminate.
  - eapply Qle_trans; [apply (doc_score_monotone c 100 H1)|].
    vm_compute. discriminate.
Qed.

Lemma doc_score_from_80 (c : Q) :
  (80 <= c)%Q -> (12 <= Py.fmul (Py.fdiv (Py.double c) 100) 15)%Q.
Proof.
  intro H. eapply Qle_trans; [|apply (doc_score_monotone 80 c H)].
  vm_compute. discriminate.
Qed.

Lemma fadd_between (lo hi x y : Q) :
  (Py.double lo == lo)%Q -> (Py.double hi == hi)%Q ->
  (lo <= x + y)%Q -> (x + y <= hi)%Q ->
  (lo <= Py.fadd x y)%Q /\ (Py.fadd x y <= hi)%Q.
Proof.
  intros. now apply double_between.
Qed.

Lemma fadd_ge (lo x y : Q) :
  (Py.double lo == lo)%Q -> (lo <= x + y)%Q -> (lo <= Py.fadd x y)%Q.
Proof.
  intros Hlo H. rewrite <- Hlo. now apply double_monotone.
Qed.

Lemma truediv_nearest (a b : Z) :
  Ref.nearest_float (inject_Z a / inject_Z b) (Py.truediv a b).
Proof. apply double_nearest. Qed.

Lemma fmul_nearest (x y : Q) : Ref.nearest_float (x * y) (Py.fmul x y).
Proof. apply double_nearest. Qed.

End Floats.

(** Bounds of a sum of floats from bounds of the summands, between two
    ints. *)
Ltac fadd_bounds lo hi x y H0 H1 :=
  destruct (fadd_between lo hi x y) as [H0 H1];
  [vm_compute; reflexivity|vm_compute; reflexivity|lra|lra|].

(** ** The tree walk *)

Section WalkFacts.

Lemma subnodes_nonempty (n : Ast.node) : Ast.subnodes n <> [].
Proof. destruct n; discriminate. Qed.

Lemma flat_subnodes_nil (todo : list Ast.node) :
  length (flat_map Ast.subnodes todo) = 0%nat -> todo = [].
Proof.
  destruct todo as [|n rest]; [reflexivity|].
  destruct n; simpl; discriminate.
Qed.

(** With fuel for every node still to come, the queue is emptied and the
    nodes yielded are those of the trees in the queue. *)
Lemma walk_queue_perm (fuel : nat) :
  forall todo,
    (length (flat_map Ast.subnodes todo) <= fuel)%nat ->
    Permutation (Ast.walk_queue fuel todo) (flat_map Ast.subnodes todo).
Proof.
  induction fuel as [|fuel IH]; intros todo Hlen.
  - assert (todo = []) as -> by (apply flat_subnodes_nil; lia).
    constructor.
  - destruct todo as [|[k cs] rest]; [constructor|].
    simpl in *. constructor.
    rewrite length_app in Hlen.
    etransitivity.
    + apply IH. rewrite flat_map_app, length_app. lia.
    + rewrite flat_map_app. apply Permutation_app_comm.
Qed.

Lemma walk_perm (t : Ast.node) : Permutation (Ast.walk t) (Ast.subnodes t).
Proof.
  unfold Ast.walk, Ast.size.
  etransitivity; [apply walk_queue_perm|]; simpl; rewrite app_nil_r; auto.
Qed.

Lemma walk_In (t n : Ast.node) : In n (Ast.walk t) <-> In n (Ast.subnodes t).
Proof.
  split; apply Permutation_in; [|symmetry]; apply walk_perm.
Qed.

Lemma filter_perm {A : Type} (f : A -> bool) (l l' : list A) :
  Permutation l l' -> Permutation (filter f l) (filter f l').
Proof.
  induction 1; simpl.
  - constructor.
  - destruct (f x); [constructor|]; assumption.
  - destruct (f x), (f y); try constructor; reflexivity.
  - etransitivity; eassumption.
Qed.

End WalkFacts.

(** ** What the extractor collects *)

Section Extraction.

Lemma extract_definitions_spec (l : list Ast.node) :
  forall fs cs,
    fold_left CoverageAnalyzer.extract_step l (fs, cs)
    = (fs ++ map Ref.function_entry_of (filter Ast.is_FunctionDef l),
       cs ++ map Ref.class_entry_of
               (filter (fun n => negb (Ast.is_FunctionDef n) && Ast.is_ClassDef n) l)).
Proof.
  induction l as [|n l IH]; intros fs cs; simpl.
  - now rewrite !app_nil_r.
  - unfold CoverageAnalyzer.extract_step at 2.
    destruct (Ast.is_FunctionDef n) eqn:Hf; simpl.
    + rewrite IH. now rewrite <- app_assoc.
    + destruct (Ast.is_ClassDef n) eqn:Hc; simpl; rewrite IH.
      * now rewrite <- app_assoc.
      * reflexivity.
Qed.

Lemma class_not_function (n : Ast.node) :
  Ast.is_ClassDef n = true -> Ast.is_FunctionDef n = false.
Proof.
  unfold Ast.is_ClassDef, Ast.is_FunctionDef.
  destruct (Ast.node_kind n); congruence.
Qed.

(** C4.  When the text parses to a tree [t], the constructor of
    [CoverageAnalyzer] returns an analyzer whose [functions] hold, for
    every function definition anywhere in [t] (nested ones and methods
    included), an entry with its name, its [lineno] (the parser's
    1-based starting line) and its test flag, and whose [classes] hold
    an entry with name and [lineno] for every class definition; the
    entries are exactly those of the definitions the walk meets; an
    entry is a test function if and only if its name starts with
    [test_]; and [_function_info] and [_class_info] count the function
    and class definitions of the whole tree. *)
Theorem C4_walk_collects_definitions (pf : platform) (code filepath : string)
    (t : Ast.node) :
  ast_parse pf code = Py.Returned t ->
  exists a,
    CoverageAnalyzer.init pf code filepath = Py.Returned a
    /\ CoverageAnalyzer.functions a
       = map Ref.function_entry_of (filter Ast.is_FunctionDef (Ast.walk t))
    /\ CoverageAnalyzer.classes a
       = map Ref.class_entry_of (filter Ast.is_ClassDef (Ast.walk t))
    /\ (forall n, In n (Ast.subnodes t) -> Ast.is_FunctionDef n = true ->
          In (Ref.function_entry_of n) (CoverageAnalyzer.functions a)
          /\ In (Ast.name n) (CodeMetrics.names (CodeMetrics._function_info t)))
    /\ (forall n, In n (Ast.subnodes t) -> Ast.is_ClassDef n = true ->
          In (Ref.class_entry_of n) (CoverageAnalyzer.classes a)
          /\ In (Ast.name n) (CodeMetrics.names (CodeMetrics._class_info t)))
    /\ (forall f, In f (CoverageAnalyzer.functions a) ->
          (CoverageAnalyzer.is_test f = true
           <-> Py.startswith (CoverageAnalyzer.fn_name f) "test_" = true))
    /\ CodeMetrics.count (CodeMetrics._function_info t)
       = Z.of_nat (length (filter Ast.is_FunctionDef (Ast.subnodes t)))
    /\ CodeMetrics.count (CodeMetrics._class_info t)
       = Z.of_nat (length (filter Ast.is_ClassDef (Ast.subnodes t))).
Proof.
  intro Hparse.
  unfold CoverageAnalyzer.init. rewrite Hparse. simpl.
  unfold CoverageAnalyzer._extract_definitions.
  rewrite extract_definitions_spec. simpl.
  assert (Hcls : filter (fun n => negb (Ast.is_FunctionDef n) && Ast.is_ClassDef n)
                   (Ast.walk t)
                 = filter Ast.is_ClassDef (Ast.walk t)).
  { apply filter_ext. intro n.
    destruct (Ast.is_ClassDef n) eqn:Hc.
    - now rewrite (class_not_function n Hc).
    - now rewrite andb_false_r. }
  rewrite Hcls.
  eexists. split; [reflexivity|]. simpl.
  assert (Hin : forall (p : Ast.node -> bool) n,
             In n (Ast.subnodes t) -> p n = true -> In n (filter p (Ast.walk t))).
  { intros p n Hn Hp. apply filter_In. split; [now apply walk_In|assumption]. }
  split; [reflexivity|]. split; [reflexivity|].
  split; [intros n Hn Hk; split; [|unfold CodeMetrics._function_info; simpl];
          apply in_map; now apply Hin|].
  split; [intros n Hn Hk; split; [|unfold CodeMetrics._class_info; simpl];
          apply in_map; now apply Hin|].
  split; [intros f Hf; apply in_map_iff in Hf as [n [<- _]]; reflexivity|].
  split; unfold CodeMetrics._function_info, CodeMetrics._class_info; simpl;
    f_equal; apply Permutation_length, filter_perm, walk_perm.
Qed.

End Extraction.

Lemma C4_witness :
  ast_parse Examples.pf_examples Examples.three_functions_text
  = Py.Returned Examples.three_functions
  /\ ltac:(let T := type of (C4_walk_collects_definitions
                               Examples.pf_examples Examples.three_functions_text
                               "code.py" Examples.three_functions eq_refl)
           in exact T).
Proof.
  split; [reflexivity|].
  apply (C4_walk_collects_definitions Examples.pf_examples
           Examples.three_functions_text "code.py" Examples.three_functions).
  reflexivity.
Defined.

(** ** Cyclomatic complexity *)

Section Complexity.

Lemma complexity_fold (l : list Ast.node) :
  forall acc,
    fold_left CodeMetrics.complexity_step l acc
    = acc + Z.of_nat (length (filter Ref.is_branch l)) + Ref.sum_extra_operands l.
Proof.
  induction l as [|n l IH]; intro acc; simpl.
  - lia.
  - rewrite IH.
    unfold CodeMetrics.complexity_step, Ref.is_branch, Ref.extra_operands.
    destruct (Ast.node_kind n); simpl length; lia.
Qed.

Lemma sum_extra_operands_perm (l l' : list Ast.node) :
  Permutation l l' -> Ref.sum_extra_operands l = Ref.sum_extra_operands l'.
Proof.
  induction 1; simpl; lia.
Qed.

Lemma sum_extra_operands_zero (l : list Ast.node) :
  (forall n, In n l -> Ref.is_BoolOp n = false) -> Ref.sum_extra_operands l = 0.
Proof.
  induction l as [|n l IH]; intro H; simpl; [reflexivity|].
  rewrite IH by (intros m Hm; apply H; now right).
  specialize (H n (or_introl eq_refl)).
  unfold Ref.is_BoolOp in H. unfold Ref.extra_operands.
  destruct (Ast.node_kind n); try reflexivity; discriminate.
Qed.

Lemma complexity_formula (f : Ast.node) :
  CodeMetrics._calculate_complexity f
  = 1 + Z.of_nat (length (filter Ref.is_branch (Ast.subnodes f)))
    + Ref.sum_extra_operands (Ast.subnodes f).
Proof.
  unfold CodeMetrics._calculate_complexity. rewrite complexity_fold.
  rewrite (Permutation_length (filter_perm Ref.is_branch _ _ (walk_perm f))).
  now rewrite (sum_extra_operands_perm _ _ (walk_perm f)).
Qed.

(** C9.  The complexity of a function is 1, plus 1 for every [if],
    [while], [for], exception handler and [with] among the nodes of its
    subtree, plus [n - 1] for every boolean operation with [n] operands
    there; the functions measured are the function definitions of the
    tree whose name does not start with [test_]; a function whose
    subtree has three branch nodes and no boolean operation has
    complexity 4; and without such functions the average is 1.0 and the
    maximum 1. *)
Theorem C9_cyclomatic_complexity :
  (forall f,
      CodeMetrics._calculate_complexity f
      = 1 + Z.of_nat (length (filter Ref.is_branch (Ast.subnodes f)))
        + Ref.sum_extra_operands (Ast.subnodes f))
  /\ (forall t f,
         In f (CodeMetrics.non_test_functions t)
         <-> In f (Ast.subnodes t) /\ Ast.is_FunctionDef f = true
             /\ Py.startswith (Ast.name f) "test_" = false)
  /\ (forall f,
         length (filter Ref.is_branch (Ast.subnodes f)) = 3%nat ->
         (forall n, In n (Ast.subnodes f) -> Ref.is_BoolOp n = false) ->
         CodeMetrics._calculate_complexity f = 4)
  /\ (forall t,
         CodeMetrics.non_test_functions t = [] ->
         CodeMetrics.average (CodeMetrics._function_complexity t) = 1%Q
         /\ CodeMetrics.maximum (CodeMetrics._function_complexity t) = 1).
Proof.
  split; [exact complexity_formula|].
  split.
  { intros t f. unfold CodeMetrics.non_test_functions.
    rewrite filter_In, walk_In, andb_true_iff, negb_true_iff. tauto. }
  split.
  { intros f H3 Hb. rewrite complexity_formula, H3.
    now rewrite sum_extra_operands_zero. }
  intros t Hnone. unfold CodeMetrics._function_complexity.
  rewrite Hnone. split; reflexivity.
Qed.

End Complexity.

Lemma C9_witness :
  CodeMetrics._calculate_complexity Examples.three_ifs = 4
  /\ CodeMetrics.average (CodeMetrics._function_complexity Examples.empty_module) = 1%Q
  /\ CodeMetrics.maximum (CodeMetrics._function_complexity Examples.empty_module) = 1.
Proof.
  destruct C9_cyclomatic_complexity as [_ [_ [H3 Hnone]]].
  split.
  - apply H3; [reflexivity|].
    intros n Hn. vm_compute in Hn.
    repeat (destruct Hn as [<-|Hn]; [reflexivity|]). destruct Hn.
  - apply Hnone. reflexivity.
Defined.

(** ** Coverage estimate *)

Section Coverage.

Lemma length_filter_negb {A : Type} (p : A -> bool) (l : list A) :
  (length (filter p l) + length (filter (fun x => negb (p x)) l) = length l)%nat.
Proof.
  induction l as [|x l IH]; simpl; [reflexivity|].
  destruct (p x); simpl; lia.
Qed.

(** C8.  The estimate is 0.0 when no tests are detected.  When tests
    are detected and there is no non-test function, it is 100.0 with at
    least one test function and 0.0 with none.  Otherwise it is
    [min(test_count / non_test_count, 1.0) * 100] rounded to one
    decimal, in the arithmetic of floats: the quotient is the float
    nearest to the exact quotient, the product the float nearest to the
    exact product, and the estimate the number of tenths nearest to that
    product.  The level is [excellent] from 80, [good] from 60,
    [moderate] from 40, [low] above 0 and [none] otherwise.  [analyze]
    reports this estimate and its level. *)
Theorem C8_coverage_estimate (pf : platform) (a : CoverageAnalyzer.analyzer) :
  let tests := CoverageAnalyzer.count_tests a in
  let others :=
    Z.of_nat (length (filter (fun f => negb (CoverageAnalyzer.is_test f))
                        (CoverageAnalyzer.functions a))) in
  (CoverageAnalyzer.check_test_presence pf a = false ->
     CoverageAnalyzer.estimate_coverage pf a = 0%Q)
  /\ (CoverageAnalyzer.check_test_presence pf a = true -> others = 0 ->
        0 < tests -> CoverageAnalyzer.estimate_coverage pf a = 100%Q)
  /\ (CoverageAnalyzer.check_test_presence pf a = true -> others = 0 ->
        tests = 0 -> CoverageAnalyzer.estimate_coverage pf a = 0%Q)
  /\ (CoverageAnalyzer.check_test_presence pf a = true -> others <> 0 ->
        CoverageAnalyzer.estimate_coverage pf a
        = Py.round1 (Py.fmul (Py.qmin (Py.truediv tests others) 1) 100))
  /\ (CoverageAnalyzer.check_test_presence pf a = true -> others <> 0 ->
        exists ratio product : Q,
          Ref.nearest_float (inject_Z tests / inject_Z others) ratio
          /\ Ref.nearest_float (Py.qmin ratio 1 * 100) product
          /\ Ref.nearest_tenth product (CoverageAnalyzer.estimate_coverage pf a))
  /\ (forall c : Q,
         ((80 <= c)%Q -> CoverageAnalyzer._get_coverage_level c = "excellent")
         /\ ((60 <= c)%Q -> (c < 80)%Q ->
             CoverageAnalyzer._get_coverage_level c = "good")
         /\ ((40 <= c)%Q -> (c < 60)%Q ->
             CoverageAnalyzer._get_coverage_level c = "moderate")
         /\ ((0 < c)%Q -> (c < 40)%Q ->
             CoverageAnalyzer._get_coverage_level c = "low")
         /\ ((c <= 0)%Q -> CoverageAnalyzer._get_coverage_level c = "none"))
  /\ CoverageAnalyzer.coverage_estimate (CoverageAnalyzer.analyze pf a)
     = CoverageAnalyzer.estimate_coverage pf a
  /\ CoverageAnalyzer.coverage_level (CoverageAnalyzer.analyze pf a)
     = CoverageAnalyzer._get_coverage_level (CoverageAnalyzer.estimate_coverage pf a).
Proof.
  intros tests others.
  assert (Hothers : Z.of_nat (length (CoverageAnalyzer.functions a)) - tests = others).
  { unfold tests, others, CoverageAnalyzer.count_tests.
    pose proof (length_filter_negb CoverageAnalyzer.is_test
                  (CoverageAnalyzer.functions a)). lia. }
  assert (Hreport :
            CoverageAnalyzer.coverage_estimate (CoverageAnalyzer.analyze pf a)
            = CoverageAnalyzer.estimate_coverage pf a
            /\ CoverageAnalyzer.coverage_level (CoverageAnalyzer.analyze pf a)
               = CoverageAnalyzer._get_coverage_level
                   (CoverageAnalyzer.estimate_coverage pf a))
    by (split; reflexivity).
  revert Hreport.
  generalize (CoverageAnalyzer.analyze pf a) as r. intros r Hreport.
  unfold CoverageAnalyzer.estimate_coverage at 1 2 3 4 5. fold tests. rewrite Hothers.
  split; [intros ->; reflexivity|].
  split; [intros -> -> Ht; apply Z.ltb_lt in Ht; simpl; now rewrite Ht|].
  split; [intros -> -> ->; reflexivity|].
  split; [intros -> Hne; apply Z.eqb_neq in Hne; now rewrite Hne|].
  split.
  { intros -> Hne. apply Z.eqb_neq in Hne. rewrite Hne.
    exists (Py.truediv tests others),
      (Py.fmul (Py.qmin (Py.truediv tests others) 1) 100).
    split; [apply truediv_nearest|]. split; [apply fmul_nearest|].
    apply round1_nearest. }
  split; [|exact Hreport].
  intro c. unfold CoverageAnalyzer._get_coverage_level.
  split; [intro H; now rewrite (Qle_bool_true _ _ H)|].
  split; [intros H1 H2; now rewrite (Qle_bool_lt_false _ _ H2), (Qle_bool_true _ _ H1)|].
  split; [intros H1 H2;
          rewrite (Qle_bool_lt_false 80 c), (Qle_bool_lt_false _ _ H2),
            (Qle_bool_true _ _ H1);
          [reflexivity|eapply Qlt_trans; [exact H2|reflexivity]]|].
  split.
  - intros H1 H2.
    rewrite (Qle_bool_lt_false 80 c), (Qle_bool_lt_false 60 c),
      (Qle_bool_lt_false _ _ H2), (Qle_bool_lt_false _ _ H1);
      [reflexivity| |]; (eapply Qlt_trans; [exact H2|reflexivity]).
  - intro H.
    rewrite (Qle_bool_lt_false 80 c), (Qle_bool_lt_false 60 c),
      (Qle_bool_lt_false 40 c), (Qle_bool_true _ _ H);
      [reflexivity| | |]; (eapply Qle_lt_trans; [exact H|reflexivity]).
Qed.

End Coverage.

Lemma C8_witness :
  CoverageAnalyzer.check_test_presence Examples.pf_empty
    MoreExamples.many_tests_analyzer = true
  /\ CoverageAnalyzer.estimate_coverage Examples.pf_empty
       MoreExamples.many_tests_analyzer
     = Py.round1 (Py.fmul (Py.qmin (Py.truediv 23 80) 1) 100)
  /\ Py.round1 (Py.fmul (Py.qmin (Py.truediv 23 80) 1) 100) = 287 # 10
  /\ CoverageAnalyzer._get_coverage_level
       (CoverageAnalyzer.estimate_coverage Examples.pf_empty
          MoreExamples.many_tests_analyzer)
     = "low".
Proof.
  destruct (C8_coverage_estimate Examples.pf_empty MoreExamples.many_tests_analyzer)
    as (_ & _ & _ & Hratio & _ & Hlevel & _).
  split; [reflexivity|].
  split; [apply Hratio; [reflexivity|discriminate]|].
  split; [vm_compute; reflexivity|].
  apply (Hlevel _); vm_compute; reflexivity.
Defined.

(** ** Unparsable and empty text *)

Section ErrorPaths.

Lemma parse_or_none_raised (pf : platform) (code : string) :
  ast_parse pf code = Py.Raised Py.SyntaxError -> parse_or_none pf code = None.
Proof. unfold parse_or_none. now intros ->. Qed.

Lemma parse_or_none_returned (pf : platform) (code : string) (t : Ast.node) :
  ast_parse pf code = Py.Returned t -> parse_or_none pf code = Some t.
Proof. unfold parse_or_none. now intros ->. Qed.

Lemma parse_or_none_cases (pf : platform) (code : string) :
  (parse_or_none pf code = None /\ ast_parse pf code = Py.Raised Py.SyntaxError)
  \/ (exists t, parse_or_none pf code = Some t /\ ast_parse pf code = Py.Returned t).
Proof.
  unfold parse_or_none. destruct (ast_parse pf code) as [t|[]].
  - right. now exists t.
  - now left.
Qed.

(** The aggregator returns a report on every text. *)
Lemma analyze_returns (pf : platform) (code filename : string) :
  exists r, CodeMetrics.analyze pf (CodeMetrics.init pf code filename) = Py.Returned r.
Proof.
  unfold CodeMetrics.analyze. simpl.
  destruct (parse_or_none_cases pf code) as [[-> _]|[t [-> Hparse]]].
  - eexists. reflexivity.
  - unfold CodeMetrics._check_coverage, CoverageAnalyzer.init. simpl.
    rewrite Hparse. simpl.
    destruct (CoverageAnalyzer._extract_definitions t). simpl.
    eexists. reflexivity.
Qed.

(** C10.  On a text that [ast.parse] rejects, the constructor of
    [CoverageAnalyzer] raises [SyntaxError], while the constructors of
    the detector and of the aggregator store no tree; the aggregator
    then returns its empty report without building a [CoverageAnalyzer],
    and on every text [analyze] returns a report, so the exception never
    leaves the pipeline. *)
Theorem C10_unguarded_constructor (pf : platform) :
  (forall code filepath,
      ast_parse pf code = Py.Raised Py.SyntaxError ->
      CoverageAnalyzer.init pf code filepath = Py.Raised Py.SyntaxError)
  /\ (forall code filename m,
         ast_parse pf code = Py.Raised Py.SyntaxError ->
         DuplicateCodeDetector.tree (DuplicateCodeDetector.init pf code m) = None
         /\ CodeMetrics.tree (CodeMetrics.init pf code filename) = None
         /\ CodeMetrics._check_coverage pf (CodeMetrics.init pf code filename)
            = Py.Raised Py.SyntaxError
         /\ CodeMetrics.analyze pf (CodeMetrics.init pf code filename)
            = Py.Returned (CodeMetrics._empty_metrics
                             (CodeMetrics.init pf code filename)))
  /\ (forall code filename,
         exists r,
           CodeMetrics.analyze pf (CodeMetrics.init pf code filename)
           = Py.Returned r).
Proof.
  split; [intros code filepath H; unfold CoverageAnalyzer.init; now rewrite H|].
  split; [|apply analyze_returns].
  intros code filename m H.
  unfold CodeMetrics.analyze, CodeMetrics._check_coverage, CoverageAnalyzer.init.
  simpl. rewrite (parse_or_none_raised pf code H), H. repeat split.
Qed.

End ErrorPaths.

Lemma C10_witness :
  ast_parse Examples.pf_empty Examples.invalid_text = Py.Raised Py.SyntaxError
  /\ CoverageAnalyzer.init Examples.pf_empty Examples.invalid_text "code.py"
     = Py.Raised Py.SyntaxError
  /\ CodeMetrics.analyze Examples.pf_empty
       (CodeMetrics.init Examples.pf_empty Examples.invalid_text "test.py")
     = Py.Returned (CodeMetrics._empty_metrics
                      (CodeMetrics.init Examples.pf_empty Examples.invalid_text "test.py")).
Proof.
  destruct (C10_unguarded_constructor Examples.pf_empty) as (Hraise & Hguard & _).
  split; [reflexivity|].
  split; [apply Hraise; reflexivity|].
  apply (Hguard Examples.invalid_text "test.py" 3). reflexivity.
Defined.

Section EmptyAndInvalid.

(** C1, as the code has it.  The empty text parses to a module without
    statements, so [analyze] measures and scores it: [total_lines] is 1,
    [code_lines] is 0, there is no function, the total score is 65.0
    (complexity 20, code style 20, structure 10, duplication 15), and
    the grade is [D]. *)
Theorem C1_empty_text_report (pf : platform) (filename : string) :
  ast_parse pf "" = Py.Returned Examples.empty_module ->
  exists r,
    CodeMetrics.analyze pf (CodeMetrics.init pf "" filename) = Py.Returned r
    /\ CodeMetrics.total_lines (CodeMetrics.metrics r) = 1
    /\ CodeMetrics.code_lines (CodeMetrics.metrics r) = 0
    /\ CodeMetrics.count (CodeMetrics.functions (CodeMetrics.metrics r)) = 0
    /\ (CodeMetrics.total (CodeMetrics.overall_score r) == 65)%Q
    /\ CodeMetrics.letter_grade (CodeMetrics.overall_score r) = "D".
Proof.
  intro Hparse.
  unfold CodeMetrics.analyze, CodeMetrics._check_coverage,
    CodeMetrics._check_duplication, CoverageAnalyzer.init,
    DuplicateCodeDetector.init, CodeMetrics.init.
  simpl. rewrite (parse_or_none_returned pf "" _ Hparse), Hparse.
  eexists. split; [reflexivity|].
  vm_compute. repeat split; congruence.
Qed.

(** C2, as the code has it.  On a text that [ast.parse] rejects,
    [analyze] raises nothing and returns the report of [_empty_metrics]:
    every count is 0, [total_lines] included, the total score is 0.0 and
    the grade is [F]. *)
Theorem C2_unparsable_text_report (pf : platform) (code filename : string) :
  ast_parse pf code = Py.Raised Py.SyntaxError ->
  exists r,
    CodeMetrics.analyze pf (CodeMetrics.init pf code filename) = Py.Returned r
    /\ r = CodeMetrics._empty_metrics (CodeMetrics.init pf code filename)
    /\ CodeMetrics.total_lines (CodeMetrics.metrics r) = 0
    /\ CodeMetrics.code_lines (CodeMetrics.metrics r) = 0
    /\ CodeMetrics.count (CodeMetrics.functions (CodeMetrics.metrics r)) = 0
    /\ CodeMetrics.count (CodeMetrics.classes (CodeMetrics.metrics r)) = 0
    /\ CodeMetrics.imports (CodeMetrics.metrics r) = 0
    /\ CodeMetrics.issues_count (CodeMetrics.code_style (CodeMetrics.metrics r)) = 0
    /\ DuplicateCodeDetector.duplicate_pairs
         (CodeMetrics.duplication (CodeMetrics.metrics r)) = 0
    /\ CodeMetrics.total (CodeMetrics.overall_score r) = 0%Q
    /\ CodeMetrics.letter_grade (CodeMetrics.overall_score r) = "F".
Proof.
  intro Hparse.
  unfold CodeMetrics.analyze. simpl.
  rewrite (parse_or_none_raised pf code Hparse).
  eexists. split; [reflexivity|]. repeat split.
Qed.

End EmptyAndInvalid.

Lemma C1_witness :
  ast_parse Examples.pf_empty "" = Py.Returned Examples.empty_module
  /\ ltac:(let T := type of (C1_empty_text_report Examples.pf_empty "test.py" eq_refl)
           in exact T).
Proof.
  split; [reflexivity|].
  apply (C1_empty_text_report Examples.pf_empty "test.py"). reflexivity.
Defined.

(** The claim C1 as the specification words it fails on the empty text:
    the report does not have total 0.0 and grade [F]. *)
Lemma C1_counterexample :
  ~ (exists r,
        CodeMetrics.analyze Examples.pf_empty
          (CodeMetrics.init Examples.pf_empty "" "test.py") = Py.Returned r
        /\ CodeMetrics.total_lines (CodeMetrics.metrics r) = 1
        /\ CodeMetrics.code_lines (CodeMetrics.metrics r) = 0
        /\ CodeMetrics.count (CodeMetrics.functions (CodeMetrics.metrics r)) = 0
        /\ (CodeMetrics.total (CodeMetrics.overall_score r) == 0)%Q
        /\ CodeMetrics.letter_grade (CodeMetrics.overall_score r) = "F").
Proof.
  intros (r & Hr & _ & _ & _ & _ & Hgrade).
  vm_compute in Hr. injection Hr as <-. discriminate Hgrade.
Qed.

Lemma C2_witness :
  ast_parse Examples.pf_empty Examples.invalid_text = Py.Raised Py.SyntaxError
  /\ ltac:(let T := type of (C2_unparsable_text_report Examples.pf_empty
                               Examples.invalid_text "test.py" eq_refl)
           in exact T).
Proof.
  split; [reflexivity|].
  apply (C2_unparsable_text_report Examples.pf_empty Examples.invalid_text "test.py").
  reflexivity.
Defined.

(** The claim C2 as the specification words it fails: the report for the
    unparsable text is not the report for the empty text (their
    [total_lines], scores and grades differ). *)
Lemma C2_counterexample :
  CodeMetrics.analyze Examples.pf_empty
    (CodeMetrics.init Examples.pf_empty Examples.invalid_text "test.py")
  <> CodeMetrics.analyze Examples.pf_empty
       (CodeMetrics.init Examples.pf_empty "" "test.py").
Proof.
  vm_compute. discriminate.
Qed.

(** ** The overall score *)

Section Score.

Lemma ratio_percent_range (d n : Z) :
  0 <= d <= n -> 0 < n ->
  (0 <= inject_Z d / inject_Z n * 100)%Q /\ (inject_Z d / inject_Z n * 100 <= 100)%Q.
Proof.
  intros Hd Hn.
  assert (Hq : (0 < inject_Z n)%Q) by (rewrite <- (Zlt_Qlt 0); exact Hn).
  assert (Hd0 : (0 <= inject_Z d)%Q) by (rewrite <- (Zle_Qle 0); lia).
  assert (Hdn : (inject_Z d <= inject_Z n)%Q) by (rewrite <- Zle_Qle; lia).
  assert (H0 : (0 <= inject_Z d / inject_Z n)%Q)
    by (apply Qle_shift_div_l; [exact Hq|lra]).
  assert (H1 : (inject_Z d / inject_Z n <= 1)%Q)
    by (apply Qle_shift_div_r; [exact Hq|lra]).
  split; lra.
Qed.

Lemma docstring_coverage_range (t : Ast.node) :
  (0 <= CodeMetrics.coverage_percent (CodeMetrics._check_docstrings t))%Q
  /\ (CodeMetrics.coverage_percent (CodeMetrics._check_docstrings t) <= 100)%Q.
Proof.
  unfold CodeMetrics._check_docstrings, CodeMetrics.count_documented. simpl.
  set (fs := filter Ast.is_FunctionDef (Ast.walk t)).
  set (cs := filter Ast.is_ClassDef (Ast.walk t)).
  set (doc := fun n => Ast.truthy (Ast.get_docstring n)).
  pose proof (filter_length_le doc fs) as Hf.
  pose proof (filter_length_le doc cs) as Hc.
  apply (round1_range 0 100).
  - destruct (0 <? _) eqn:Hpos; [|discriminate].
    apply Z.ltb_lt in Hpos. apply percent_range; lia.
  - destruct (0 <? _) eqn:Hpos; [|discriminate].
    apply Z.ltb_lt in Hpos. apply percent_range; lia.
Qed.

Ltac split_ifs :=
  repeat match goal with
         | |- context [if ?b then _ else _] => destruct b
         end.

Lemma score_total_range (m : CodeMetrics.measures) :
  (0 <= CodeMetrics.coverage_percent (CodeMetrics.docstrings m))%Q ->
  (CodeMetrics.coverage_percent (CodeMetrics.docstrings m) <= 100)%Q ->
  (0 <= CodeMetrics.total (CodeMetrics._calculate_score m))%Q
  /\ (CodeMetrics.total (CodeMetrics._calculate_score m) <= 100)%Q.
Proof.
  intros Hlo Hhi. unfold CodeMetrics._calculate_score. simpl.
  set (c := CodeMetrics.coverage_percent (CodeMetrics.docstrings m)) in *.
  set (avg := CodeMetrics.average (CodeMetrics.complexity m)).
  set (dup := DuplicateCodeDetector.duplication_percent (CodeMetrics.duplication m)).
  set (cov := CodeMetrics.get_coverage_estimate (CodeMetrics.coverage m)).
  set (complexity_score :=
         (if Qle_bool avg 5 then 20
          else if Qle_bool avg 10 then 15 else if Qle_bool avg 15 then 10 else 5)%Q).
  set (style_score :=
         if CodeMetrics.issues_count (CodeMetrics.code_style m) =? 0 then 20%Q
         else if CodeMetrics.issues_count (CodeMetrics.code_style m) <=? 3 then 15%Q
              else if CodeMetrics.issues_count (CodeMetrics.code_style m) <=? 10
                   then 10%Q else 5%Q).
  set (structure := Z.max 0 _).
  set (duplication_score :=
         (if Qeq_bool dup 0 then 15
          else if negb (Qle_bool 10 dup) then 12
               else if negb (Qle_bool 25 dup) then 8 else 3)%Q).
  set (coverage_score :=
         (if Qle_bool 80 cov then 15
          else if Qle_bool 60 cov then 12
               else if Qle_bool 40 cov then 8
                    else if Qle_bool 20 cov then 5 else 0)%Q).
  assert (H1 : (0 <= complexity_score)%Q /\ (complexity_score <= 20)%Q)
    by (unfold complexity_score; split_ifs; split; lra).
  assert (H2 : (0 <= style_score)%Q /\ (style_score <= 20)%Q)
    by (unfold style_score; split_ifs; split; lra).
  assert (H3 : (0 <= inject_Z structure)%Q /\ (inject_Z structure <= 15)%Q).
  { assert (0 <= structure <= 15) as [Ha Hb] by (unfold structure; split_ifs; lia).
    split; [rewrite <- (Zle_Qle 0)|rewrite <- (Zle_Qle _ 15)]; assumption. }
  assert (H4 : (0 <= duplication_score)%Q /\ (duplication_score <= 15)%Q)
    by (unfold duplication_score; split_ifs; split; lra).
  assert (H5 : (0 <= coverage_score)%Q /\ (coverage_score <= 15)%Q)
    by (unfold coverage_score; split_ifs; split; lra).
  destruct (doc_score_range c Hlo Hhi) as [Hd0 Hd1].
  set (doc_score := Py.fmul _ 15) in *.
  clearbody doc_score complexity_score style_score structure duplication_score
    coverage_score.
  destruct H1, H2, H3, H4, H5.
  fadd_bounds 0%Q 35%Q doc_score complexity_score Ha0 Ha1.
  set (s1 := Py.fadd doc_score complexity_score) in *.
  fadd_bounds 0%Q 55%Q s1 style_score Hb0 Hb1.
  set (s2 := Py.fadd s1 style_score) in *.
  fadd_bounds 0%Q 70%Q s2 (inject_Z structure) Hc0 Hc1.
  set (s3 := Py.fadd s2 (inject_Z structure)) in *.
  fadd_bounds 0%Q 85%Q s3 duplication_score He0 He1.
  set (s4 := Py.fadd s3 duplication_score) in *.
  fadd_bounds 0%Q 100%Q s4 coverage_score Hf0 Hf1.
  apply (round1_range 0 100); assumption.
Qed.

Lemma grade_of_spec (x : Q) :
  ((90 <= x)%Q -> CodeMetrics.grade_of x = "A")
  /\ ((80 <= x)%Q -> (x < 90)%Q -> CodeMetrics.grade_of x = "B")
  /\ ((70 <= x)%Q -> (x < 80)%Q -> CodeMetrics.grade_of x = "C")
  /\ ((60 <= x)%Q -> (x < 70)%Q -> CodeMetrics.grade_of x = "D")
  /\ ((x < 60)%Q -> CodeMetrics.grade_of x = "F").
Proof.
  unfold CodeMetrics.grade_of.
  destruct (Qle_bool 90 x) eqn:E90;
    [apply Qle_bool_iff in E90|apply Qle_bool_false_lt in E90];
  (destruct (Qle_bool 80 x) eqn:E80;
    [apply Qle_bool_iff in E80|apply Qle_bool_false_lt in E80]);
  (destruct (Qle_bool 70 x) eqn:E70;
    [apply Qle_bool_iff in E70|apply Qle_bool_false_lt in E70]);
  (destruct (Qle_bool 60 x) eqn:E60;
    [apply Qle_bool_iff in E60|apply Qle_bool_false_lt in E60]);
  repeat split; intros; try reflexivity; exfalso; lra.
Qed.

(** C3.  On every text that parses (the empty one included), [analyze]
    returns a report whose total score lies between 0 and 100 and whose
    grade is [A] from 90, [B] from 80, [C] from 70, [D] from 60 and [F]
    below. *)
Theorem C3_total_range_and_grade (pf : platform) (code filename : string)
    (t : Ast.node) :
  ast_parse pf code = Py.Returned t ->
  exists r,
    CodeMetrics.analyze pf (CodeMetrics.init pf code filename) = Py.Returned r
    /\ (0 <= CodeMetrics.total (CodeMetrics.overall_score r))%Q
    /\ (CodeMetrics.total (CodeMetrics.overall_score r) <= 100)%Q
    /\ ((90 <= CodeMetrics.total (CodeMetrics.overall_score r))%Q ->
        CodeMetrics.letter_grade (CodeMetrics.overall_score r) = "A")
    /\ ((80 <= CodeMetrics.total (CodeMetrics.overall_score r))%Q ->
        (CodeMetrics.total (CodeMetrics.overall_score r) < 90)%Q ->
        CodeMetrics.letter_grade (CodeMetrics.overall_score r) = "B")
    /\ ((70 <= CodeMetrics.total (CodeMetrics.overall_score r))%Q ->
        (CodeMetrics.total (CodeMetrics.overall_score r) < 80)%Q ->
        CodeMetrics.letter_grade (CodeMetrics.overall_score r) = "C")
    /\ ((60 <= CodeMetrics.total (CodeMetrics.overall_score r))%Q ->
        (CodeMetrics.total (CodeMetrics.overall_score r) < 70)%Q ->
        CodeMetrics.letter_grade (CodeMetrics.overall_score r) = "D")
    /\ ((CodeMetrics.total (CodeMetrics.overall_score r) < 60)%Q ->
        CodeMetrics.letter_grade (CodeMetrics.overall_score r) = "F").
Proof.
  intro Hparse.
  unfold CodeMetrics.analyze, CodeMetrics._check_coverage, CoverageAnalyzer.init.
  simpl. rewrite (parse_or_none_returned pf code t Hparse), Hparse. simpl.
  destruct (CoverageAnalyzer._extract_definitions t) as [fs cs]. simpl.
  eexists. split; [reflexivity|].
  match goal with
  | |- context [CodeMetrics._calculate_score ?m] => set (ms := m)
  end.
  simpl.
  destruct (score_total_range ms) as [Hlo Hhi];
    [apply docstring_coverage_range|apply docstring_coverage_range|].
  split; [exact Hlo|]. split; [exact Hhi|].
  exact (grade_of_spec (CodeMetrics.total (CodeMetrics._calculate_score ms))).
Qed.

End Score.

Lemma C3_witness :
  ast_parse Examples.pf_examples Examples.three_functions_text
  = Py.Returned Examples.three_functions
  /\ ltac:(let T := type of (C3_total_range_and_grade Examples.pf_examples
                               Examples.three_functions_text "code.py"
                               Examples.three_functions eq_refl)
           in exact T).
Proof.
  split; [reflexivity|].
  apply (C3_total_range_and_grade Examples.pf_examples
           Examples.three_functions_text "code.py" Examples.three_functions).
  reflexivity.
Defined.

(** ** The comparison loops of the detector *)

Section Detector.

Lemma nested_fold {S : Type} (F : nat -> nat -> S -> S) (g : nat -> list nat)
    (l : list nat) :
  forall st,
    fold_left (fun st i => fold_left (fun st j => F i j st) (g i) st) l st
    = fold_left (fun st p => F (fst p) (snd p) st)
        (flat_map (fun i => map (pair i) (g i)) l) st.
Proof.
  induction l as [|i l IH]; intro st; simpl; [reflexivity|].
  rewrite fold_left_app, IH. f_equal.
  generalize (g i) st. intro js. induction js as [|j js IHj]; intro st'; simpl.
  - reflexivity.
  - apply IHj.
Qed.

Lemma compare_pair_spec (fs : list DuplicateCodeDetector.candidate) (p : nat * nat)
    (st : DuplicateCodeDetector.found) :
  DuplicateCodeDetector.compare_pair fs (fst p) (snd p) st
  = if Ref.similar fs p
    then (fst st ++ Ref.duplicate_of fs p, Ref.names_after (Ref.duplicate_of fs p) (snd st))
    else st.
Proof.
  unfold DuplicateCodeDetector.compare_pair, Ref.similar, Ref.duplicate_of.
  destruct (nth_error fs (fst p)) as [fi|]; [|reflexivity].
  destruct (nth_error fs (snd p)) as [fj|]; [|reflexivity].
  destruct (Qle_bool _ _); reflexivity.
Qed.

Lemma names_after_app (d1 d2 : list DuplicateCodeDetector.duplicate) (s : set string) :
  Ref.names_after (d1 ++ d2) s = Ref.names_after d2 (Ref.names_after d1 s).
Proof. unfold Ref.names_after. apply fold_left_app. Qed.

Lemma compare_fold (fs : list DuplicateCodeDetector.candidate)
    (ps : list (nat * nat)) :
  forall st,
    fold_left (fun st p => DuplicateCodeDetector.compare_pair fs (fst p) (snd p) st)
      ps st
    = (fst st ++ flat_map (Ref.duplicate_of fs) (filter (Ref.similar fs) ps),
       Ref.names_after (flat_map (Ref.duplicate_of fs) (filter (Ref.similar fs) ps))
         (snd st)).
Proof.
  induction ps as [|p ps IH]; intros [dups names]; simpl.
  - now rewrite app_nil_r.
  - rewrite IH, compare_pair_spec.
    destruct (Ref.similar fs p); simpl; [|reflexivity].
    now rewrite names_after_app, app_assoc.
Qed.

Lemma compare_all_spec (fs : list DuplicateCodeDetector.candidate) :
  DuplicateCodeDetector.compare_all fs
  = (flat_map (Ref.duplicate_of fs) (Ref.recorded_pairs fs),
     Ref.names_after (flat_map (Ref.duplicate_of fs) (Ref.recorded_pairs fs))
       (empty_set string)).
Proof.
  unfold DuplicateCodeDetector.compare_all, DuplicateCodeDetector.inner_loop.
  rewrite (nested_fold (DuplicateCodeDetector.compare_pair fs)
             (fun i => seq (i + 1) (length fs - (i + 1)))).
  now rewrite compare_fold.
Qed.

Lemma names_after_In (dups : list DuplicateCodeDetector.duplicate) :
  forall s x,
    In x (Ref.names_after dups s)
    <-> In x s
        \/ In x (flat_map (fun d => [DuplicateCodeDetector.function1 d;
                                      DuplicateCodeDetector.function2 d]) dups).
Proof.
  induction dups as [|d dups IH]; intros s x; simpl.
  - tauto.
  - unfold Ref.names_after in IH |- *. simpl. rewrite IH.
    unfold DuplicateCodeDetector.names_add.
    rewrite !set_add_iff. intuition congruence.
Qed.

Lemma names_after_NoDup (dups : list DuplicateCodeDetector.duplicate) :
  forall s, NoDup s -> NoDup (Ref.names_after dups s).
Proof.
  induction dups as [|d dups IH]; intros s Hs; simpl; [exact Hs|].
  apply IH. unfold DuplicateCodeDetector.names_add.
  now apply set_add_nodup, set_add_nodup.
Qed.

(** The set the loops build has as many elements as there are distinct
    names in the recorded entries. *)
Lemma names_after_length (dups : list DuplicateCodeDetector.duplicate) :
  length (Ref.names_after dups (empty_set string)) = length (Ref.names_in dups).
Proof.
  apply Permutation_length, NoDup_Permutation.
  - apply names_after_NoDup. constructor.
  - apply NoDup_nodup.
  - intro x. unfold Ref.names_in. rewrite names_after_In, nodup_In.
    simpl. tauto.
Qed.

Lemma index_pairs_In (n i j : nat) :
  In (i, j) (Ref.index_pairs n) <-> (i < j < n)%nat.
Proof.
  unfold Ref.index_pairs. rewrite in_flat_map. split.
  - intros [i' [Hi Hj]]. apply in_map_iff in Hj as [j' [Heq Hj]].
    injection Heq as -> ->. apply in_seq in Hi, Hj. lia.
  - intro H. exists i. split; [apply in_seq; lia|].
    apply in_map, in_seq. lia.
Qed.

Lemma index_pairs_NoDup_from (l : list nat) (g : nat -> list nat) :
  NoDup l -> (forall i, NoDup (g i)) ->
  NoDup (flat_map (fun i => map (pair i) (g i)) l).
Proof.
  intros Hl Hg. induction Hl as [|i l Hi Hl IH]; simpl; [constructor|].
  apply NoDup_app.
  - apply Finite.Injective_map_NoDup; [|apply Hg].
    intros x y Heq. now injection Heq.
  - exact IH.
  - intros [a b] Ha Hb. apply in_map_iff in Ha as [j [Heq _]].
    injection Heq as <- <-.
    apply in_flat_map in Hb as [i' [Hi' Hb]].
    apply in_map_iff in Hb as [j' [Heq _]]. injection Heq as -> _.
    contradiction.
Qed.

Lemma index_pairs_NoDup (n : nat) : NoDup (Ref.index_pairs n).
Proof.
  apply index_pairs_NoDup_from; [|intro i]; apply seq_NoDup.
Qed.

Lemma recorded_pairs_valid (fs : list DuplicateCodeDetector.candidate) (i j : nat) :
  In (i, j) (Ref.recorded_pairs fs) -> (i < j < length fs)%nat.
Proof.
  unfold Ref.recorded_pairs. rewrite filter_In, index_pairs_In. tauto.
Qed.

Lemma duplicate_of_length (fs : list DuplicateCodeDetector.candidate)
    (ps : list (nat * nat)) :
  (forall p, In p ps -> (fst p < length fs)%nat /\ (snd p < length fs)%nat) ->
  length (flat_map (Ref.duplicate_of fs) ps) = length ps.
Proof.
  induction ps as [|p ps IH]; intro H; simpl; [reflexivity|].
  rewrite length_app, IH by (intros q Hq; apply H; now right).
  destruct (H p (or_introl eq_refl)) as [Hi Hj].
  unfold Ref.duplicate_of.
  destruct (nth_error fs (fst p)) eqn:Ei;
    [|apply nth_error_None in Ei; lia].
  destruct (nth_error fs (snd p)) eqn:Ej;
    [|apply nth_error_None in Ej; lia].
  reflexivity.
Qed.

Lemma extract_not_test (d : DuplicateCodeDetector.detector) (l : list Ast.node) :
  forall acc,
    Forall (fun f => Py.startswith (DuplicateCodeDetector.cand_name f) "test_" = false) acc ->
    Forall (fun f => Py.startswith (DuplicateCodeDetector.cand_name f) "test_" = false)
      (fold_left (DuplicateCodeDetector.extract_step d) l acc).
Proof.
  induction l as [|n l IH]; intros acc Hacc; simpl; [exact Hacc|].
  apply IH. unfold DuplicateCodeDetector.extract_step.
  destruct (Ast.is_FunctionDef n); [|exact Hacc].
  destruct (Py.startswith (Ast.name n) "test_") eqn:Htest; [exact Hacc|].
  destruct (Ast.get_source_segment n) as [func_code|]; [|exact Hacc].
  destruct (Py.truthy func_code); [|exact Hacc].
  destruct (_ <=? _); [|exact Hacc].
  apply Forall_app. split; [exact Hacc|].
  constructor; [exact Htest|constructor].
Qed.

Lemma candidates_not_test (d : DuplicateCodeDetector.detector) :
  Forall (fun f => Py.startswith (DuplicateCodeDetector.cand_name f) "test_" = false)
    (Ref.candidates d).
Proof.
  unfold Ref.candidates. destruct (DuplicateCodeDetector.tree d); [|constructor].
  apply extract_not_test. constructor.
Qed.

Lemma detect_duplicates (d : DuplicateCodeDetector.detector) :
  DuplicateCodeDetector.duplicates (DuplicateCodeDetector.detect d)
  = flat_map (Ref.duplicate_of (Ref.candidates d)) (Ref.recorded_pairs (Ref.candidates d)).
Proof.
  unfold DuplicateCodeDetector.detect, Ref.candidates.
  destruct (DuplicateCodeDetector.tree d) as [t|]; [|reflexivity].
  unfold DuplicateCodeDetector.detect_in. now rewrite compare_all_spec.
Qed.

Lemma total_functions_max (fs : list DuplicateCodeDetector.candidate) :
  match fs with [] => 1%nat | _ => length fs end = Nat.max (length fs) 1.
Proof. destruct fs; simpl; lia. Qed.

Lemma detect_percent (d : DuplicateCodeDetector.detector) :
  let r := DuplicateCodeDetector.detect d in
  let raw := Ref.raw_percent
               (length (Ref.names_in (DuplicateCodeDetector.duplicates r)))
               (length (Ref.candidates d)) in
  DuplicateCodeDetector.duplicate_pairs r
  = Z.of_nat (length (DuplicateCodeDetector.duplicates r))
  /\ (DuplicateCodeDetector.duplication_percent r == Py.round1 raw)%Q
  /\ DuplicateCodeDetector.severity r
     = DuplicateCodeDetector._calculate_severity
         (DuplicateCodeDetector.duplicate_pairs r) raw.
Proof.
  unfold DuplicateCodeDetector.detect, Ref.candidates.
  destruct (DuplicateCodeDetector.tree d) as [t|]; simpl.
  - unfold DuplicateCodeDetector.detect_in. rewrite compare_all_spec. simpl.
    rewrite names_after_length, total_functions_max.
    repeat split; reflexivity.
  - repeat split; reflexivity.
Qed.

Lemma severity_rule (pairs : Z) (pct : Q) :
  (pairs = 0 -> DuplicateCodeDetector._calculate_severity pairs pct = "none")
  /\ (pairs <> 0 -> pairs <= 2 -> (pct < 30)%Q ->
      DuplicateCodeDetector._calculate_severity pairs pct = "low")
  /\ (pairs <> 0 -> ~ (pairs <= 2 /\ (pct < 30)%Q) ->
      pairs <= 5 \/ (pct < 50)%Q ->
      DuplicateCodeDetector._calculate_severity pairs pct = "medium")
  /\ (pairs <> 0 -> ~ (pairs <= 2 /\ (pct < 30)%Q) ->
      ~ (pairs <= 5 \/ (pct < 50)%Q) ->
      DuplicateCodeDetector._calculate_severity pairs pct = "high").
Proof.
  unfold DuplicateCodeDetector._calculate_severity.
  destruct (Z.eqb_spec pairs 0) as [H0|H0];
  destruct (Z.leb_spec pairs 2) as [H2|H2];
  destruct (Z.leb_spec pairs 5) as [H5|H5];
  (destruct (Qle_bool 30 pct) eqn:E30;
    [apply Qle_bool_iff in E30|apply Qle_bool_false_lt in E30]);
  (destruct (Qle_bool 50 pct) eqn:E50;
    [apply Qle_bool_iff in E50|apply Qle_bool_false_lt in E50]);
  simpl; repeat split; intros; try reflexivity; exfalso;
    try lia; try lra;
    repeat match goal with
           | H : ~ (_ /\ _) |- _ => apply H; split; try lia; try lra
           | H : ~ (_ \/ _) |- _ => apply H; (left; lia) || (right; lra)
           | H : _ \/ _ |- _ => destruct H; try lia; try lra
           end.
Qed.

(** C6, as the code has it.  The number of pairs is the number of recorded
    entries.  The reported [duplication_percent] is the number of distinct
    names in the recorded entries, divided by the number of candidates (1
    when there is none), times 100, rounded to one decimal, in the
    arithmetic of floats: the quotient is the float nearest to the exact
    quotient, the percentage before rounding the float nearest to the
    exact product, and the reported percentage the number of tenths
    nearest to it (23 names of 80 candidates give 28.7).  The severity
    follows the ordered rule, applied to the percentage before rounding:
    [none] without pairs; else [low] with at most 2 pairs and less than
    30 percent; else [medium] with at most 5 pairs or less than 50 percent;
    else [high]; one pair at 100 percent gives [medium].  [analyze] reports
    what [detect] computed. *)
Theorem C6_percent_rounded_and_severity (d : DuplicateCodeDetector.detector) :
  let r := DuplicateCodeDetector.detect d in
  let raw := Ref.raw_percent
               (length (Ref.names_in (DuplicateCodeDetector.duplicates r)))
               (length (Ref.candidates d)) in
  DuplicateCodeDetector.duplicate_pairs r
  = Z.of_nat (length (DuplicateCodeDetector.duplicates r))
  /\ (DuplicateCodeDetector.duplication_percent r == Py.round1 raw)%Q
  /\ DuplicateCodeDetector.severity r
     = DuplicateCodeDetector._calculate_severity
         (DuplicateCodeDetector.duplicate_pairs r) raw
  /\ (forall (pairs : Z) (pct : Q),
         (pairs = 0 -> DuplicateCodeDetector._calculate_severity pairs pct = "none")
         /\ (pairs <> 0 -> pairs <= 2 -> (pct < 30)%Q ->
             DuplicateCodeDetector._calculate_severity pairs pct = "low")
         /\ (pairs <> 0 -> ~ (pairs <= 2 /\ (pct < 30)%Q) ->
             pairs <= 5 \/ (pct < 50)%Q ->
             DuplicateCodeDetector._calculate_severity pairs pct = "medium")
         /\ (pairs <> 0 -> ~ (pairs <= 2 /\ (pct < 30)%Q) ->
             ~ (pairs <= 5 \/ (pct < 50)%Q) ->
             DuplicateCodeDetector._calculate_severity pairs pct = "high"))
  /\ DuplicateCodeDetector._calculate_severity 1 100 = "medium"
  /\ (exists ratio : Q,
         Ref.nearest_float
           (inject_Z (Z.of_nat (length (Ref.names_in
                                          (DuplicateCodeDetector.duplicates r))))
            / inject_Z (Z.of_nat (Nat.max (length (Ref.candidates d)) 1)))
           ratio
         /\ Ref.nearest_float (ratio * 100) raw
         /\ Ref.nearest_tenth raw (Py.round1 raw))
  /\ Py.round1 (Ref.raw_percent 23 80) = 287 # 10
  /\ DuplicateCodeDetector.analyze d = r.
Proof.
  intros r raw.
  destruct (detect_percent d) as (Hpairs & Hpercent & Hseverity).
  split; [exact Hpairs|]. split; [exact Hpercent|]. split; [exact Hseverity|].
  split; [exact severity_rule|]. split; [reflexivity|].
  split.
  { eexists. split; [apply truediv_nearest|].
    split; [apply fmul_nearest|apply round1_nearest]. }
  split; [vm_compute; reflexivity|].
  unfold r, DuplicateCodeDetector.analyze, DuplicateCodeDetector.detect.
  destruct (DuplicateCodeDetector.tree d); [|reflexivity].
  now destruct (DuplicateCodeDetector.detect_in _).
Qed.

(** C7.  The recorded entries are those of the index pairs [(i, j)] with
    [i < j] below the number of candidates whose similarity reaches 0.75,
    one entry per pair, in the order of the loops; no index pair occurs
    twice and none occurs together with its reverse; no candidate and no
    function named in an entry has a name starting with [test_]. *)
Theorem C7_pairs_once_and_not_tests (d : DuplicateCodeDetector.detector) :
  let fs := Ref.candidates d in
  let dups := DuplicateCodeDetector.duplicates (DuplicateCodeDetector.detect d) in
  dups = flat_map (Ref.duplicate_of fs) (Ref.recorded_pairs fs)
  /\ length dups = length (Ref.recorded_pairs fs)
  /\ NoDup (Ref.recorded_pairs fs)
  /\ (forall i j, In (i, j) (Ref.recorded_pairs fs) ->
        (i < j < length fs)%nat /\ ~ In (j, i) (Ref.recorded_pairs fs))
  /\ (forall f, In f fs ->
        Py.startswith (DuplicateCodeDetector.cand_name f) "test_" = false)
  /\ (forall dup, In dup dups ->
        Py.startswith (DuplicateCodeDetector.function1 dup) "test_" = false
        /\ Py.startswith (DuplicateCodeDetector.function2 dup) "test_" = false).
Proof.
  intros fs dups.
  assert (Hdups : dups = flat_map (Ref.duplicate_of fs) (Ref.recorded_pairs fs))
    by apply detect_duplicates.
  pose proof (candidates_not_test d) as Hnot. fold fs in Hnot.
  rewrite Forall_forall in Hnot.
  split; [exact Hdups|].
  split.
  { rewrite Hdups. apply duplicate_of_length.
    intros [i j] Hp. apply recorded_pairs_valid in Hp. simpl. lia. }
  split; [apply NoDup_filter, index_pairs_NoDup|].
  split.
  { intros i j Hp. pose proof (recorded_pairs_valid fs i j Hp) as Hij.
    split; [exact Hij|]. intro Hrev. apply recorded_pairs_valid in Hrev. lia. }
  split; [exact Hnot|].
  intros dup Hdup. rewrite Hdups in Hdup.
  apply in_flat_map in Hdup as [p [_ Hdup]].
  unfold Ref.duplicate_of in Hdup.
  destruct (nth_error fs (fst p)) as [fi|] eqn:Ei; [|destruct Hdup].
  destruct (nth_error fs (snd p)) as [fj|] eqn:Ej; [|destruct Hdup].
  destruct Hdup as [<-|[]]. simpl.
  split; apply Hnot; eapply nth_error_In; eassumption.
Qed.

End Detector.

Lemma C6_witness :
  let d := DuplicateCodeDetector.init Examples.pf_examples
             Examples.two_functions_text 3 in
  DuplicateCodeDetector.duplicate_pairs (DuplicateCodeDetector.detect d) = 1
  /\ (DuplicateCodeDetector.duplication_percent (DuplicateCodeDetector.detect d)
      == Py.round1 (Ref.raw_percent 2 2))%Q
  /\ DuplicateCodeDetector.severity (DuplicateCodeDetector.detect d) = "medium".
Proof.
  intro d.
  destruct (C6_percent_rounded_and_severity d)
    as (Hpairs & Hpercent & Hseverity & Hrule & _).
  split; [exact Hpairs|]. split; [exact Hpercent|].
  rewrite Hseverity.
  apply (Hrule 1 (Ref.raw_percent 2 2)); [discriminate| |left; lia].
  intros [_ Hlt]. vm_compute in Hlt. discriminate.
Defined.

(** The claim C6 as the specification words it fails on the module with
    [f], its copy [g] and [h]: two of three candidates are named in the
    one recorded pair, and the report says 66.7, not 200/3. *)
Lemma C6_counterexample :
  let d := DuplicateCodeDetector.init Examples.pf_examples
             Examples.three_functions_text 3 in
  let r := DuplicateCodeDetector.detect d in
  length (Ref.candidates d) = 3%nat
  /\ length (Ref.names_in (DuplicateCodeDetector.duplicates r)) = 2%nat
  /\ (DuplicateCodeDetector.duplication_percent r == 667 # 10)%Q
  /\ ~ (DuplicateCodeDetector.duplication_percent r
        == Ref.raw_percent
             (length (Ref.names_in (DuplicateCodeDetector.duplicates r)))
             (length (Ref.candidates d)))%Q.
Proof.
  vm_compute. repeat split; discriminate.
Qed.

Lemma C7_witness :
  let d := DuplicateCodeDetector.init Examples.pf_examples
             Examples.three_functions_text 3 in
  In (0%nat, 1%nat) (Ref.recorded_pairs (Ref.candidates d))
  /\ ~ In (1%nat, 0%nat) (Ref.recorded_pairs (Ref.candidates d))
  /\ length (DuplicateCodeDetector.duplicates (DuplicateCodeDetector.detect d)) = 1%nat.
Proof.
  intro d.
  destruct (C7_pairs_once_and_not_tests d) as (_ & Hlen & _ & Hpairs & _).
  assert (Hin : In (0%nat, 1%nat) (Ref.recorded_pairs (Ref.candidates d)))
    by (vm_compute; left; reflexivity).
  split; [exact Hin|]. split; [exact (proj2 (Hpairs _ _ Hin))|].
  rewrite Hlen. reflexivity.
Defined.

(** ** The work list of [get_matching_blocks] is emptied *)

Section MatchingBlocks.

Variables a b : list ascii.

Lemma scan_row_range (alo ahi blo bhi i : nat) (j2len : Difflib.dict)
    (js : list nat) :
  (alo <= i < ahi)%nat ->
  Ref.dict_bounded alo blo i j2len ->
  forall new best,
    Ref.dict_bounded alo blo (S i) new ->
    Ref.in_range alo ahi blo bhi best ->
    Ref.dict_bounded alo blo (S i) (fst (Difflib.scan_row i blo bhi j2len js new best))
    /\ Ref.in_range alo ahi blo bhi (snd (Difflib.scan_row i blo bhi j2len js new best)).
Proof.
  intros Hi Hd. induction js as [|j js IH]; intros new best Hnew Hbest; simpl.
  - split; assumption.
  - destruct (Nat.ltb_spec j blo) as [Hlo|Hlo]; [now apply IH|].
    destruct (Nat.leb_spec bhi j) as [Hhi|Hhi]; [split; assumption|].
    assert (Hk : (Difflib.dict_get_pred j2len j + 1 <= S i - alo)%nat
                 /\ (Difflib.dict_get_pred j2len j + 1 <= j + 1 - blo)%nat).
    { destruct j as [|j']; cbn [Difflib.dict_get_pred]; [lia|].
      destruct (Hd j') as [H1 H2]. lia. }
    destruct Hk as [Hk1 Hk2].
    assert (Hnew' : Ref.dict_bounded alo blo (S i)
                      (Difflib.dict_set new j (Difflib.dict_get_pred j2len j + 1))).
    { intro x. unfold Difflib.dict_set.
      destruct (Nat.eqb_spec x j) as [->|Hne]; [split; assumption|apply Hnew]. }
    destruct (_ <? _)%nat; apply IH; try assumption.
    unfold Ref.in_range. simpl. lia.
Qed.

Lemma scan_rows_range (alo ahi blo bhi : nat) (m : nat) :
  forall i j2len best,
    (alo <= i)%nat -> (i + m <= ahi)%nat ->
    Ref.dict_bounded alo blo i j2len ->
    Ref.in_range alo ahi blo bhi best ->
    Ref.in_range alo ahi blo bhi
      (Difflib.scan_rows a b blo bhi (seq i m) j2len best).
Proof.
  induction m as [|m IH]; intros i j2len best Hlo Hhi Hd Hbest; simpl;
    [exact Hbest|].
  destruct (nth_error a i) as [c|]; [|exact Hbest].
  destruct (scan_row_range alo ahi blo bhi i j2len (Difflib.b2j b c)
              ltac:(lia) Hd Difflib.empty_dict best) as [Hd' Hbest'];
    [intro x; unfold Difflib.empty_dict; lia|exact Hbest|].
  destruct (Difflib.scan_row _ _ _ _ _ _ _) as [newj2len best'].
  apply IH; try assumption; lia.
Qed.

Lemma extend_left_range (alo ahi blo bhi : nat) (besti : nat) :
  forall bestj bestsize,
    Ref.in_range alo ahi blo bhi (besti, bestj, bestsize) ->
    Ref.in_range alo ahi blo bhi
      (Difflib.extend_left a b alo blo besti bestj bestsize).
Proof.
  induction besti as [|i IH]; intros bestj bestsize H; simpl; [exact H|].
  destruct (Nat.ltb_spec alo (S i)) as [H1|H1]; [|exact H].
  destruct (Nat.ltb_spec blo bestj) as [H2|H2]; [|exact H].
  destruct (Difflib.same_at a b i (bestj - 1)); [|exact H]. simpl.
  apply IH. unfold Ref.in_range in *. simpl in *. lia.
Qed.

Lemma extend_right_range (alo ahi blo bhi besti bestj : nat) (fuel : nat) :
  forall bestsize,
    Ref.in_range alo ahi blo bhi (besti, bestj, bestsize) ->
    Ref.in_range alo ahi blo bhi
      (Difflib.extend_right a b ahi bhi besti bestj fuel bestsize).
Proof.
  induction fuel as [|fuel IH]; intros bestsize H; simpl; [exact H|].
  destruct (Nat.ltb_spec (besti + bestsize) ahi) as [H1|H1]; [|exact H].
  destruct (Nat.ltb_spec (bestj + bestsize) bhi) as [H2|H2]; [|exact H].
  destruct (Difflib.same_at a b _ _); [|exact H]. simpl.
  apply IH. unfold Ref.in_range in *. simpl in *. lia.
Qed.

(** The match [find_longest_match] returns lies in the ranges searched. *)
Lemma find_longest_match_range (alo ahi blo bhi : nat) :
  (alo <= ahi)%nat -> (blo <= bhi)%nat ->
  Ref.in_range alo ahi blo bhi (Difflib.find_longest_match a b alo ahi blo bhi).
Proof.
  intros Ha Hb. unfold Difflib.find_longest_match.
  pose proof (scan_rows_range alo ahi blo bhi (ahi - alo) alo Difflib.empty_dict
                (alo, blo, 0%nat)) as H.
  destruct (Difflib.scan_rows _ _ _ _ _ _ _) as [[bi bj] bs].
  pose proof (extend_left_range alo ahi blo bhi bi bj bs) as Hl.
  destruct (Difflib.extend_left _ _ _ _ _ _ _) as [[bi' bj'] bs'].
  apply extend_right_range, Hl, H; try lia.
  - intro x. unfold Difflib.empty_dict. lia.
  - unfold Ref.in_range. simpl. lia.
Qed.

(** With fuel for the work still to do, the loop ends on an empty list. *)
Lemma blocks_loop_empties (fuel : nat) :
  forall queue blocks,
    Forall Ref.well_formed queue ->
    (Ref.work queue <= fuel)%nat ->
    fst (Difflib.blocks_loop a b fuel queue blocks) = [].
Proof.
  induction fuel as [|fuel IH]; intros queue blocks Hwf Hwork.
  - destruct queue as [|[[[alo ahi] blo] bhi] queue]; [reflexivity|].
    simpl in Hwork. lia.
  - destruct queue as [|[[[alo ahi] blo] bhi] queue]; [reflexivity|].
    simpl. inversion Hwf as [|r q Hr0 Hq]; subst.
    unfold Ref.well_formed in Hr0. destruct Hr0 as [Ha Hb].
    pose proof (find_longest_match_range alo ahi blo bhi Ha Hb) as Hr.
    destruct (Difflib.find_longest_match a b alo ahi blo bhi) as [[i j] k].
    unfold Ref.in_range in Hr. simpl in Hr, Hwork.
    destruct (Nat.eqb_spec k 0) as [->|Hk]; [apply IH; [exact Hq|lia]|].
    apply IH.
    + destruct (Nat.ltb_spec alo i) as [H1|H1];
        destruct (Nat.ltb_spec blo j) as [H2|H2];
        destruct (Nat.ltb_spec (i + k) ahi) as [H3|H3];
        destruct (Nat.ltb_spec (j + k) bhi) as [H4|H4]; simpl;
        repeat (constructor; [unfold Ref.well_formed; lia|]); exact Hq.
    + destruct (Nat.ltb_spec alo i) as [H1|H1];
        destruct (Nat.ltb_spec blo j) as [H2|H2];
        destruct (Nat.ltb_spec (i + k) ahi) as [H3|H3];
        destruct (Nat.ltb_spec (j + k) bhi) as [H4|H4]; simpl; lia.
Qed.

(** The fuel [get_matching_blocks] gives the loop is enough. *)
Lemma get_matching_blocks_fuel :
  fst (Difflib.blocks_loop a b (2 * length a + 1)
         [(0%nat, length a, 0%nat, length b)] []) = [].
Proof.
  apply blocks_loop_empties.
  - constructor; [unfold Ref.well_formed; lia|constructor].
  - simpl. lia.
Qed.

End MatchingBlocks.

(** ** Similarity of a text with itself *)

Section SelfSimilarity.

Variable a : list ascii.

Lemma indices_from_filter (b : list ascii) (c : ascii) :
  forall j0,
    Difflib.indices_from b c j0
    = filter (fun j => match nth_error b (j - j0) with
                       | Some y => Ascii.eqb y c
                       | None => false
                       end) (seq j0 (length b)).
Proof.
  induction b as [|x r IH]; intro j0; simpl; [reflexivity|].
  rewrite Nat.sub_diag. simpl. rewrite IH.
  assert (Hext : filter (fun j => match nth_error r (j - S j0) with
                                  | Some y => Ascii.eqb y c
                                  | None => false
                                  end) (seq (S j0) (length r))
                 = filter (fun j => match nth_error (x :: r) (j - j0) with
                                    | Some y => Ascii.eqb y c
                                    | None => false
                                    end) (seq (S j0) (length r))).
  { apply filter_ext_in. intros j Hj. apply in_seq in Hj.
    replace (j - j0)%nat with (S (j - S j0)) by lia. reflexivity. }
  rewrite Hext. destruct (Ascii.eqb x c); reflexivity.
Qed.

Lemma indices_from_zero (b : list ascii) (c : ascii) :
  Difflib.indices_from b c 0 = filter (Ref.at_char b c) (seq 0 (length b)).
Proof.
  rewrite indices_from_filter. apply filter_ext. intro j.
  unfold Ref.at_char. now rewrite Nat.sub_0_r.
Qed.

Lemma seq_split_at (n i : nat) :
  (i < n)%nat -> seq 0 n = seq 0 i ++ i :: seq (S i) (n - S i).
Proof.
  intro H. replace n with (i + S (n - S i))%nat at 1 by lia.
  rewrite seq_app. reflexivity.
Qed.

Lemma run_length_bound (b : list ascii) (i : nat) :
  forall j, (Ref.run_length a b i j <= S i)%nat.
Proof.
  induction i as [|i IH]; intro j; simpl.
  - destruct (Ref.matchable a b 0 j); lia.
  - destruct (Ref.matchable a b (S i) j); [|lia].
    destruct j as [|j]; [lia|]. specialize (IH j). lia.
Qed.

Lemma matchable_self (i j : nat) :
  Ref.matchable a a i j = true ->
  Ref.matchable a a i i = true /\ Ref.matchable a a j j = true.
Proof.
  unfold Ref.matchable.
  destruct (nth_error a i) as [x|]; [|discriminate].
  destruct (nth_error a j) as [y|]; [|discriminate].
  intro H. apply andb_true_iff in H as [Heq Hpop].
  apply Ascii.eqb_eq in Heq. subst y.
  now rewrite Ascii.eqb_refl, Hpop.
Qed.

(** On equal sequences a run off the diagonal is no longer than the runs
    on the diagonal that end in its row and in its column. *)
Lemma run_length_diagonal (i : nat) :
  forall j,
    (Ref.run_length a a i j <= Ref.run_length a a i i)%nat
    /\ (Ref.run_length a a i j <= Ref.run_length a a j j)%nat.
Proof.
  induction i as [|i IH]; intro j.
  - simpl. destruct (Ref.matchable a a 0 j) eqn:Hm; [|split; lia].
    destruct (matchable_self 0 j Hm) as [H0 Hj]. rewrite H0.
    split; [lia|]. destruct j; simpl; [rewrite Hj|rewrite Hj]; lia.
  - destruct j as [|j].
    + simpl. destruct (Ref.matchable a a (S i) 0) eqn:Hm; [|split; lia].
      destruct (matchable_self (S i) 0 Hm) as [Hi H0]. rewrite Hi, H0.
      split; lia.
    + simpl. destruct (Ref.matchable a a (S i) (S j)) eqn:Hm; [|split; lia].
      destruct (matchable_self (S i) (S j) Hm) as [Hi Hj]. rewrite Hi, Hj.
      destruct (IH j). split; lia.
Qed.

Lemma run_length_unfold (b : list ascii) (i j : nat) :
  Ref.run_length a b i j
  = if Ref.matchable a b i j then S (Ref.run_pred a b i j) else 0%nat.
Proof. destruct i; reflexivity. Qed.

Lemma scan_row_app (i bhi : nat) (j2len : Difflib.dict) (js1 : list nat) :
  forall js2 new best,
    (forall j, In j js1 -> (j < bhi)%nat) ->
    Difflib.scan_row i 0 bhi j2len (js1 ++ js2) new best
    = Difflib.scan_row i 0 bhi j2len js2
        (fst (Difflib.scan_row i 0 bhi j2len js1 new best))
        (snd (Difflib.scan_row i 0 bhi j2len js1 new best)).
Proof.
  induction js1 as [|j js1 IH]; intros js2 new best Hlt; simpl; [reflexivity|].
  assert (Hj : (bhi <=? j)%nat = false)
    by (apply Nat.leb_gt, Hlt; now left).
  rewrite Hj.
  destruct (_ <? _)%nat; apply IH; intros x Hx; apply Hlt; now right.
Qed.

Lemma scan_row_dict (i bhi : nat) (j2len : Difflib.dict) (js : list nat) :
  forall new best x,
    (forall j, In j js -> (j < bhi)%nat) ->
    fst (Difflib.scan_row i 0 bhi j2len js new best) x
    = if existsb (Nat.eqb x) js
      then (Difflib.dict_get_pred j2len x + 1)%nat
      else new x.
Proof.
  induction js as [|j js IH]; intros new best x Hlt; simpl; [reflexivity|].
  assert (Hj : (bhi <=? j)%nat = false)
    by (apply Nat.leb_gt, Hlt; now left).
  rewrite Hj.
  assert (Hrest : forall y, In y js -> (y < bhi)%nat)
    by (intros y Hy; apply Hlt; now right).
  destruct (_ <? _)%nat; rewrite IH by exact Hrest; unfold Difflib.dict_set;
    destruct (Nat.eqb_spec x j) as [->|Hne]; simpl;
    destruct (existsb _ js); reflexivity.
Qed.

Lemma scan_row_keep (i bhi : nat) (j2len : Difflib.dict) (js : list nat) :
  forall new best,
    (forall j, In j js ->
       (j < bhi)%nat /\ (Difflib.dict_get_pred j2len j + 1 <= Difflib.size_of best)%nat) ->
    snd (Difflib.scan_row i 0 bhi j2len js new best) = best.
Proof.
  induction js as [|j js IH]; intros new best H; simpl; [reflexivity|].
  destruct (H j (or_introl eq_refl)) as [Hlt Hle].
  apply Nat.leb_gt in Hlt. rewrite Hlt.
  assert (Hk : (Difflib.size_of best <? Difflib.dict_get_pred j2len j + 1)%nat = false)
    by (apply Nat.ltb_ge; exact Hle).
  rewrite Hk. apply IH. intros y Hy. apply H. now right.
Qed.

Lemma at_char_lt (c : ascii) (j : nat) :
  Ref.at_char a c j = true -> (j < length a)%nat.
Proof.
  unfold Ref.at_char. destruct (nth_error a j) eqn:E; [|discriminate].
  intros _. apply nth_error_Some. congruence.
Qed.

Lemma existsb_positions (c : ascii) (x : nat) :
  existsb (Nat.eqb x) (filter (Ref.at_char a c) (seq 0 (length a)))
  = Ref.at_char a c x.
Proof.
  destruct (Ref.at_char a c x) eqn:Hx.
  - apply existsb_exists. exists x. split; [|apply Nat.eqb_refl].
    apply filter_In. split; [|exact Hx].
    apply in_seq. pose proof (at_char_lt c x Hx). lia.
  - destruct (existsb _ _) eqn:E; [|reflexivity].
    apply existsb_exists in E as [y [Hy Heq]].
    apply Nat.eqb_eq in Heq. subst y.
    apply filter_In in Hy. destruct Hy. congruence.
Qed.

Lemma matchable_row (i j : nat) (c : ascii) :
  nth_error a i = Some c ->
  Ref.matchable a a i j = Ref.at_char a c j && negb (Difflib.popular a c).
Proof.
  intro Hi. unfold Ref.matchable, Ref.at_char. rewrite Hi.
  destruct (nth_error a j) as [y|]; [|reflexivity].
  destruct (Ascii.eqb_spec y c) as [->|Hne]; reflexivity.
Qed.

(** One row of the search on equal sequences: the new dictionary holds
    the run lengths of the row and the best match stays on the diagonal. *)
Lemma row_step (i : nat) (c : ascii) (j2len : Difflib.dict) (best : Difflib.triple) :
  (i < length a)%nat ->
  nth_error a i = Some c ->
  (forall j, Difflib.dict_get_pred j2len j = Ref.run_pred a a i j) ->
  Ref.on_diagonal a i best ->
  (forall j,
      fst (Difflib.scan_row i 0 (length a) j2len (Difflib.b2j a c)
             Difflib.empty_dict best) j
      = Ref.run_length a a i j)
  /\ Ref.on_diagonal a (S i)
       (snd (Difflib.scan_row i 0 (length a) j2len (Difflib.b2j a c)
               Difflib.empty_dict best)).
Proof.
  intros Hi Hc Hdict (Hdiag & Hbound & Hruns).
  assert (Hrun : forall j,
             Ref.run_length a a i j
             = if Ref.at_char a c j && negb (Difflib.popular a c)
               then S (Ref.run_pred a a i j) else 0%nat).
  { intro j. now rewrite run_length_unfold, (matchable_row i j c Hc). }
  unfold Difflib.b2j.
  destruct (Difflib.popular a c) eqn:Hpop.
  - simpl. split.
    + intro j. rewrite Hrun, andb_false_r. reflexivity.
    + split; [exact Hdiag|]. split; [lia|].
      intros i' Hi'. destruct (Nat.eq_dec i' i) as [->|Hne].
      * rewrite Hrun, andb_false_r. lia.
      * apply Hruns. lia.
  - rewrite indices_from_zero.
    assert (Hlt : forall j, In j (filter (Ref.at_char a c) (seq 0 (length a))) ->
                            (j < length a)%nat).
    { intros j Hj. apply filter_In in Hj as [_ Hj]. exact (at_char_lt c j Hj). }
    split.
    + intro j. rewrite scan_row_dict by exact Hlt.
      rewrite existsb_positions, Hrun, Hdict, andb_true_r.
      destruct (Ref.at_char a c j); [lia|reflexivity].
    + assert (Hci : Ref.at_char a c i = true)
        by (unfold Ref.at_char; rewrite Hc; apply Ascii.eqb_refl).
      rewrite (seq_split_at (length a) i Hi), filter_app. simpl filter.
      rewrite Hci.
      set (L := filter (Ref.at_char a c) (seq 0 i)).
      set (R := filter (Ref.at_char a c) (seq (S i) (length a - S i))).
      assert (HL : forall j, In j L -> (j < i)%nat /\ Ref.at_char a c j = true).
      { intros j Hj. apply filter_In in Hj as [Hj Hcj]. apply in_seq in Hj.
        split; [lia|exact Hcj]. }
      assert (HR : forall j, In j R -> (i < j < length a)%nat /\ Ref.at_char a c j = true).
      { intros j Hj. apply filter_In in Hj as [Hj Hcj]. apply in_seq in Hj.
        split; [lia|exact Hcj]. }
      rewrite (scan_row_app i (length a) j2len L (i :: R))
        by (intros j Hj; destruct (HL j Hj) as [? Hcj]; exact (at_char_lt c j Hcj)).
      rewrite (scan_row_keep i (length a) j2len L Difflib.empty_dict best).
      2:{ intros j Hj. destruct (HL j Hj) as [Hji Hcj].
          split; [exact (at_char_lt c j Hcj)|].
          rewrite Hdict.
          pose proof (proj2 (run_length_diagonal i j)) as Hd.
          rewrite (Hrun j), Hcj in Hd. simpl in Hd.
          specialize (Hruns j Hji). unfold Difflib.size_of. lia. }
      change (i :: R) with ([i] ++ R).
      rewrite (scan_row_app i (length a) j2len [i] R) by (intros j [<-|[]]; exact Hi).
      set (one := Difflib.scan_row i 0 (length a) j2len [i] _ best).
      assert (Hone : Ref.on_diagonal a (S i) (snd one)
                     /\ (Ref.run_length a a i i <= Difflib.size_of (snd one))%nat).
      { unfold one. simpl.
        apply Nat.leb_gt in Hi. rewrite Hi. apply Nat.leb_gt in Hi.
        rewrite Hdict.
        assert (Hk : Ref.run_length a a i i = (Ref.run_pred a a i i + 1)%nat)
          by (rewrite (Hrun i), Hci; simpl; lia).
        pose proof (run_length_bound a i i) as Hbd.
        destruct best as [[bi bj] bs]. unfold Difflib.size_of in *. simpl in *.
        destruct (Nat.ltb_spec bs (Ref.run_pred a a i i + 1)) as [Hlt'|Hge];
          unfold Ref.on_diagonal; simpl; repeat split; try lia;
          intros i' Hi'; (destruct (Nat.eq_dec i' i) as [->|Hne]; [lia|]);
          specialize (Hruns i'); lia. }
      destruct Hone as [Hdiag1 Hsize1].
      rewrite scan_row_keep; [exact Hdiag1|].
      intros j Hj. destruct (HR j Hj) as [Hji Hcj].
      split; [lia|]. rewrite Hdict.
      pose proof (proj1 (run_length_diagonal i j)) as Hd.
      rewrite (Hrun j), Hcj in Hd. simpl in Hd. lia.
Qed.

Lemma scan_rows_diagonal (m : nat) :
  forall i j2len best,
    (i + m <= length a)%nat ->
    (forall j, Difflib.dict_get_pred j2len j = Ref.run_pred a a i j) ->
    Ref.on_diagonal a i best ->
    Ref.on_diagonal a (i + m)
      (Difflib.scan_rows a a 0 (length a) (seq i m) j2len best).
Proof.
  induction m as [|m IH]; intros i j2len best Hlen Hdict Hbest; simpl.
  - now rewrite Nat.add_0_r.
  - destruct (nth_error a i) as [c|] eqn:Hc;
      [|apply nth_error_None in Hc; lia].
    destruct (row_step i c j2len best) as [Hnew Hbest']; try assumption; [lia|].
    destruct (Difflib.scan_row _ _ _ _ _ _ _) as [newj2len best'].
    simpl in Hnew, Hbest'.
    replace (i + S m)%nat with (S i + m)%nat by lia.
    apply IH; [lia| |exact Hbest'].
    intros [|j]; simpl; [reflexivity|apply Hnew].
Qed.

Lemma same_at_self (i : nat) :
  (i < length a)%nat -> Difflib.same_at a a i i = true.
Proof.
  intro Hi. unfold Difflib.same_at.
  destruct (nth_error a i) eqn:E; [apply Ascii.eqb_refl|].
  apply nth_error_None in E. lia.
Qed.

Lemma extend_left_self (besti : nat) :
  forall bestsize,
    (besti + bestsize <= length a)%nat ->
    Difflib.extend_left a a 0 0 besti besti bestsize
    = (0%nat, 0%nat, (besti + bestsize)%nat).
Proof.
  induction besti as [|i IH]; intros bestsize Hle; simpl; [reflexivity|].
  rewrite Nat.sub_0_r, same_at_self by lia. simpl.
  rewrite IH by lia. f_equal. lia.
Qed.

Lemma extend_right_self (fuel : nat) :
  forall bestsize,
    (bestsize + fuel = length a)%nat ->
    Difflib.extend_right a a (length a) (length a) 0 0 fuel bestsize
    = (0%nat, 0%nat, length a).
Proof.
  induction fuel as [|fuel IH]; intros bestsize Hlen; simpl.
  - f_equal. lia.
  - assert (Hlt : (bestsize <? length a)%nat = true) by (apply Nat.ltb_lt; lia).
    rewrite Hlt, same_at_self by lia. simpl. apply IH. lia.
Qed.

(** The longest match of a sequence with itself is the whole sequence. *)
Lemma find_longest_match_self :
  Difflib.find_longest_match a a 0 (length a) 0 (length a)
  = (0%nat, 0%nat, length a).
Proof.
  unfold Difflib.find_longest_match. rewrite Nat.sub_0_r.
  pose proof (scan_rows_diagonal (length a) 0 Difflib.empty_dict (0, 0, 0)%nat) as H.
  destruct (Difflib.scan_rows _ _ _ _ _ _ _) as [[bi bj] bs].
  destruct H as (Hdiag & Hbound & _).
  - lia.
  - intros [|j]; reflexivity.
  - repeat split; simpl; lia.
  - simpl in Hdiag, Hbound. subst bj.
    rewrite extend_left_self by lia.
    apply extend_right_self. simpl. lia.
Qed.

Lemma matches_self : Difflib.matches a a = length a.
Proof.
  unfold Difflib.matches, Difflib.get_matching_blocks.
  replace (2 * length a + 1)%nat with (S (2 * length a)) by lia.
  simpl Difflib.blocks_loop. rewrite find_longest_match_self.
  destruct (length a) as [|n] eqn:Hn; simpl.
  - reflexivity.
  - rewrite Nat.ltb_irrefl. simpl.
    destruct (2 * S n)%nat; simpl; unfold Difflib.size_of; simpl; lia.
Qed.

End SelfSimilarity.

(** C5, as the code has it.  The similarity of a text with itself is
    1.0; this holds for every text, hence for the normalized text of every
    candidate function. *)
Theorem C5_similarity_reflexive (code : string) :
  (DuplicateCodeDetector._calculate_similarity code code == 1)%Q.
Proof.
  unfold DuplicateCodeDetector._calculate_similarity, Difflib.ratio.
  rewrite matches_self. unfold Difflib.calculate_ratio.
  set (n := length (Difflib.seq_of code)).
  destruct (n + n)%nat as [|k] eqn:Hk; [reflexivity|].
  unfold Qeq. cbn [Qnum Qden].
  rewrite <- (positive_nat_Z (Pos.of_nat (S k))), Nat2Pos.id by discriminate. lia.
Qed.

(** The claim C5 as the specification words it fails on the two
    candidates of the module with [f] and [g]: comparing [f] with [g]
    gives 23/30 and comparing [g] with [f] gives 22/30. *)
Lemma C5_counterexample :
  exists f g,
    Ref.candidates (DuplicateCodeDetector.init Examples.pf_examples
                      Examples.two_functions_text 3) = [f; g]
    /\ (DuplicateCodeDetector._calculate_similarity
          (DuplicateCodeDetector.normalized f) (DuplicateCodeDetector.normalized g)
        == 23 # 30)%Q
    /\ (DuplicateCodeDetector._calculate_similarity
          (DuplicateCodeDetector.normalized g) (DuplicateCodeDetector.normalized f)
        == 22 # 30)%Q
    /\ ~ (DuplicateCodeDetector._calculate_similarity
            (DuplicateCodeDetector.normalized f) (DuplicateCodeDetector.normalized g)
          == DuplicateCodeDetector._calculate_similarity
               (DuplicateCodeDetector.normalized g) (DuplicateCodeDetector.normalized f))%Q.
Proof.
  eexists. eexists. split; [vm_compute; reflexivity|].
  vm_compute. repeat split; discriminate.
Qed.

(** * Further properties of the code *)

(** ** Line counts *)

Section LineCounts.

Lemma split_nl_nonempty (s : string) : Py.split_nl s <> [].
Proof.
  destruct s as [|c r]; simpl; [discriminate|].
  destruct (Ascii.eqb c Py.newline); [discriminate|].
  destruct (Py.split_nl r); discriminate.
Qed.

Lemma split_nl_length (s : string) :
  length (Py.split_nl s) = S (Terms.count_newlines s).
Proof.
  induction s as [|c r IH]; simpl; [reflexivity|].
  destruct (Ascii.eqb c Py.newline); simpl; [now rewrite IH|].
  destruct (Py.split_nl r) eqn:E; [now destruct (split_nl_nonempty r)|].
  exact IH.
Qed.

Lemma split_nl_app (x y : string) :
  Py.split_nl (x ++ String Py.newline y)%string = Py.split_nl x ++ Py.split_nl y.
Proof.
  induction x as [|c r IH]; simpl.
  - reflexivity.
  - destruct (Ascii.eqb c Py.newline); [now rewrite IH|].
    rewrite IH. destruct (Py.split_nl r) eqn:E; [now destruct (split_nl_nonempty r)|].
    reflexivity.
Qed.

Lemma count_fold (lines : list string) :
  forall acc,
    fold_left (fun code_lines line =>
                 let stripped := Py.strip line in
                 if Py.truthy stripped && negb (Py.startswith stripped "#")
                 then code_lines + 1 else code_lines) lines acc
    = acc + Z.of_nat (length (filter Terms.is_code_line lines)).
Proof.
  induction lines as [|l lines IH]; intro acc; simpl; [lia|].
  rewrite IH. unfold Terms.is_code_line.
  destruct (Py.truthy (Py.strip l) && negb (Py.startswith (Py.strip l) "#"));
    simpl length; lia.
Qed.

Lemma count_code_lines_filter (a : CodeMetrics.analyzer) :
  CodeMetrics._count_code_lines a
  = Z.of_nat (length (filter Terms.is_code_line (Py.split_nl (CodeMetrics.code a)))).
Proof.
  unfold CodeMetrics._count_code_lines. now rewrite count_fold.
Qed.

(** X1.  In the report of a text that parses, [total_lines] is the
    number of newline characters plus one, [code_lines] is the number of
    lines that are not blank and do not start with [#] once stripped, and
    [code_lines] lies between 0 and [total_lines]. *)
Theorem X1_line_counts (pf : platform) (code filename : string) (t : Ast.node) :
  ast_parse pf code = Py.Returned t ->
  exists r,
    CodeMetrics.analyze pf (CodeMetrics.init pf code filename) = Py.Returned r
    /\ CodeMetrics.total_lines (CodeMetrics.metrics r)
       = Z.of_nat (Terms.count_newlines code) + 1
    /\ CodeMetrics.code_lines (CodeMetrics.metrics r)
       = Z.of_nat (length (filter Terms.is_code_line (Py.split_nl code)))
    /\ 0 <= CodeMetrics.code_lines (CodeMetrics.metrics r)
       <= CodeMetrics.total_lines (CodeMetrics.metrics r).
Proof.
  intro Hparse.
  unfold CodeMetrics.analyze, CodeMetrics._check_coverage, CoverageAnalyzer.init.
  simpl. rewrite (parse_or_none_returned pf code t Hparse), Hparse. simpl.
  destruct (CoverageAnalyzer._extract_definitions t) as [fs cs]. simpl.
  eexists. split; [reflexivity|]. simpl.
  rewrite count_code_lines_filter, split_nl_length. simpl CodeMetrics.code.
  pose proof (filter_length_le Terms.is_code_line (Py.split_nl code)) as Hle.
  rewrite split_nl_length in Hle.
  repeat split; lia.
Qed.

(** X2.  Joining two texts with a newline adds up their counts: the lines
    of the joined text are the lines of the first followed by the lines
    of the second, so both [len(code.split('\n'))] and [_count_code_lines]
    are the sums. *)
Theorem X2_line_counts_add (x y z : CodeMetrics.analyzer) :
  CodeMetrics.code z
  = (CodeMetrics.code x ++ String Py.newline (CodeMetrics.code y))%string ->
  Py.split_nl (CodeMetrics.code z)
  = Py.split_nl (CodeMetrics.code x) ++ Py.split_nl (CodeMetrics.code y)
  /\ CodeMetrics._count_code_lines z
     = CodeMetrics._count_code_lines x + CodeMetrics._count_code_lines y.
Proof.
  intro Hz. rewrite !count_code_lines_filter, Hz, split_nl_app.
  split; [reflexivity|]. rewrite filter_app, length_app. lia.
Qed.

End LineCounts.

Lemma X1_witness :
  ast_parse Examples.pf_examples Examples.three_functions_text
  = Py.Returned Examples.three_functions
  /\ ltac:(let T := type of (X1_line_counts Examples.pf_examples
                               Examples.three_functions_text "code.py"
                               Examples.three_functions eq_refl)
           in exact T).
Proof.
  split; [reflexivity|].
  apply (X1_line_counts Examples.pf_examples Examples.three_functions_text
           "code.py" Examples.three_functions).
  reflexivity.
Defined.

Lemma X2_witness :
  let x := CodeMetrics.init Examples.pf_examples Examples.text_f "a.py" in
  let y := CodeMetrics.init Examples.pf_examples Examples.text_h "b.py" in
  let z := CodeMetrics.init Examples.pf_examples
             (Examples.text_f ++ String Py.newline Examples.text_h)%string "c.py" in
  CodeMetrics._count_code_lines z = 8.
Proof.
  intros x y z.
  rewrite (proj2 (X2_line_counts_add x y z eq_refl)). reflexivity.
Defined.

(** ** Order of the walk *)

Section WalkOrder.

Lemma total_next (l : list Ast.node) :
  (length (flat_map Ast.subnodes (flat_map Ast.iter_child_nodes l)) + length l
   = length (flat_map Ast.subnodes l))%nat.
Proof.
  induction l as [|[k cs] r IH]; simpl; [reflexivity|].
  rewrite flat_map_app, !length_app. lia.
Qed.

Lemma walk_queue_front (q : list Ast.node) :
  forall c fuel,
    (length q <= fuel)%nat ->
    Ast.walk_queue fuel (q ++ c)
    = q ++ Ast.walk_queue (fuel - length q)
             (c ++ flat_map Ast.iter_child_nodes q).
Proof.
  induction q as [|x q IH]; intros c fuel Hfuel; simpl.
  - now rewrite Nat.sub_0_r, app_nil_r.
  - destruct fuel as [|fuel]; [simpl in Hfuel; lia|].
    simpl. f_equal. rewrite <- app_assoc.
    rewrite IH by (simpl in Hfuel; lia). now rewrite <- app_assoc.
Qed.

Lemma level_nil (d : nat) : Terms.level d [] = [].
Proof. induction d; simpl; auto. Qed.

Lemma level_beyond (d : nat) :
  forall l, (length (flat_map Ast.subnodes l) <= d)%nat -> Terms.level d l = [].
Proof.
  induction d as [|d IH]; intros l Hl; simpl.
  - apply flat_subnodes_nil. lia.
  - destruct l as [|x r]; [apply level_nil|].
    apply IH. pose proof (total_next (x :: r)) as Ht. simpl length in *. lia.
Qed.

Lemma flat_map_all_nil {A B : Type} (g : A -> list B) (l : list A) :
  (forall d, In d l -> g d = []) -> flat_map g l = [].
Proof.
  induction l as [|x l IH]; intro H; simpl; [reflexivity|].
  rewrite (H x (or_introl eq_refl)). apply IH. intros d Hd. apply H. now right.
Qed.

Lemma flat_map_seq_beyond {A : Type} (g : nat -> list A) (n m : nat) :
  (forall d, (n <= d)%nat -> g d = []) ->
  flat_map g (seq 0 (n + m)) = flat_map g (seq 0 n).
Proof.
  intro Hg. rewrite seq_app, flat_map_app. simpl.
  rewrite (flat_map_all_nil g (seq n m)); [apply app_nil_r|].
  intros d Hd. apply in_seq in Hd. apply Hg. lia.
Qed.

Lemma flat_map_shift {A : Type} (g : nat -> list A) (l : list nat) :
  flat_map g (map S l) = flat_map (fun d => g (S d)) l.
Proof.
  induction l as [|x l IH]; simpl; [reflexivity|]. now rewrite IH.
Qed.

(** With fuel for every node, the walk yields the nodes level by level. *)
Lemma walk_queue_levels (fuel : nat) :
  forall q,
    (length (flat_map Ast.subnodes q) <= fuel)%nat ->
    Ast.walk_queue fuel q = flat_map (fun d => Terms.level d q) (seq 0 fuel).
Proof.
  induction fuel as [fuel IH] using lt_wf_ind. intros q Hq.
  destruct q as [|x r].
  - rewrite (flat_map_all_nil (fun d => Terms.level d [])) by (intros; apply level_nil).
    destruct fuel; reflexivity.
  - pose proof (total_next (x :: r)) as Ht.
    assert (Hlen : (1 <= length (x :: r) <= fuel)%nat) by (simpl length in *; lia).
    rewrite <- (app_nil_r (x :: r)) at 1.
    rewrite walk_queue_front by lia. rewrite app_nil_l.
    rewrite IH by lia.
    destruct fuel as [|f]; [lia|].
    cbn [seq flat_map Terms.level]. f_equal.
    rewrite <- seq_shift, flat_map_shift. cbn [Terms.level].
    replace f with ((S f - length (x :: r)) + (length (x :: r) - 1))%nat at 2 by lia.
    rewrite flat_map_seq_beyond; [reflexivity|].
    intros d Hd. apply level_beyond. lia.
Qed.

(** X3.  The walk is breadth-first: it yields the nodes of the tree level
    by level, each level from left to right, so the root and its children
    (the top-level statements of a module) come before every deeper node;
    the names [_function_info] lists are in that order. *)
Theorem X3_walk_is_level_order (t : Ast.node) :
  Ast.walk t = Terms.level_order (Ast.size t) t
  /\ (exists deeper,
        Ast.walk t = t :: Ast.iter_child_nodes t ++ deeper
        /\ CodeMetrics.names (CodeMetrics._function_info t)
           = map Ast.name
               (filter Ast.is_FunctionDef (t :: Ast.iter_child_nodes t))
             ++ map Ast.name (filter Ast.is_FunctionDef deeper)).
Proof.
  assert (Hwalk : Ast.walk t = Terms.level_order (Ast.size t) t).
  { unfold Ast.walk, Terms.level_order. apply walk_queue_levels.
    unfold Ast.size. simpl. rewrite app_nil_r. lia. }
  split; [exact Hwalk|].
  assert (Hsize : (1 + length (Ast.iter_child_nodes t) <= Ast.size t)%nat).
  { unfold Ast.size. destruct t as [k cs]. simpl.
    pose proof (total_next cs). lia. }
  pose proof (walk_queue_front [t] [] (Ast.size t) ltac:(simpl; lia)) as H1.
  pose proof (walk_queue_front (Ast.iter_child_nodes t) [] (Ast.size t - 1)
                ltac:(lia)) as H2.
  simpl in H1. rewrite app_nil_r in H1, H2. simpl in H2.
  assert (H3 : Ast.walk t
               = t :: Ast.iter_child_nodes t
                      ++ Ast.walk_queue (Ast.size t - 1 - length (Ast.iter_child_nodes t))
                           (flat_map Ast.iter_child_nodes (Ast.iter_child_nodes t))).
  { unfold Ast.walk. rewrite H1. f_equal. exact H2. }
  eexists. split; [exact H3|].
  unfold CodeMetrics._function_info. simpl CodeMetrics.names. rewrite H3.
  change (t :: Ast.iter_child_nodes t ++ ?x) with ((t :: Ast.iter_child_nodes t) ++ x).
  now rewrite filter_app, map_app.
Qed.

End WalkOrder.

(** ** Complexity of nested code *)

Section ComplexityStructure.

Lemma node_induction (P : Ast.node -> Prop) :
  (forall k cs, Forall P cs -> P (Ast.Node k cs)) -> forall n, P n.
Proof.
  intro H. fix IH 1. intros [k cs]. apply H.
  induction cs as [|c cs IHcs]; constructor; [apply IH|exact IHcs].
Qed.

Lemma weight_app (l1 l2 : list Ast.node) :
  Terms.weight (l1 ++ l2) = Terms.weight l1 + Terms.weight l2.
Proof.
  induction l1 as [|n l1 IH]; simpl; [reflexivity|]. rewrite IH. lia.
Qed.

Lemma weight_counts (l : list Ast.node) :
  Z.of_nat (length (filter Ref.is_branch l)) + Ref.sum_extra_operands l
  = Terms.weight l.
Proof.
  induction l as [|n l IH]; simpl; [reflexivity|].
  rewrite <- IH.
  unfold Terms.node_weight, Terms.own_weight, Ref.is_branch, Ref.extra_operands.
  destruct (Ast.node_kind n); simpl length; lia.
Qed.

Lemma complexity_weight (f : Ast.node) :
  CodeMetrics._calculate_complexity f = 1 + Terms.weight (Ast.subnodes f).
Proof. rewrite complexity_formula, <- weight_counts. lia. Qed.

Lemma weight_children (cs : list Ast.node) :
  Terms.weight (flat_map Ast.subnodes cs)
  = Terms.sum_z (map (fun c => CodeMetrics._calculate_complexity c - 1) cs).
Proof.
  induction cs as [|c cs IH]; simpl; [reflexivity|].
  rewrite weight_app, IH, complexity_weight. lia.
Qed.

Lemma weight_nonneg (l : list Ast.node) :
  Terms.boolops_have_operands l -> 0 <= Terms.weight l.
Proof.
  induction l as [|n l IH]; intro H; simpl; [lia|].
  assert (0 <= Terms.weight l) by (apply IH; intros m v Hm; apply H; now right).
  assert (0 <= Terms.node_weight n).
  { unfold Terms.node_weight, Terms.own_weight.
    destruct (Ast.node_kind n) eqn:Hk; try lia.
    pose proof (H n nvalues (or_introl eq_refl) Hk). lia. }
  lia.
Qed.

Lemma boolops_app (l1 l2 : list Ast.node) :
  Terms.boolops_have_operands (l1 ++ l2) ->
  Terms.boolops_have_operands l1 /\ Terms.boolops_have_operands l2.
Proof.
  intro H. split; intros n v Hn; apply H; apply in_or_app; auto.
Qed.

Lemma subnodes_weight_le (f : Ast.node) :
  forall g,
    Terms.boolops_have_operands (Ast.subnodes f) ->
    In g (Ast.subnodes f) ->
    Terms.weight (Ast.subnodes g) <= Terms.weight (Ast.subnodes f).
Proof.
  induction f as [k cs IH] using node_induction. intros g Hb Hg.
  simpl in Hg. destruct Hg as [<-|Hg]; [lia|].
  apply in_flat_map in Hg as [c [Hc Hg]].
  rewrite Forall_forall in IH.
  change (Ast.subnodes (Ast.Node k cs))
    with ([Ast.Node k cs] ++ flat_map Ast.subnodes cs) in *.
  destruct (boolops_app _ _ Hb) as [Hroot Hrest].
  pose proof (weight_nonneg _ Hroot) as Hw0.
  rewrite weight_app.
  destruct (in_split c cs Hc) as [l1 [l2 ->]].
  rewrite flat_map_app in *. simpl flat_map in *.
  destruct (boolops_app _ _ Hrest) as [Hb1 Hb2].
  destruct (boolops_app _ _ Hb2) as [Hbc Hb3].
  pose proof (weight_nonneg _ Hb1). pose proof (weight_nonneg _ Hb3).
  specialize (IH c Hc g Hbc Hg).
  rewrite !weight_app. lia.
Qed.

Lemma subnodes_trans (f : Ast.node) :
  forall g n, In g (Ast.subnodes f) -> In n (Ast.subnodes g) -> In n (Ast.subnodes f).
Proof.
  induction f as [k cs IH] using node_induction. intros g n Hg Hn.
  simpl in Hg. destruct Hg as [<-|Hg]; [exact Hn|].
  apply in_flat_map in Hg as [c [Hc Hg]].
  rewrite Forall_forall in IH.
  simpl. right. apply in_flat_map. exists c. split; [exact Hc|].
  exact (IH c Hc g n Hg Hn).
Qed.

Lemma complexity_between (f g : Ast.node) :
  Terms.boolops_have_operands (Ast.subnodes f) ->
  In g (Ast.subnodes f) ->
  1 <= CodeMetrics._calculate_complexity g <= CodeMetrics._calculate_complexity f.
Proof.
  intros Hb Hg. rewrite !complexity_weight.
  pose proof (subnodes_weight_le f g Hb Hg).
  assert (Hbg : Terms.boolops_have_operands (Ast.subnodes g)).
  { intros n v Hn. apply Hb. exact (subnodes_trans f g n Hg Hn). }
  pose proof (weight_nonneg _ Hbg). lia.
Qed.

(** X4.  The complexity of a node is 1, plus what the node itself adds,
    plus the complexity above 1 of each of its children: the branches of
    a nested function count for the nested function and again for every
    function around it.  When every boolean operation has at least one
    operand, every node of a function has a complexity between 1 and the
    complexity of the function. *)
Theorem X4_complexity_composes :
  (forall k cs,
      CodeMetrics._calculate_complexity (Ast.Node k cs)
      = 1 + Terms.own_weight k
        + Terms.sum_z (map (fun c => CodeMetrics._calculate_complexity c - 1) cs))
  /\ (forall f g,
         Terms.boolops_have_operands (Ast.subnodes f) ->
         In g (Ast.subnodes f) ->
         1 <= CodeMetrics._calculate_complexity g
           <= CodeMetrics._calculate_complexity f).
Proof.
  split.
  - intros k cs. rewrite complexity_weight. simpl Ast.subnodes.
    change (Terms.weight (Ast.Node k cs :: flat_map Ast.subnodes cs))
      with (Terms.own_weight k + Terms.weight (flat_map Ast.subnodes cs)).
    rewrite weight_children. lia.
  - exact complexity_between.
Qed.

End ComplexityStructure.

Lemma X4_witness :
  1 <= CodeMetrics._calculate_complexity Examples.if_return
    <= CodeMetrics._calculate_complexity Examples.three_ifs.
Proof.
  apply (proj2 X4_complexity_composes Examples.three_ifs Examples.if_return).
  - intros n v Hn Hk. vm_compute in Hn.
    repeat (destruct Hn as [<-|Hn]; [discriminate Hk|]). destruct Hn.
  - vm_compute. do 3 right. left. reflexivity.
Defined.

(** ** The complexity report *)

Section ComplexityReport.

Lemma round1_le (hi : Z) (q : Q) :
  (q <= inject_Z hi)%Q -> (Py.round1 q <= inject_Z hi)%Q.
Proof.
  intro H. unfold Py.round1.
  assert (H2 : Py.round_half_even (q * 10) <= hi * 10).
  { apply round_half_even_le. rewrite inject_Z_mult.
    change (inject_Z 10) with (10 # 1). lra. }
  unfold Qle, inject_Z. simpl. lia.
Qed.

Lemma round1_ge (lo : Z) (q : Q) :
  (inject_Z lo <= q)%Q -> (inject_Z lo <= Py.round1 q)%Q.
Proof.
  intro H. unfold Py.round1.
  assert (H1 : lo * 10 <= Py.round_half_even (q * 10)).
  { apply round_half_even_ge. rewrite inject_Z_mult.
    change (inject_Z 10) with (10 # 1). lra. }
  unfold Qle, inject_Z. simpl. lia.
Qed.

Lemma function_fold (fs : list Ast.node) :
  forall cs es,
    fold_left CodeMetrics.function_step fs (cs, es)
    = (cs ++ map CodeMetrics._calculate_complexity fs,
       es ++ map Terms.complex_entry
               (filter (fun f => 10 <? CodeMetrics._calculate_complexity f) fs)).
Proof.
  induction fs as [|f fs IH]; intros cs es; simpl.
  - now rewrite !app_nil_r.
  - unfold CodeMetrics.function_step at 2. simpl.
    destruct (10 <? CodeMetrics._calculate_complexity f); rewrite IH; simpl;
      now rewrite <- !app_assoc.
Qed.

Lemma sum_fold (xs : list Z) :
  forall acc, fold_left Z.add xs acc = acc + Terms.sum_z xs.
Proof.
  induction xs as [|x xs IH]; intro acc; simpl; [lia|]. rewrite IH. lia.
Qed.

Lemma max_fold (xs : list Z) :
  forall x,
    x <= fold_left Z.max xs x
    /\ (forall y, In y xs -> y <= fold_left Z.max xs x)
    /\ In (fold_left Z.max xs x) (x :: xs).
Proof.
  induction xs as [|y xs IH]; intro x; simpl.
  - split; [lia|]. split; [tauto|]. now left.
  - destruct (IH (Z.max x y)) as (H1 & H2 & H3).
    split; [lia|]. split.
    + intros z [<-|Hz]; [lia|]. now apply H2.
    + destruct H3 as [H3|H3]; [|now right; right].
      rewrite <- H3. destruct (Z.max_spec x y) as [[_ ->]|[_ ->]]; auto.
Qed.

Lemma sum_le (xs : list Z) (hi : Z) :
  (forall x, In x xs -> x <= hi) -> Terms.sum_z xs <= hi * Z.of_nat (length xs).
Proof.
  induction xs as [|x xs IH]; intro H; [simpl; lia|].
  assert (x <= hi) by (apply H; now left).
  assert (Terms.sum_z xs <= hi * Z.of_nat (length xs))
    by (apply IH; intros y Hy; apply H; now right).
  change (Terms.sum_z (x :: xs)) with (x + Terms.sum_z xs).
  simpl length. lia.
Qed.

Lemma sum_ge (xs : list Z) (lo : Z) :
  (forall x, In x xs -> lo <= x) -> lo * Z.of_nat (length xs) <= Terms.sum_z xs.
Proof.
  induction xs as [|x xs IH]; intro H; [simpl; lia|].
  assert (lo <= x) by (apply H; now left).
  assert (lo * Z.of_nat (length xs) <= Terms.sum_z xs)
    by (apply IH; intros y Hy; apply H; now right).
  change (Terms.sum_z (x :: xs)) with (x + Terms.sum_z xs).
  simpl length. lia.
Qed.

Lemma mean_le (s n hi : Z) :
  0 < n -> s <= hi * n -> (inject_Z s / inject_Z n <= inject_Z hi)%Q.
Proof.
  intros Hn Hhi.
  assert (Hq : (0 < inject_Z n)%Q) by (rewrite <- (Zlt_Qlt 0); exact Hn).
  apply Qle_shift_div_r; [exact Hq|].
  rewrite <- inject_Z_mult, <- Zle_Qle. exact Hhi.
Qed.

Lemma mean_ge (s n lo : Z) :
  0 < n -> lo * n <= s -> (inject_Z lo <= inject_Z s / inject_Z n)%Q.
Proof.
  intros Hn Hlo.
  assert (Hq : (0 < inject_Z n)%Q) by (rewrite <- (Zlt_Qlt 0); exact Hn).
  apply Qle_shift_div_l; [exact Hq|].
  rewrite <- inject_Z_mult, <- Zle_Qle. exact Hlo.
Qed.

(** X5.  In the complexity report, [maximum] is at least the complexity
    of every non-test function and is the complexity of one of them when
    there is any; [complex_functions] lists, in the order of the walk,
    the non-test functions whose complexity exceeds 10, with name,
    complexity and line, and is empty exactly when [maximum] is at most
    10; [average] does not exceed [maximum], and is at least 1 when every
    boolean operation has at least one operand. *)
Theorem X5_complexity_report (t : Ast.node) :
  let fs := CodeMetrics.non_test_functions t in
  let r := CodeMetrics._function_complexity t in
  (forall f, In f fs -> CodeMetrics._calculate_complexity f <= CodeMetrics.maximum r)
  /\ (fs <> [] ->
      exists f, In f fs /\ CodeMetrics._calculate_complexity f = CodeMetrics.maximum r)
  /\ CodeMetrics.complex_functions r
     = map Terms.complex_entry
         (filter (fun f => 10 <? CodeMetrics._calculate_complexity f) fs)
  /\ (CodeMetrics.complex_functions r = [] <-> CodeMetrics.maximum r <= 10)
  /\ (CodeMetrics.average r <= inject_Z (CodeMetrics.maximum r))%Q
  /\ (Terms.boolops_have_operands (Ast.subnodes t) ->
      (1 <= CodeMetrics.average r)%Q).
Proof.
  cbv zeta. unfold CodeMetrics._function_complexity.
  remember (CodeMetrics.non_test_functions t) as fs eqn:Hdef.
  destruct fs as [|f0 rest].
  { simpl. split; [tauto|]. split; [congruence|]. split; [reflexivity|].
    split; [split; [lia|reflexivity]|]. split; [|intros _]; apply Qle_refl. }
  rewrite function_fold, !app_nil_l.
  set (fs := f0 :: rest) in *.
  set (cs := map CodeMetrics._calculate_complexity fs).
  set (flagged := filter _ fs).
  assert (Hmaxdef : match cs with [] => 1 | _ :: _ => Py.max_list cs end
                    = fold_left Z.max (map CodeMetrics._calculate_complexity rest)
                        (CodeMetrics._calculate_complexity f0))
    by reflexivity.
  cbn [CodeMetrics.maximum CodeMetrics.average CodeMetrics.complex_functions].
  rewrite Hmaxdef.
  destruct (max_fold (map CodeMetrics._calculate_complexity rest)
              (CodeMetrics._calculate_complexity f0)) as (Hm1 & Hm2 & Hm3).
  set (mx := fold_left Z.max _ _) in *.
  assert (Hall : forall f, In f fs -> CodeMetrics._calculate_complexity f <= mx).
  { intros f [<-|Hf]; [exact Hm1|]. apply Hm2. now apply in_map. }
  assert (Hex : exists f, In f fs /\ CodeMetrics._calculate_complexity f = mx).
  { change (In mx cs) in Hm3. unfold cs in Hm3.
    apply in_map_iff in Hm3 as [f [Hf Hin]]. exists f. auto. }
  split; [exact Hall|]. split; [intros _; exact Hex|]. split; [reflexivity|].
  split.
  { split.
    - intro Hnil. destruct Hex as [f [Hf <-]].
      destruct (Z.ltb_spec 10 (CodeMetrics._calculate_complexity f)) as [Hgt|]; [|lia].
      assert (Hin : In f flagged).
      { unfold flagged. apply filter_In. split; [exact Hf|]. now apply Z.ltb_lt. }
      apply (in_map Terms.complex_entry) in Hin. rewrite Hnil in Hin. destruct Hin.
    - intro Hle.
      assert (Hflag : flagged = []).
      { unfold flagged. destruct (filter _ fs) as [|x l] eqn:E; [reflexivity|].
        assert (Hx : In x (filter (fun f => 10 <? CodeMetrics._calculate_complexity f) fs))
          by (rewrite E; now left).
        apply filter_In in Hx as [Hx Hgt]. apply Z.ltb_lt in Hgt.
        specialize (Hall x Hx). lia. }
      now rewrite Hflag. }
  assert (Hlen : 0 < Z.of_nat (length cs)) by (simpl length; lia).
  unfold Py.sum. rewrite sum_fold, Z.add_0_l.
  split.
  - apply round1_le, mean_le; [exact Hlen|].
    apply sum_le. intros x Hx. unfold cs in Hx.
    apply in_map_iff in Hx as [f [<- Hf]]. now apply Hall.
  - intro Hb. apply (round1_ge 1), mean_ge; [exact Hlen|].
    apply sum_ge. intros x Hx. unfold cs in Hx.
    apply in_map_iff in Hx as [f [<- Hf]].
    assert (Hft : In f (Ast.subnodes t)).
    { rewrite Hdef in Hf. unfold CodeMetrics.non_test_functions in Hf.
      apply filter_In in Hf as [Hf _]. now apply walk_In. }
    apply (complexity_between f f).
    + intros n v Hn. apply Hb. exact (subnodes_trans t f n Hft Hn).
    + destruct f; now left.
Qed.

End ComplexityReport.

Lemma X5_witness :
  (1 <= CodeMetrics.average (CodeMetrics._function_complexity Examples.three_ifs))%Q
  /\ exists f,
       In f (CodeMetrics.non_test_functions Examples.three_ifs)
       /\ CodeMetrics._calculate_complexity f
          = CodeMetrics.maximum (CodeMetrics._function_complexity Examples.three_ifs).
Proof.
  destruct (X5_complexity_report Examples.three_ifs) as (_ & Hmax & _ & _ & _ & Havg).
  split.
  - apply Havg. intros n v Hn Hk. vm_compute in Hn.
    repeat (destruct Hn as [<-|Hn]; [discriminate Hk|]). destruct Hn.
  - apply Hmax. vm_compute. discriminate.
Defined.

(** ** Style issues and documentation *)

Section StyleAndDocs.

Lemma style_fold (l : list Ast.node) :
  forall acc,
    fold_left CodeMetrics.style_step l acc = acc ++ flat_map Terms.issues_of l.
Proof.
  induction l as [|n l IH]; intro acc; simpl; [now rewrite app_nil_r|].
  rewrite IH. unfold CodeMetrics.style_step, Terms.issues_of,
    Terms.too_long, Terms.too_many_parameters.
  destruct (Ast.is_FunctionDef n); simpl; [|reflexivity].
  destruct (50 <? _); destruct (5 <? _)%nat; simpl;
    rewrite <- ?app_assoc; reflexivity.
Qed.

Lemma issues_length (l : list Ast.node) :
  length (flat_map Terms.issues_of l)
  = (length (filter Terms.too_long l)
     + length (filter Terms.too_many_parameters l))%nat.
Proof.
  induction l as [|n l IH]; simpl; [reflexivity|].
  rewrite length_app, IH. unfold Terms.issues_of.
  destruct (Terms.too_long n); destruct (Terms.too_many_parameters n);
    simpl; lia.
Qed.

Lemma filter_nil_iff {A : Type} (p : A -> bool) (l : list A) :
  filter p l = [] <-> forall x, In x l -> p x = false.
Proof.
  induction l as [|x l IH]; simpl; [tauto|].
  destruct (p x) eqn:Hp; split.
  - discriminate.
  - intro H. specialize (H x (or_introl eq_refl)). congruence.
  - intros Hnil y [<-|Hy]; [exact Hp|]. now apply IH.
  - intro H. apply IH. intros y Hy. apply H. now right.
Qed.

(** X6.  [issues_count] is the length of [issues]; it is the number of
    function definitions of the tree whose [end_lineno - lineno] exceeds
    50 plus the number of those with more than 5 positional parameters (a
    function failing both checks gives two issues); it is 0 exactly when
    every function definition of the tree passes both checks; and every
    issue carries the [lineno] of the function, its name and the number
    checked. *)
Theorem X6_style_issues (t : Ast.node) :
  let r := CodeMetrics._check_code_style t in
  CodeMetrics.issues_count r = Z.of_nat (length (CodeMetrics.issues r))
  /\ CodeMetrics.issues r = flat_map Terms.issues_of (Ast.walk t)
  /\ CodeMetrics.issues_count r
     = Z.of_nat (length (filter Terms.too_long (Ast.subnodes t)))
       + Z.of_nat (length (filter Terms.too_many_parameters (Ast.subnodes t)))
  /\ (CodeMetrics.issues_count r = 0 <->
      forall n, In n (Ast.subnodes t) -> Ast.is_FunctionDef n = true ->
                Ast.end_lineno n - Ast.lineno n <= 50 /\ (Ast.nargs n <= 5)%nat).
Proof.
  intro r. unfold r, CodeMetrics._check_code_style.
  cbn [CodeMetrics.issues_count CodeMetrics.issues].
  rewrite style_fold, app_nil_l, issues_length.
  rewrite (Permutation_length (filter_perm Terms.too_long _ _ (walk_perm t))).
  rewrite (Permutation_length (filter_perm Terms.too_many_parameters _ _ (walk_perm t))).
  split; [reflexivity|]. split; [reflexivity|]. split; [lia|].
  split.
  - intros H0 n Hn Hf.
    assert (H1 : filter Terms.too_long (Ast.subnodes t) = [])
      by (apply length_zero_iff_nil; lia).
    assert (H2 : filter Terms.too_many_parameters (Ast.subnodes t) = [])
      by (apply length_zero_iff_nil; lia).
    pose proof (proj1 (filter_nil_iff _ _) H1 n Hn) as Hl.
    pose proof (proj1 (filter_nil_iff _ _) H2 n Hn) as Hp.
    unfold Terms.too_long in Hl. unfold Terms.too_many_parameters in Hp.
    rewrite Hf in Hl, Hp. simpl in Hl, Hp.
    apply Z.ltb_ge in Hl. apply Nat.ltb_ge in Hp. split; assumption.
  - intro H.
    rewrite (proj2 (filter_nil_iff Terms.too_long (Ast.subnodes t))).
    + rewrite (proj2 (filter_nil_iff Terms.too_many_parameters (Ast.subnodes t)));
        [reflexivity|].
      intros n Hn. unfold Terms.too_many_parameters.
      destruct (Ast.is_FunctionDef n) eqn:Hf; [|reflexivity]. simpl.
      apply Nat.ltb_ge. now apply H.
    + intros n Hn. unfold Terms.too_long.
      destruct (Ast.is_FunctionDef n) eqn:Hf; [|reflexivity]. simpl.
      apply Z.ltb_ge. now apply H.
Qed.

End StyleAndDocs.

Lemma X6_witness :
  CodeMetrics.issues_count (CodeMetrics._check_code_style MoreExamples.big_module) = 2
  /\ ~ (forall n, In n (Ast.subnodes MoreExamples.big_module) ->
                  Ast.is_FunctionDef n = true ->
                  Ast.end_lineno n - Ast.lineno n <= 50 /\ (Ast.nargs n <= 5)%nat).
Proof.
  destruct (X6_style_issues MoreExamples.big_module) as (_ & _ & Hcount & Hzero).
  split.
  - rewrite Hcount. reflexivity.
  - intro Hall. apply Hzero in Hall. rewrite Hcount in Hall. discriminate Hall.
Defined.

(** ** The parts of the report agree *)

Section ReportCounts.

Lemma extract_definitions_walk (t : Ast.node) :
  CoverageAnalyzer._extract_definitions t
  = (map Ref.function_entry_of (filter Ast.is_FunctionDef (Ast.walk t)),
     map Ref.class_entry_of (filter Ast.is_ClassDef (Ast.walk t))).
Proof.
  unfold CoverageAnalyzer._extract_definitions.
  rewrite extract_definitions_spec. simpl. f_equal. f_equal.
  apply filter_ext. intro n.
  destruct (Ast.is_ClassDef n) eqn:Hc.
  - now rewrite (class_not_function n Hc).
  - now rewrite andb_false_r.
Qed.

Lemma analyze_parsed (pf : platform) (code filename : string) (t : Ast.node) :
  ast_parse pf code = Py.Returned t ->
  CodeMetrics.analyze pf (CodeMetrics.init pf code filename)
  = Py.Returned
      (let a := CodeMetrics.init pf code filename in
       let an :=
         {| CoverageAnalyzer.code := code;
            CoverageAnalyzer.filepath := "code.py";
            CoverageAnalyzer.tree := t;
            CoverageAnalyzer.functions :=
              map Ref.function_entry_of (filter Ast.is_FunctionDef (Ast.walk t));
            CoverageAnalyzer.classes :=
              map Ref.class_entry_of (filter Ast.is_ClassDef (Ast.walk t)) |} in
       let m :=
         {| CodeMetrics.m_filename := filename;
            CodeMetrics.total_lines := Z.of_nat (length (Py.split_nl code));
            CodeMetrics.code_lines := CodeMetrics._count_code_lines a;
            CodeMetrics.functions := CodeMetrics._function_info t;
            CodeMetrics.classes := CodeMetrics._class_info t;
            CodeMetrics.imports := CodeMetrics._import_info t;
            CodeMetrics.complexity := CodeMetrics._function_complexity t;
            CodeMetrics.docstrings := CodeMetrics._check_docstrings t;
            CodeMetrics.code_style := CodeMetrics._check_code_style t;
            CodeMetrics.duplication := CodeMetrics._check_duplication pf a;
            CodeMetrics.coverage :=
              CodeMetrics.CoverageOf (CoverageAnalyzer.analyze pf an) |} in
       {| CodeMetrics.metrics := m;
          CodeMetrics.overall_score := CodeMetrics._calculate_score m |}).
Proof.
  intro Hparse.
  unfold CodeMetrics.analyze, CodeMetrics._check_coverage, CoverageAnalyzer.init.
  simpl. rewrite (parse_or_none_returned pf code t Hparse), Hparse. simpl.
  rewrite extract_definitions_walk. reflexivity.
Qed.

Lemma detector_analyze_detect (d : DuplicateCodeDetector.detector) :
  DuplicateCodeDetector.analyze d = DuplicateCodeDetector.detect d.
Proof.
  unfold DuplicateCodeDetector.analyze, DuplicateCodeDetector.detect.
  destruct (DuplicateCodeDetector.tree d); [|reflexivity].
  now destruct (DuplicateCodeDetector.detect_in _).
Qed.

(** X7.  The parts of the report of a text that parses agree with each
    other: the counts of functions and classes are the lengths of the
    lists of names and the totals of the documentation part; the
    documented ones are at most the totals; the test and non-test counts
    of the coverage part add up to the count of functions; and the number
    of duplicate pairs is the length of the list of duplicates. *)
Theorem X7_report_counts_agree (pf : platform) (code filename : string)
    (t : Ast.node) :
  ast_parse pf code = Py.Returned t ->
  exists r c,
    CodeMetrics.analyze pf (CodeMetrics.init pf code filename) = Py.Returned r
    /\ CodeMetrics.coverage (CodeMetrics.metrics r) = CodeMetrics.CoverageOf c
    /\ CodeMetrics.count (CodeMetrics.functions (CodeMetrics.metrics r))
       = Z.of_nat (length (CodeMetrics.names
                             (CodeMetrics.functions (CodeMetrics.metrics r))))
    /\ CodeMetrics.count (CodeMetrics.classes (CodeMetrics.metrics r))
       = Z.of_nat (length (CodeMetrics.names
                             (CodeMetrics.classes (CodeMetrics.metrics r))))
    /\ CodeMetrics.total_functions (CodeMetrics.docstrings (CodeMetrics.metrics r))
       = CodeMetrics.count (CodeMetrics.functions (CodeMetrics.metrics r))
    /\ CodeMetrics.total_classes (CodeMetrics.docstrings (CodeMetrics.metrics r))
       = CodeMetrics.count (CodeMetrics.classes (CodeMetrics.metrics r))
    /\ 0 <= CodeMetrics.functions_documented (CodeMetrics.docstrings (CodeMetrics.metrics r))
         <= CodeMetrics.total_functions (CodeMetrics.docstrings (CodeMetrics.metrics r))
    /\ 0 <= CodeMetrics.classes_documented (CodeMetrics.docstrings (CodeMetrics.metrics r))
         <= CodeMetrics.total_classes (CodeMetrics.docstrings (CodeMetrics.metrics r))
    /\ CoverageAnalyzer.test_count c + CoverageAnalyzer.function_count c
       = CodeMetrics.count (CodeMetrics.functions (CodeMetrics.metrics r))
    /\ DuplicateCodeDetector.duplicate_pairs
         (CodeMetrics.duplication (CodeMetrics.metrics r))
       = Z.of_nat (length (DuplicateCodeDetector.duplicates
                             (CodeMetrics.duplication (CodeMetrics.metrics r)))).
Proof.
  intro Hparse. rewrite (analyze_parsed pf code filename t Hparse).
  eexists. eexists. split; [reflexivity|]. cbv zeta.
  cbn [CodeMetrics.metrics CodeMetrics.coverage CodeMetrics.functions
       CodeMetrics.classes CodeMetrics.docstrings CodeMetrics.duplication].
  split; [reflexivity|].
  unfold CodeMetrics._function_info, CodeMetrics._class_info,
    CodeMetrics._check_docstrings, CodeMetrics.count_documented.
  cbn [CodeMetrics.count CodeMetrics.names CodeMetrics.total_functions
       CodeMetrics.total_classes CodeMetrics.functions_documented
       CodeMetrics.classes_documented].
  rewrite !length_map.
  split; [reflexivity|]. split; [reflexivity|].
  split; [reflexivity|]. split; [reflexivity|].
  split.
  { pose proof (filter_length_le (fun n => Ast.truthy (Ast.get_docstring n))
                  (filter Ast.is_FunctionDef (Ast.walk t))). lia. }
  split.
  { pose proof (filter_length_le (fun n => Ast.truthy (Ast.get_docstring n))
                  (filter Ast.is_ClassDef (Ast.walk t))). lia. }
  split.
  { unfold CoverageAnalyzer.analyze.
    cbn [CoverageAnalyzer.test_count CoverageAnalyzer.function_count
         CoverageAnalyzer.functions].
    pose proof (length_filter_negb CoverageAnalyzer.is_test
                  (map Ref.function_entry_of
                     (filter Ast.is_FunctionDef (Ast.walk t)))) as Hsum.
    rewrite length_map in Hsum. lia. }
  unfold CodeMetrics._check_duplication. rewrite detector_analyze_detect.
  exact (proj1 (detect_percent _)).
Qed.

Lemma Qeq_between (x y : Q) : (y <= x)%Q -> (x <= y)%Q -> (x == y)%Q.
Proof. intros H1 H2. now apply Qle_antisym. Qed.

(** X8.  The documentation coverage lies between 0 and 100.  It is 0.0
    when the tree has no function and no class and when none of them has
    a docstring that is not empty, and 100.0 when there is at least one
    and each has one; the functions counted as documented are the
    function definitions of the tree with such a docstring. *)
Theorem X8_docstring_coverage_edges (t : Ast.node) :
  let r := CodeMetrics._check_docstrings t in
  let total := CodeMetrics.total_functions r + CodeMetrics.total_classes r in
  let documented := CodeMetrics.functions_documented r + CodeMetrics.classes_documented r in
  (0 <= CodeMetrics.coverage_percent r)%Q
  /\ (CodeMetrics.coverage_percent r <= 100)%Q
  /\ (total = 0 -> (CodeMetrics.coverage_percent r == 0)%Q)
  /\ (documented = 0 -> (CodeMetrics.coverage_percent r == 0)%Q)
  /\ (0 < total -> documented = total -> (CodeMetrics.coverage_percent r == 100)%Q)
  /\ CodeMetrics.functions_documented r
     = Z.of_nat (length (filter (fun n => Ast.is_FunctionDef n
                                          && Ast.truthy (Ast.get_docstring n))
                           (Ast.subnodes t))).
Proof.
  intros r total documented.
  destruct (docstring_coverage_range t) as [Hlo Hhi].
  split; [exact Hlo|]. split; [exact Hhi|].
  unfold total, documented, r, CodeMetrics._check_docstrings,
    CodeMetrics.count_documented.
  cbn [CodeMetrics.total_functions CodeMetrics.total_classes
       CodeMetrics.functions_documented CodeMetrics.classes_documented
       CodeMetrics.coverage_percent].
  set (fs := filter Ast.is_FunctionDef (Ast.walk t)).
  set (cs := filter Ast.is_ClassDef (Ast.walk t)).
  set (doc := fun n => Ast.truthy (Ast.get_docstring n)).
  set (n := Z.of_nat (length fs) + Z.of_nat (length cs)).
  set (d := Z.of_nat (length (filter doc fs)) + Z.of_nat (length (filter doc cs))).
  split.
  { intro H0. rewrite H0. reflexivity. }
  split.
  { intro Hd. rewrite Hd. destruct (0 <? n); [|reflexivity].
    pose proof (percent_zero n) as H0.
    apply Qeq_between; [apply (round1_ge 0)|apply (round1_le 0)];
      change (inject_Z 0) with 0%Q; rewrite H0; apply Qle_refl. }
  split.
  { intros Hn Hd. rewrite Hd.
    apply Z.ltb_lt in Hn. rewrite Hn. apply Z.ltb_lt in Hn.
    pose proof (percent_full n Hn) as H1.
    apply Qeq_between; [apply (round1_ge 100)|apply (round1_le 100)];
      rewrite H1; apply Qle_refl. }
  { f_equal. unfold fs, doc.
    transitivity (length (filter (fun n => Ast.is_FunctionDef n
                                           && Ast.truthy (Ast.get_docstring n))
                            (Ast.walk t)));
      [|apply Permutation_length, filter_perm, walk_perm].
    clear. induction (Ast.walk t) as [|x l IH]; simpl; [reflexivity|].
    destruct (Ast.is_FunctionDef x); simpl;
      [destruct (Ast.truthy (Ast.get_docstring x)); simpl|]; now rewrite IH. }
Qed.

(** X9.  The report does not depend on the file system: two platforms
    whose parsers agree on the text give the same report, because the
    aggregator builds its [CoverageAnalyzer] with the default path, for
    which no file is looked up.  So in the report [has_tests] is true
    exactly when the tree has a function definition whose name starts
    with [test_], and the coverage part and the score are the same for
    every file name. *)
Theorem X9_report_ignores_file_system (pf1 pf2 : platform) (code : string) :
  ast_parse pf1 code = ast_parse pf2 code ->
  (forall filename,
      CodeMetrics.analyze pf1 (CodeMetrics.init pf1 code filename)
      = CodeMetrics.analyze pf2 (CodeMetrics.init pf2 code filename))
  /\ (forall t filename,
         ast_parse pf1 code = Py.Returned t ->
         exists r c,
           CodeMetrics.analyze pf1 (CodeMetrics.init pf1 code filename) = Py.Returned r
           /\ CodeMetrics.coverage (CodeMetrics.metrics r) = CodeMetrics.CoverageOf c
           /\ (CoverageAnalyzer.has_tests c = true <->
               exists n, In n (Ast.subnodes t) /\ Ast.is_FunctionDef n = true
                         /\ Py.startswith (Ast.name n) "test_" = true))
  /\ (forall filename1 filename2,
         exists r1 r2,
           CodeMetrics.analyze pf1 (CodeMetrics.init pf1 code filename1) = Py.Returned r1
           /\ CodeMetrics.analyze pf1 (CodeMetrics.init pf1 code filename2) = Py.Returned r2
           /\ CodeMetrics.coverage (CodeMetrics.metrics r1)
              = CodeMetrics.coverage (CodeMetrics.metrics r2)
           /\ CodeMetrics.overall_score r1 = CodeMetrics.overall_score r2).
Proof.
  intro Hsame.
  split; [|split].
  - intro filename.
    destruct (parse_or_none_cases pf1 code) as [[Hn1 Hr1]|[t [Hs1 Hp1]]].
    + assert (Hr2 : ast_parse pf2 code = Py.Raised Py.SyntaxError) by congruence.
      unfold CodeMetrics.analyze, CodeMetrics.init. simpl.
      now rewrite Hn1, (parse_or_none_raised pf2 code Hr2).
    + assert (Hp2 : ast_parse pf2 code = Py.Returned t) by congruence.
      rewrite (analyze_parsed pf1 code filename t Hp1),
        (analyze_parsed pf2 code filename t Hp2).
      unfold CodeMetrics._check_duplication, DuplicateCodeDetector.init,
        CodeMetrics.init. cbn [CodeMetrics.code].
      now rewrite Hs1, (parse_or_none_returned pf2 code t Hp2).
  - intros t filename Hp1.
    rewrite (analyze_parsed pf1 code filename t Hp1).
    eexists. eexists. split; [reflexivity|]. split; [reflexivity|].
    unfold CoverageAnalyzer.analyze, CoverageAnalyzer.check_test_presence,
      CoverageAnalyzer._check_test_file_exists.
    cbn [CoverageAnalyzer.has_tests CoverageAnalyzer.functions CoverageAnalyzer.filepath].
    simpl orb. rewrite orb_false_r, existsb_exists. split.
    + intros [f [Hf Htest]]. apply in_map_iff in Hf as [n [<- Hn]].
      apply filter_In in Hn as [Hn Hfd]. exists n.
      split; [now apply walk_In|]. split; [exact Hfd|exact Htest].
    + intros [n (Hn & Hfd & Htest)]. exists (Ref.function_entry_of n).
      split; [|exact Htest]. apply in_map, filter_In.
      split; [now apply walk_In|exact Hfd].
  - intros filename1 filename2.
    destruct (parse_or_none_cases pf1 code) as [[Hn1 Hr1]|[t [Hs1 Hp1]]].
    + unfold CodeMetrics.analyze, CodeMetrics.init. simpl. rewrite Hn1.
      eexists. eexists. repeat split.
    + rewrite (analyze_parsed pf1 code filename1 t Hp1),
        (analyze_parsed pf1 code filename2 t Hp1).
      eexists. eexists. repeat split.
Qed.

End ReportCounts.

Lemma X7_witness :
  ast_parse Examples.pf_examples Examples.three_functions_text
  = Py.Returned Examples.three_functions
  /\ ltac:(let T := type of (X7_report_counts_agree Examples.pf_examples
                               Examples.three_functions_text "code.py"
                               Examples.three_functions eq_refl)
           in exact T).
Proof.
  split; [reflexivity|].
  apply (X7_report_counts_agree Examples.pf_examples Examples.three_functions_text
           "code.py" Examples.three_functions).
  reflexivity.
Defined.

Lemma X8_witness :
  (CodeMetrics.coverage_percent (CodeMetrics._check_docstrings Examples.empty_module)
   == 0)%Q
  /\ (CodeMetrics.coverage_percent (CodeMetrics._check_docstrings Examples.tested_module)
      == 0)%Q.
Proof.
  split.
  - destruct (X8_docstring_coverage_edges Examples.empty_module)
      as (_ & _ & Hnone & _).
    apply Hnone. reflexivity.
  - destruct (X8_docstring_coverage_edges Examples.tested_module)
      as (_ & _ & _ & Hundocumented & _).
    apply Hundocumented. reflexivity.
Defined.

Lemma X9_witness :
  let pf2 := {| ast_parse := ast_parse MoreExamples.pf_more;
                os_path_exists := fun _ => true;
                path_stem := fun _ => "code" |} in
  ast_parse MoreExamples.pf_more Examples.tested_text = ast_parse pf2 Examples.tested_text
  /\ CodeMetrics.analyze MoreExamples.pf_more
       (CodeMetrics.init MoreExamples.pf_more Examples.tested_text "mod.py")
     = CodeMetrics.analyze pf2 (CodeMetrics.init pf2 Examples.tested_text "mod.py").
Proof.
  intro pf2. split; [reflexivity|].
  apply (X9_report_ignores_file_system MoreExamples.pf_more pf2 Examples.tested_text).
  reflexivity.
Defined.

(** ** The coverage analyzer on its own *)

Section CoverageAlone.

Lemma coverage_level_none (c : Q) :
  (c <= 0)%Q -> CoverageAnalyzer._get_coverage_level c = "none".
Proof.
  intro H. unfold CoverageAnalyzer._get_coverage_level.
  rewrite (Qle_bool_lt_false 80 c), (Qle_bool_lt_false 60 c),
    (Qle_bool_lt_false 40 c), (Qle_bool_true _ _ H);
    [reflexivity| | |]; (eapply Qle_lt_trans; [exact H|reflexivity]).
Qed.

Lemma qmin_range (x : Q) :
  (0 <= x)%Q -> (0 <= Py.qmin x 1)%Q /\ (Py.qmin x 1 <= 1)%Q.
Proof.
  intro H. unfold Py.qmin. destruct (Qle_bool x 1) eqn:E.
  - apply Qle_bool_iff in E. split; assumption.
  - split; lra.
Qed.

Lemma estimate_range (pf : platform) (a : CoverageAnalyzer.analyzer) :
  (0 <= CoverageAnalyzer.estimate_coverage pf a)%Q
  /\ (CoverageAnalyzer.estimate_coverage pf a <= 100)%Q.
Proof.
  unfold CoverageAnalyzer.estimate_coverage.
  destruct (CoverageAnalyzer.check_test_presence pf a); [|split; lra].
  set (tests := CoverageAnalyzer.count_tests a).
  set (others := Z.of_nat (length (CoverageAnalyzer.functions a)) - tests).
  assert (Hrange : 0 <= tests /\ 0 <= others).
  { unfold others, tests, CoverageAnalyzer.count_tests.
    pose proof (filter_length_le CoverageAnalyzer.is_test (CoverageAnalyzer.functions a)).
    lia. }
  destruct (Z.eqb_spec others 0) as [H0|H0].
  - destruct (0 <? tests); split; lra.
  - assert (Hx : (0 <= Py.truediv tests others)%Q)
      by (apply truediv_nonneg; lia).
    destruct (qmin_range _ Hx) as [Hlo Hhi].
    destruct (fmul_percent _ Hlo Hhi) as [Hp0 Hp1].
    split; [apply (round1_ge 0)|apply (round1_le 100)]; assumption.
Qed.

(** X10.  The coverage estimate lies between 0 and 100.  Without a test
    function in the file it is 0.0 and the level is [none], also when a
    sibling test file makes [has_tests] true.  For an empty path and for
    the default path [code.py] no file is looked up, and tests are present
    exactly when the file has a test function.  Without tests the report
    has the two recommendations to add tests; it has no recommendation
    exactly when tests are present and the estimate is at least 60. *)
Theorem X10_coverage_estimate_edges (pf : platform) (a : CoverageAnalyzer.analyzer) :
  let r := CoverageAnalyzer.analyze pf a in
  (0 <= CoverageAnalyzer.coverage_estimate r)%Q
  /\ (CoverageAnalyzer.coverage_estimate r <= 100)%Q
  /\ (CoverageAnalyzer.count_tests a = 0 ->
      (CoverageAnalyzer.coverage_estimate r == 0)%Q
      /\ CoverageAnalyzer.coverage_level r = "none")
  /\ (CoverageAnalyzer.filepath a = "" \/ CoverageAnalyzer.filepath a = "code.py" ->
      CoverageAnalyzer.has_tests r
      = existsb CoverageAnalyzer.is_test (CoverageAnalyzer.functions a))
  /\ (CoverageAnalyzer.has_tests r = false ->
      CoverageAnalyzer.recommendations r
      = [CoverageAnalyzer.AddUnitTests; CoverageAnalyzer.CreateTestsDirectory]
      /\ CoverageAnalyzer.coverage_estimate r = 0%Q
      /\ CoverageAnalyzer.coverage_level r = "none")
  /\ (CoverageAnalyzer.recommendations r = [] <->
      CoverageAnalyzer.has_tests r = true
      /\ (60 <= CoverageAnalyzer.coverage_estimate r)%Q).
Proof.
  intro r. unfold r, CoverageAnalyzer.analyze.
  cbn [CoverageAnalyzer.coverage_estimate CoverageAnalyzer.coverage_level
       CoverageAnalyzer.has_tests CoverageAnalyzer.recommendations].
  destruct (estimate_range pf a) as [Hlo Hhi].
  split; [exact Hlo|]. split; [exact Hhi|].
  split.
  { intro Hnone.
    assert (Hle : (CoverageAnalyzer.estimate_coverage pf a <= 0)%Q).
    { unfold CoverageAnalyzer.estimate_coverage. rewrite Hnone.
      destruct (CoverageAnalyzer.check_test_presence pf a); [|lra].
      destruct (_ =? 0); [simpl; lra|].
      apply (round1_le 0). change (inject_Z 0) with 0%Q.
      match goal with
      | |- context [Py.truediv 0 ?b] => pose proof (truediv_zero b) as Hzero
      end.
      unfold Py.qmin. destruct (Qle_bool _ 1) eqn:E.
      - rewrite (fmul_zero _ 100 Hzero). lra.
      - apply Qle_bool_false_lt in E. rewrite Hzero in E. exfalso. lra. }
    split; [now apply Qle_antisym|now apply coverage_level_none]. }
  split.
  { intros [Hp|Hp]; unfold CoverageAnalyzer.check_test_presence,
      CoverageAnalyzer._check_test_file_exists; rewrite Hp; simpl;
      apply orb_false_r. }
  split.
  { intro Hno. unfold CoverageAnalyzer.estimate_coverage,
      CoverageAnalyzer._generate_recommendations. rewrite Hno. simpl.
    repeat split. }
  unfold CoverageAnalyzer._generate_recommendations.
  destruct (CoverageAnalyzer.check_test_presence pf a); simpl.
  - destruct (Qle_bool 60 (CoverageAnalyzer.estimate_coverage pf a)) eqn:E; simpl.
    + apply Qle_bool_iff in E. tauto.
    + apply Qle_bool_false_lt in E. split; [discriminate|].
      intros [_ H60]. exfalso. lra.
  - split; [discriminate|]. intros [Hf _]. discriminate Hf.
Qed.

End CoverageAlone.

Lemma X10_witness :
  let r := CoverageAnalyzer.analyze MoreExamples.pf_sibling MoreExamples.untested_analyzer in
  CoverageAnalyzer.has_tests r = true
  /\ (CoverageAnalyzer.coverage_estimate r == 0)%Q
  /\ CoverageAnalyzer.coverage_level r = "none".
Proof.
  intro r. split; [reflexivity|].
  apply (X10_coverage_estimate_edges MoreExamples.pf_sibling
           MoreExamples.untested_analyzer).
  reflexivity.
Defined.

(** ** The candidates of the detector *)

Section Candidates.

Lemma extract_fold (d : DuplicateCodeDetector.detector) (l : list Ast.node) :
  forall acc,
    fold_left (DuplicateCodeDetector.extract_step d) l acc
    = acc ++ flat_map (Terms.candidates_of d) l.
Proof.
  induction l as [|n l IH]; intro acc; simpl; [now rewrite app_nil_r|].
  rewrite IH. rewrite app_assoc. f_equal.
  unfold DuplicateCodeDetector.extract_step, Terms.candidates_of, Terms.is_candidate.
  destruct (Ast.get_source_segment n) as [func_code|];
    destruct (Ast.is_FunctionDef n); simpl; try now rewrite app_nil_r.
  - destruct (Py.startswith (Ast.name n) "test_"); simpl; [now rewrite app_nil_r|].
    destruct (Py.truthy func_code); simpl; [|now rewrite app_nil_r].
    destruct (_ <=? _); [reflexivity|now rewrite app_nil_r].
  - destruct (Py.startswith (Ast.name n) "test_"); now rewrite app_nil_r.
Qed.

Lemma candidates_of_length (d : DuplicateCodeDetector.detector) (l : list Ast.node) :
  (length (flat_map (Terms.candidates_of d) l)
   <= length (filter (fun node => Ast.is_FunctionDef node
                                  && negb (Py.startswith (Ast.name node) "test_")) l))%nat.
Proof.
  induction l as [|n l IH]; simpl; [lia|].
  rewrite length_app. unfold Terms.candidates_of at 1, Terms.is_candidate.
  destruct (Ast.get_source_segment n) as [func_code|];
    destruct (Ast.is_FunctionDef n && negb (Py.startswith (Ast.name n) "test_"));
    simpl; try lia.
  destruct (_ && _); simpl; lia.
Qed.

Lemma index_pairs_small (n : nat) : (n <= 1)%nat -> Ref.index_pairs n = [].
Proof.
  intro H. destruct n as [|[|n]]; [reflexivity|reflexivity|lia].
Qed.

(** X11.  The candidates of a text that parses are, in the order of the
    walk, the function definitions of the tree whose name does not start
    with [test_], whose source text is not empty and has at least
    [min_function_lines] lines that are neither blank nor start with
    [def]; there are no more candidates than non-test functions; and with
    fewer than two candidates nothing is reported: no pair, 0.0 percent,
    severity [none]. *)
Theorem X11_candidates (d : DuplicateCodeDetector.detector) (t : Ast.node) :
  DuplicateCodeDetector.tree d = Some t ->
  Ref.candidates d = flat_map (Terms.candidates_of d) (Ast.walk t)
  /\ (length (Ref.candidates d) <= length (CodeMetrics.non_test_functions t))%nat
  /\ (forall c, In c (Ref.candidates d) ->
        exists n func_code,
          In n (Ast.subnodes t)
          /\ Ast.is_FunctionDef n = true
          /\ Py.startswith (Ast.name n) "test_" = false
          /\ Ast.get_source_segment n = Some func_code
          /\ func_code <> EmptyString
          /\ DuplicateCodeDetector.min_function_lines d
             <= Z.of_nat (length (DuplicateCodeDetector.body_lines func_code))
          /\ c = Terms.candidate_of n func_code)
  /\ ((length (Ref.candidates d) <= 1)%nat ->
      DuplicateCodeDetector.duplicates (DuplicateCodeDetector.detect d) = []
      /\ DuplicateCodeDetector.duplicate_pairs (DuplicateCodeDetector.detect d) = 0
      /\ (DuplicateCodeDetector.duplication_percent (DuplicateCodeDetector.detect d) == 0)%Q
      /\ DuplicateCodeDetector.severity (DuplicateCodeDetector.detect d) = "none").
Proof.
  intro Ht.
  assert (Hc : Ref.candidates d = flat_map (Terms.candidates_of d) (Ast.walk t)).
  { unfold Ref.candidates. rewrite Ht. unfold DuplicateCodeDetector.extract.
    now rewrite extract_fold. }
  split; [exact Hc|]. split.
  { rewrite Hc. apply candidates_of_length. }
  split.
  { intros c Hin. rewrite Hc in Hin.
    apply in_flat_map in Hin as [n [Hn Hin]].
    unfold Terms.candidates_of in Hin.
    destruct (Ast.get_source_segment n) as [func_code|] eqn:Hseg; [|destruct Hin].
    destruct (Terms.is_candidate d n) eqn:Hcand; [|destruct Hin].
    destruct Hin as [<-|[]].
    unfold Terms.is_candidate in Hcand. rewrite Hseg in Hcand.
    apply andb_true_iff in Hcand as [Hcand Hcode].
    apply andb_true_iff in Hcand as [Hfd Htest].
    apply andb_true_iff in Hcode as [Htruthy Hmin].
    exists n, func_code. split; [now apply walk_In|].
    split; [exact Hfd|]. split; [now apply negb_true_iff|].
    split; [exact Hseg|]. split; [intros ->; discriminate|].
    split; [now apply Z.leb_le|reflexivity]. }
  intro Hsmall. unfold DuplicateCodeDetector.detect. rewrite Ht.
  unfold Ref.candidates in Hsmall. rewrite Ht in Hsmall.
  unfold DuplicateCodeDetector.detect_in. rewrite compare_all_spec.
  unfold Ref.recorded_pairs. rewrite (index_pairs_small _ Hsmall). simpl.
  repeat split.
Qed.

End Candidates.

Lemma X11_witness :
  let d := DuplicateCodeDetector.init MoreExamples.pf_more Examples.tested_text 3 in
  DuplicateCodeDetector.tree d = Some Examples.tested_module
  /\ Ref.candidates d = []
  /\ DuplicateCodeDetector.severity (DuplicateCodeDetector.detect d) = "none".
Proof.
  intro d.
  destruct (X11_candidates d Examples.tested_module eq_refl) as (Hc & _ & _ & Hsmall).
  split; [reflexivity|]. split; [rewrite Hc; reflexivity|].
  apply Hsmall. rewrite Hc. vm_compute. lia.
Defined.

(** ** Bounds of the score *)

Section ScoreBounds.

Ltac case_ifs :=
  repeat match goal with
         | |- context [if ?b then _ else _] => destruct b
         end.

Lemma score_bounds (m : CodeMetrics.measures) :
  (0 <= CodeMetrics.coverage_percent (CodeMetrics.docstrings m))%Q ->
  (CodeMetrics.coverage_percent (CodeMetrics.docstrings m) <= 100)%Q ->
  let s := CodeMetrics._calculate_score m in
  let b := CodeMetrics.score_breakdown s in
  (18 <= CodeMetrics.total s)%Q
  /\ ((0 <= CodeMetrics.b_documentation b)%Q /\ (CodeMetrics.b_documentation b <= 15)%Q)
  /\ ((5 <= CodeMetrics.b_complexity b)%Q /\ (CodeMetrics.b_complexity b <= 20)%Q)
  /\ ((5 <= CodeMetrics.b_code_style b)%Q /\ (CodeMetrics.b_code_style b <= 20)%Q)
  /\ ((5 <= CodeMetrics.b_structure b)%Q /\ (CodeMetrics.b_structure b <= 15)%Q)
  /\ ((3 <= CodeMetrics.b_duplication b)%Q /\ (CodeMetrics.b_duplication b <= 15)%Q)
  /\ ((0 <= CodeMetrics.b_test_coverage b)%Q /\ (CodeMetrics.b_test_coverage b <= 15)%Q).
Proof.
  intros Hlo Hhi. unfold CodeMetrics._calculate_score.
  cbn [CodeMetrics.total CodeMetrics.score_breakdown CodeMetrics.b_documentation
       CodeMetrics.b_complexity CodeMetrics.b_code_style CodeMetrics.b_structure
       CodeMetrics.b_duplication CodeMetrics.b_test_coverage].
  set (c := CodeMetrics.coverage_percent (CodeMetrics.docstrings m)) in *.
  set (avg := CodeMetrics.average (CodeMetrics.complexity m)).
  set (dup := DuplicateCodeDetector.duplication_percent (CodeMetrics.duplication m)).
  set (cov := CodeMetrics.get_coverage_estimate (CodeMetrics.coverage m)).
  set (complexity_score :=
         (if Qle_bool avg 5 then 20
          else if Qle_bool avg 10 then 15 else if Qle_bool avg 15 then 10 else 5)%Q).
  set (style_score :=
         if CodeMetrics.issues_count (CodeMetrics.code_style m) =? 0 then 20%Q
         else if CodeMetrics.issues_count (CodeMetrics.code_style m) <=? 3 then 15%Q
              else if CodeMetrics.issues_count (CodeMetrics.code_style m) <=? 10
                   then 10%Q else 5%Q).
  set (structure := Z.max 0 _).
  set (duplication_score :=
         (if Qeq_bool dup 0 then 15
          else if negb (Qle_bool 10 dup) then 12
               else if negb (Qle_bool 25 dup) then 8 else 3)%Q).
  set (coverage_score :=
         (if Qle_bool 80 cov then 15
          else if Qle_bool 60 cov then 12
               else if Qle_bool 40 cov then 8
                    else if Qle_bool 20 cov then 5 else 0)%Q).
  assert (H1 : (5 <= complexity_score)%Q /\ (complexity_score <= 20)%Q)
    by (unfold complexity_score; case_ifs; split; lra).
  assert (H2 : (5 <= style_score)%Q /\ (style_score <= 20)%Q)
    by (unfold style_score; case_ifs; split; lra).
  assert (H3 : (5 <= inject_Z structure)%Q /\ (inject_Z structure <= 15)%Q).
  { assert (5 <= structure <= 15) as [Ha Hb] by (unfold structure; case_ifs; lia).
    split; [rewrite <- (Zle_Qle 5)|rewrite <- (Zle_Qle _ 15)]; assumption. }
  assert (H4 : (3 <= duplication_score)%Q /\ (duplication_score <= 15)%Q)
    by (unfold duplication_score; case_ifs; split; lra).
  assert (H5 : (0 <= coverage_score)%Q /\ (coverage_score <= 15)%Q)
    by (unfold coverage_score; case_ifs; split; lra).
  destruct (doc_score_range c Hlo Hhi) as [Hd0 Hd1].
  set (doc_score := Py.fmul _ 15) in *.
  clearbody doc_score complexity_score style_score structure duplication_score
    coverage_score.
  destruct H1, H2, H3, H4, H5.
  fadd_bounds 5%Q 35%Q doc_score complexity_score Ha0 Ha1.
  set (s1 := Py.fadd doc_score complexity_score) in *.
  fadd_bounds 10%Q 55%Q s1 style_score Hb0 Hb1.
  set (s2 := Py.fadd s1 style_score) in *.
  fadd_bounds 15%Q 70%Q s2 (inject_Z structure) Hc0 Hc1.
  set (s3 := Py.fadd s2 (inject_Z structure)) in *.
  fadd_bounds 18%Q 85%Q s3 duplication_score He0 He1.
  set (s4 := Py.fadd s3 duplication_score) in *.
  fadd_bounds 18%Q 100%Q s4 coverage_score Hf0 Hf1.
  split; [apply (round1_ge 18); assumption|].
  split; [split; [apply (round1_ge 0)|apply (round1_le 15)]; assumption|].
  split; [split; [apply (round1_ge 5)|apply (round1_le 20)]; assumption|].
  split; [split; [apply (round1_ge 5)|apply (round1_le 20)]; assumption|].
  split; [split; [apply (round1_ge 5)|apply (round1_le 15)]; assumption|].
  split; [split; [apply (round1_ge 3)|apply (round1_le 15)]; assumption|].
  split; [apply (round1_ge 0)|apply (round1_le 15)]; assumption.
Qed.

(** X12.  A text that parses never scores below 18: complexity and code
    style give at least 5 each, structure at least 5, duplication at least
    3; every entry of the breakdown lies within the bounds of its
    category.  A total of 0.0 is therefore the mark of a text that does
    not parse. *)
Theorem X12_parsed_text_scores_at_least_18 (pf : platform)
    (code filename : string) (t : Ast.node) :
  ast_parse pf code = Py.Returned t ->
  exists r,
    CodeMetrics.analyze pf (CodeMetrics.init pf code filename) = Py.Returned r
    /\ (18 <= CodeMetrics.total (CodeMetrics.overall_score r))%Q
    /\ ~ (CodeMetrics.total (CodeMetrics.overall_score r) == 0)%Q
    /\ (let b := CodeMetrics.score_breakdown (CodeMetrics.overall_score r) in
        ((0 <= CodeMetrics.b_documentation b)%Q /\ (CodeMetrics.b_documentation b <= 15)%Q)
        /\ ((5 <= CodeMetrics.b_complexity b)%Q /\ (CodeMetrics.b_complexity b <= 20)%Q)
        /\ ((5 <= CodeMetrics.b_code_style b)%Q /\ (CodeMetrics.b_code_style b <= 20)%Q)
        /\ ((5 <= CodeMetrics.b_structure b)%Q /\ (CodeMetrics.b_structure b <= 15)%Q)
        /\ ((3 <= CodeMetrics.b_duplication b)%Q /\ (CodeMetrics.b_duplication b <= 15)%Q)
        /\ ((0 <= CodeMetrics.b_test_coverage b)%Q
            /\ (CodeMetrics.b_test_coverage b <= 15)%Q)).
Proof.
  intro Hparse. rewrite (analyze_parsed pf code filename t Hparse).
  eexists. split; [reflexivity|]. cbv zeta.
  cbn [CodeMetrics.overall_score CodeMetrics.metrics].
  match goal with
  | |- context [CodeMetrics._calculate_score ?m] => set (ms := m)
  end.
  destruct (score_bounds ms) as (H18 & Hb);
    [apply docstring_coverage_range|apply docstring_coverage_range|].
  split; [exact H18|]. split; [|exact Hb].
  intro H0. rewrite H0 in H18. lra.
Qed.

End ScoreBounds.

Lemma X12_witness :
  ast_parse Examples.pf_empty "" = Py.Returned Examples.empty_module
  /\ ltac:(let T := type of (X12_parsed_text_scores_at_least_18 Examples.pf_empty
                               "" "code.py" Examples.empty_module eq_refl)
           in exact T).
Proof.
  split; [reflexivity|].
  apply (X12_parsed_text_scores_at_least_18 Examples.pf_empty "" "code.py"
           Examples.empty_module).
  reflexivity.
Defined.

(** ** Range of the similarity *)

Section SimilarityRange.

Variables a b : list ascii.

Lemma sum_sizes_app (l1 l2 : list Difflib.triple) :
  Terms.sum_sizes (l1 ++ l2) = (Terms.sum_sizes l1 + Terms.sum_sizes l2)%nat.
Proof.
  induction l1 as [|x l1 IH]; simpl; [reflexivity|]. rewrite IH. lia.
Qed.

Lemma insert_sorted_sum (x : Difflib.triple) (l : list Difflib.triple) :
  Terms.sum_sizes (Difflib.insert_sorted x l)
  = (Difflib.size_of x + Terms.sum_sizes l)%nat.
Proof.
  induction l as [|y l IH]; simpl; [reflexivity|].
  destruct (Difflib.triple_leb x y); simpl; [reflexivity|]. rewrite IH. lia.
Qed.

Lemma sort_sum (l : list Difflib.triple) :
  Terms.sum_sizes (Difflib.sort l) = Terms.sum_sizes l.
Proof.
  induction l as [|x l IH]; simpl; [reflexivity|].
  now rewrite insert_sorted_sum, IH.
Qed.

Lemma collapse_sum (l : list Difflib.triple) :
  forall cur acc,
    Terms.sum_sizes (Difflib.collapse l cur acc)
    = (Terms.sum_sizes acc + Difflib.size_of cur + Terms.sum_sizes l)%nat.
Proof.
  induction l as [|[[i2 j2] k2] l IH]; intros [[i1 j1] k1] acc.
  - simpl. destruct (Nat.eqb_spec k1 0) as [->|Hk].
    + unfold Difflib.size_of. simpl. lia.
    + rewrite sum_sizes_app. unfold Difflib.size_of. simpl. lia.
  - cbn [Difflib.collapse].
    destruct ((i1 + k1 =? i2) && (j1 + k1 =? j2))%nat.
    + rewrite IH. unfold Difflib.size_of. simpl. lia.
    + rewrite IH. destruct (Nat.eqb_spec k1 0) as [->|Hk].
      * unfold Difflib.size_of. simpl. lia.
      * rewrite sum_sizes_app. unfold Difflib.size_of. simpl. lia.
Qed.

(** The blocks found take their elements from the ranges searched. *)
Lemma blocks_loop_sum (fuel : nat) :
  forall queue blocks,
    Forall Ref.well_formed queue ->
    (Terms.sum_sizes (snd (Difflib.blocks_loop a b fuel queue blocks))
     <= Terms.sum_sizes blocks + Terms.span_a queue)%nat
    /\ (Terms.sum_sizes (snd (Difflib.blocks_loop a b fuel queue blocks))
        <= Terms.sum_sizes blocks + Terms.span_b queue)%nat.
Proof.
  induction fuel as [|fuel IH]; intros queue blocks Hwf.
  - simpl. lia.
  - destruct queue as [|[[[alo ahi] blo] bhi] queue]; [simpl; lia|].
    cbn [Difflib.blocks_loop]. inversion Hwf as [|r q Hr0 Hq]; subst.
    unfold Ref.well_formed in Hr0. destruct Hr0 as [Ha Hb].
    pose proof (find_longest_match_range a b alo ahi blo bhi Ha Hb) as Hr.
    destruct (Difflib.find_longest_match a b alo ahi blo bhi) as [[i j] k].
    unfold Ref.in_range in Hr. simpl in Hr.
    destruct (Nat.eqb_spec k 0) as [->|Hk].
    + destruct (IH queue blocks Hq). simpl. lia.
    + match goal with
      | |- context [Difflib.blocks_loop a b fuel ?q2 ?acc] =>
          assert (Hwf2 : Forall Ref.well_formed q2
                         /\ (Terms.span_a q2 + k <= ahi - alo + Terms.span_a queue)%nat
                         /\ (Terms.span_b q2 + k <= bhi - blo + Terms.span_b queue)%nat);
          [|destruct Hwf2 as (Hw & Hsa & Hsb); destruct (IH q2 acc Hw) as [H1 H2]]
      end.
      { destruct (Nat.ltb_spec alo i) as [H1|H1];
          destruct (Nat.ltb_spec blo j) as [H2|H2];
          destruct (Nat.ltb_spec (i + k) ahi) as [H3|H3];
          destruct (Nat.ltb_spec (j + k) bhi) as [H4|H4]; simpl;
          (split; [repeat (constructor; [unfold Ref.well_formed; lia|]); exact Hq|lia]). }
      rewrite sum_sizes_app in H1, H2. unfold Difflib.size_of in *. simpl in *. lia.
Qed.

Lemma matches_bound :
  (Difflib.matches a b <= length a)%nat /\ (Difflib.matches a b <= length b)%nat.
Proof.
  unfold Difflib.matches, Difflib.get_matching_blocks.
  pose proof (blocks_loop_sum (2 * length a + 1)
                [(0%nat, length a, 0%nat, length b)] []) as H.
  destruct (Difflib.blocks_loop _ _ _ _ _) as [q blocks].
  change (fold_right (fun t acc => (Difflib.size_of t + acc)%nat) 0%nat ?l)
    with (Terms.sum_sizes l).
  rewrite sum_sizes_app, collapse_sum, sort_sum.
  destruct H as [H1 H2]; [constructor; [unfold Ref.well_formed; lia|constructor]|].
  unfold Difflib.size_of in *. simpl in *. lia.
Qed.

End SimilarityRange.

Section SimilarityOfDuplicates.

Lemma ratio_range (code1 code2 : string) :
  (0 <= Difflib.ratio code1 code2)%Q /\ (Difflib.ratio code1 code2 <= 1)%Q.
Proof.
  unfold Difflib.ratio, Difflib.calculate_ratio.
  destruct (matches_bound (Difflib.seq_of code1) (Difflib.seq_of code2)) as [Ha Hb].
  set (m := Difflib.matches _ _) in *.
  destruct (length (Difflib.seq_of code1) + length (Difflib.seq_of code2))%nat
    as [|n] eqn:Hn; [split; lra|].
  unfold Qle. cbn [Qnum Qden].
  rewrite <- (positive_nat_Z (Pos.of_nat (S n))), Nat2Pos.id by discriminate.
  split; lia.
Qed.

(** X13.  The similarity of two texts lies between 0 and 1; it is 0 when
    exactly one of them is empty.  So the similarity recorded with a
    duplicate, a percentage, lies between 75 and 100. *)
Theorem X13_similarity_range :
  (forall code1 code2,
      (0 <= DuplicateCodeDetector._calculate_similarity code1 code2)%Q
      /\ (DuplicateCodeDetector._calculate_similarity code1 code2 <= 1)%Q)
  /\ (forall code,
         code <> EmptyString ->
         (DuplicateCodeDetector._calculate_similarity EmptyString code == 0)%Q
         /\ (DuplicateCodeDetector._calculate_similarity code EmptyString == 0)%Q)
  /\ (forall d dup,
         In dup (DuplicateCodeDetector.duplicates (DuplicateCodeDetector.detect d)) ->
         (75 <= DuplicateCodeDetector.similarity dup)%Q
         /\ (DuplicateCodeDetector.similarity dup <= 100)%Q).
Proof.
  split; [exact ratio_range|]. split.
  - intros code Hcode.
    assert (Hlen : (0 < length (Difflib.seq_of code))%nat).
    { destruct code; [congruence|]. simpl. lia. }
    unfold DuplicateCodeDetector._calculate_similarity, Difflib.ratio,
      Difflib.calculate_ratio.
    split.
    + destruct (matches_bound (Difflib.seq_of EmptyString) (Difflib.seq_of code))
        as [Ha _].
      change (Difflib.seq_of EmptyString) with (@nil ascii) in *.
      simpl length in *.
      assert (Hm : Difflib.matches [] (Difflib.seq_of code) = 0%nat) by lia.
      rewrite Hm.
      destruct (length (Difflib.seq_of code)) as [|n]; [lia|]. reflexivity.
    + destruct (matches_bound (Difflib.seq_of code) (Difflib.seq_of EmptyString))
        as [_ Hb].
      change (Difflib.seq_of EmptyString) with (@nil ascii) in *.
      simpl length in *.
      assert (Hm : Difflib.matches (Difflib.seq_of code) [] = 0%nat) by lia.
      rewrite Hm, Nat.add_0_r.
      destruct (length (Difflib.seq_of code)) as [|n]; [lia|]. reflexivity.
  - intros d dup Hdup. rewrite detect_duplicates in Hdup.
    apply in_flat_map in Hdup as [p [Hp Hdup]].
    unfold Ref.recorded_pairs in Hp. apply filter_In in Hp as [_ Hsim].
    unfold Ref.similar in Hsim. unfold Ref.duplicate_of in Hdup.
    destruct (nth_error (Ref.candidates d) (fst p)) as [fi|]; [|destruct Hdup].
    destruct (nth_error (Ref.candidates d) (snd p)) as [fj|]; [|destruct Hdup].
    destruct Hdup as [<-|[]]. cbn [DuplicateCodeDetector.similarity].
    apply Qle_bool_iff in Hsim.
    destruct (ratio_range (DuplicateCodeDetector.normalized fi)
                (DuplicateCodeDetector.normalized fj)) as [Hzero Hone].
    unfold DuplicateCodeDetector._calculate_similarity in *.
    destruct (double_unit _ Hzero Hone) as [_ Hsim1].
    set (sim := Py.double _) in *. clearbody sim.
    assert (Hproduct : (75 <= Py.fmul sim 100)%Q /\ (Py.fmul sim 100 <= 100)%Q).
    { unfold Py.fmul.
      apply (double_between 75 100); try (vm_compute; reflexivity); lra. }
    destruct Hproduct as [Hp0 Hp1].
    split; [apply (round1_ge 75)|apply (round1_le 100)]; assumption.
Qed.

End SimilarityOfDuplicates.

Lemma X13_witness :
  let d := DuplicateCodeDetector.init Examples.pf_examples
             Examples.three_functions_text 3 in
  exists dup,
    DuplicateCodeDetector.duplicates (DuplicateCodeDetector.detect d) = [dup]
    /\ (75 <= DuplicateCodeDetector.similarity dup)%Q
    /\ (DuplicateCodeDetector.similarity dup <= 100)%Q.
Proof.
  intro d. eexists. split; [vm_compute; reflexivity|].
  apply (proj2 (proj2 X13_similarity_range) d). vm_compute. left. reflexivity.
Defined.

(** ** Range of the duplication percentage *)

Section DuplicationRange.

Lemma duplicate_names_are_candidates (fs : list DuplicateCodeDetector.candidate)
    (ps : list (nat * nat)) (x : string) :
  In x (flat_map (fun d => [DuplicateCodeDetector.function1 d;
                            DuplicateCodeDetector.function2 d])
          (flat_map (Ref.duplicate_of fs) ps)) ->
  In x (map DuplicateCodeDetector.cand_name fs).
Proof.
  intro Hx. apply in_flat_map in Hx as [dup [Hdup Hx]].
  apply in_flat_map in Hdup as [p [_ Hdup]].
  unfold Ref.duplicate_of in Hdup.
  destruct (nth_error fs (fst p)) as [fi|] eqn:Ei; [|destruct Hdup].
  destruct (nth_error fs (snd p)) as [fj|] eqn:Ej; [|destruct Hdup].
  destruct Hdup as [<-|[]]. simpl in Hx.
  destruct Hx as [<-|[<-|[]]]; apply in_map; eapply nth_error_In; eassumption.
Qed.

Lemma names_in_length (dups : list DuplicateCodeDetector.duplicate) :
  (length (Ref.names_in dups) <= 2 * length dups)%nat.
Proof.
  unfold Ref.names_in.
  etransitivity; [apply NoDup_incl_length; [apply NoDup_nodup|]|].
  - intros x Hx. apply nodup_In in Hx. exact Hx.
  - induction dups as [|d dups IH]; simpl; lia.
Qed.

Lemma raw_percent_range (names n : nat) :
  (names <= n)%nat ->
  (0 <= Ref.raw_percent names n)%Q /\ (Ref.raw_percent names n <= 100)%Q.
Proof.
  intro H. unfold Ref.raw_percent.
  destruct (truediv_unit (Z.of_nat names) (Z.of_nat (Nat.max n 1))) as [H0 H1];
    [lia|lia|].
  now apply fmul_percent.
Qed.

Lemma raw_percent_zero (n : nat) : (Ref.raw_percent 0 n == 0)%Q.
Proof.
  unfold Ref.raw_percent. apply fmul_zero.
  change (Z.of_nat 0) with 0. apply truediv_zero.
Qed.

(** X14.  The reported duplication percentage lies between 0 and 100:
    the names in the recorded pairs are names of candidates, so there are
    no more of them than candidates, and no more than twice the number of
    pairs.  The severity is [none] exactly when no pair is recorded, and
    then the percentage is 0.0. *)
Theorem X14_duplication_percent_range (d : DuplicateCodeDetector.detector) :
  let r := DuplicateCodeDetector.detect d in
  (0 <= DuplicateCodeDetector.duplication_percent r)%Q
  /\ (DuplicateCodeDetector.duplication_percent r <= 100)%Q
  /\ (length (Ref.names_in (DuplicateCodeDetector.duplicates r))
      <= length (Ref.candidates d))%nat
  /\ (length (Ref.names_in (DuplicateCodeDetector.duplicates r))
      <= 2 * length (DuplicateCodeDetector.duplicates r))%nat
  /\ (DuplicateCodeDetector.severity r = "none"
      <-> DuplicateCodeDetector.duplicate_pairs r = 0)
  /\ (DuplicateCodeDetector.duplicate_pairs r = 0 ->
      (DuplicateCodeDetector.duplication_percent r == 0)%Q).
Proof.
  intro r. destruct (detect_percent d) as (Hpairs & Hpercent & Hseverity).
  fold r in Hpairs, Hpercent, Hseverity.
  assert (Hnames : (length (Ref.names_in (DuplicateCodeDetector.duplicates r))
                    <= length (Ref.candidates d))%nat).
  { unfold r. rewrite detect_duplicates.
    rewrite <- (length_map DuplicateCodeDetector.cand_name (Ref.candidates d)).
    apply NoDup_incl_length; [apply NoDup_nodup|].
    intros x Hx. apply nodup_In in Hx.
    exact (duplicate_names_are_candidates _ _ x Hx). }
  set (names := length (Ref.names_in (DuplicateCodeDetector.duplicates r))) in *.
  set (n := length (Ref.candidates d)) in *.
  assert (Hraw : (0 <= Ref.raw_percent names n)%Q /\ (Ref.raw_percent names n <= 100)%Q).
  { apply raw_percent_range. exact Hnames. }
  destruct Hraw as [Hlo Hhi].
  split; [rewrite Hpercent; apply (round1_ge 0); exact Hlo|].
  split; [rewrite Hpercent; apply (round1_le 100); exact Hhi|].
  split; [exact Hnames|]. split; [apply names_in_length|].
  split.
  - rewrite Hseverity. unfold DuplicateCodeDetector._calculate_severity.
    destruct (Z.eqb_spec (DuplicateCodeDetector.duplicate_pairs r) 0) as [H0|H0];
      [tauto|].
    split; [|tauto].
    destruct (_ && _); [discriminate|]. destruct (_ || _); discriminate.
  - intro H0. rewrite Hpercent.
    assert (Hzero : names = 0%nat).
    { pose proof (names_in_length (DuplicateCodeDetector.duplicates r)).
      unfold names. lia. }
    rewrite Hzero. pose proof (raw_percent_zero n) as Hraw0.
    apply Qeq_between; [apply (round1_ge 0)|apply (round1_le 0)];
      change (inject_Z 0) with 0%Q; rewrite Hraw0; apply Qle_refl.
Qed.

End DuplicationRange.

(** ** The progress bar *)

Section ProgressBar.

Lemma int_of_float_range (q : Q) (w : Z) :
  (0 <= q)%Q -> (q <= inject_Z w)%Q ->
  0 <= ReportGenerator.int_of_float q <= w.
Proof.
  intros Hlo Hhi. unfold ReportGenerator.int_of_float.
  destruct q as [num den]. unfold Qle in *. simpl in *.
  assert (Hnum : 0 <= num) by lia.
  rewrite Z.quot_div_nonneg by lia.
  split; [apply Z.div_pos; lia|].
  apply Z.div_le_upper_bound; lia.
Qed.

Lemma progress_bar_in_range (value max_value : Q) (width : Z) :
  (0 < max_value)%Q -> (0 <= value)%Q -> (value <= max_value)%Q -> 0 <= width ->
  exists filled,
    0 <= filled <= width
    /\ ReportGenerator._progress_bar value max_value width
       = Some ([ReportGenerator.left_bracket]
               ++ ReportGenerator.times ReportGenerator.full_block filled
               ++ ReportGenerator.times ReportGenerator.light_shade (width - filled)
               ++ [ReportGenerator.right_bracket])
    /\ forall bar,
         ReportGenerator._progress_bar value max_value width = Some bar ->
         Z.of_nat (length bar) = width + 2.
Proof.
  intros Hmax Hlo Hhi Hw.
  set (filled := ReportGenerator.int_of_float (value / max_value * inject_Z width)).
  assert (Hratio : (0 <= value / max_value)%Q /\ (value / max_value <= 1)%Q).
  { split; [apply Qle_shift_div_l|apply Qle_shift_div_r]; try exact Hmax; lra. }
  destruct Hratio as [Hr0 Hr1].
  assert (Hwq : (0 <= inject_Z width)%Q) by (rewrite <- (Zle_Qle 0); exact Hw).
  assert (Hf : 0 <= filled <= width).
  { apply int_of_float_range.
    - apply Qmult_le_0_compat; assumption.
    - rewrite <- (Qmult_1_l (inject_Z width)) at 2.
      apply Qmult_le_compat_r; assumption. }
  assert (Hbar : ReportGenerator._progress_bar value max_value width
                 = Some ([ReportGenerator.left_bracket]
                         ++ ReportGenerator.times ReportGenerator.full_block filled
                         ++ ReportGenerator.times ReportGenerator.light_shade
                              (width - filled)
                         ++ [ReportGenerator.right_bracket])).
  { unfold ReportGenerator._progress_bar.
    destruct (Qeq_bool max_value 0) eqn:E; [|reflexivity].
    apply Qeq_bool_iff in E. rewrite E in Hmax. now apply Qlt_irrefl in Hmax. }
  exists filled. split; [exact Hf|]. split; [exact Hbar|].
  intros bar Hsome. rewrite Hbar in Hsome. injection Hsome as <-.
  unfold ReportGenerator.times.
  cbn [length app]. rewrite !length_app, !repeat_length. cbn [length]. lia.
Qed.

(** X15.  For a value between 0 and a positive maximum, the progress bar
    has exactly [width] cells between its brackets, the filled ones
    first; a maximum of 0 raises [ZeroDivisionError].  The six bars of
    the text report of every report [analyze] returns have 20 cells each,
    whether the text parses or not. *)
Theorem X15_progress_bar_width :
  (forall value max_value width,
      (0 < max_value)%Q -> (0 <= value)%Q -> (value <= max_value)%Q -> 0 <= width ->
      exists filled,
        0 <= filled <= width
        /\ ReportGenerator._progress_bar value max_value width
           = Some ([ReportGenerator.left_bracket]
                   ++ ReportGenerator.times ReportGenerator.full_block filled
                   ++ ReportGenerator.times ReportGenerator.light_shade (width - filled)
                   ++ [ReportGenerator.right_bracket])
        /\ forall bar,
             ReportGenerator._progress_bar value max_value width = Some bar ->
             Z.of_nat (length bar) = width + 2)
  /\ (forall value max_value width,
         (max_value == 0)%Q ->
         ReportGenerator._progress_bar value max_value width = None)
  /\ (forall pf code filename r,
         CodeMetrics.analyze pf (CodeMetrics.init pf code filename) = Py.Returned r ->
         Forall (fun bar => exists cells, bar = Some cells /\ length cells = 22%nat)
           (ReportGenerator.breakdown_bars
              (CodeMetrics.score_breakdown (CodeMetrics.overall_score r)))).
Proof.
  split; [exact progress_bar_in_range|]. split.
  { intros value max_value width H0. unfold ReportGenerator._progress_bar.
    apply Qeq_bool_iff in H0. now rewrite H0. }
  intros pf code filename r Hr.
  assert (Hbar : forall value max_value,
             (0 < max_value)%Q -> (0 <= value)%Q -> (value <= max_value)%Q ->
             exists cells,
               ReportGenerator._progress_bar value max_value 20 = Some cells
               /\ length cells = 22%nat).
  { intros value max_value Hm H0 H1.
    destruct (progress_bar_in_range value max_value 20 Hm H0 H1 ltac:(lia))
      as (filled & _ & Hsome & Hlen).
    eexists. split; [exact Hsome|]. specialize (Hlen _ Hsome). lia. }
  destruct (parse_or_none_cases pf code) as [[Hnone _]|[t [_ Hparse]]].
  - unfold CodeMetrics.analyze, CodeMetrics.init in Hr. simpl in Hr.
    rewrite Hnone in Hr. injection Hr as <-.
    unfold ReportGenerator.breakdown_bars.
    repeat (apply Forall_cons; [apply Hbar; simpl; lra|]). apply Forall_nil.
  - rewrite (analyze_parsed pf code filename t Hparse) in Hr.
    injection Hr as <-. cbv zeta. cbn [CodeMetrics.overall_score].
    match goal with
    | |- context [CodeMetrics._calculate_score ?m] => set (ms := m)
    end.
    destruct (score_bounds ms) as (_ & Hd & Hc & Hs & Hst & Hdu & Ht);
      [apply docstring_coverage_range|apply docstring_coverage_range|].
    cbv zeta in Hd, Hc, Hs, Hst, Hdu, Ht.
    unfold ReportGenerator.breakdown_bars.
    repeat (apply Forall_cons; [apply Hbar; lra|]). apply Forall_nil.
Qed.

End ProgressBar.

Lemma X14_witness :
  let r := DuplicateCodeDetector.detect
             (DuplicateCodeDetector.init MoreExamples.pf_more Examples.tested_text 3) in
  DuplicateCodeDetector.duplicate_pairs r = 0
  /\ (DuplicateCodeDetector.duplication_percent r == 0)%Q.
Proof.
  intro r. split; [reflexivity|].
  apply (X14_duplication_percent_range
           (DuplicateCodeDetector.init MoreExamples.pf_more Examples.tested_text 3)).
  reflexivity.
Defined.

Lemma X15_witness :
  exists filled,
    0 <= filled <= 20
    /\ ReportGenerator._progress_bar (75 # 10) 15 20
       = Some ([ReportGenerator.left_bracket]
               ++ ReportGenerator.times ReportGenerator.full_block filled
               ++ ReportGenerator.times ReportGenerator.light_shade (20 - filled)
               ++ [ReportGenerator.right_bracket]).
Proof.
  destruct (proj1 X15_progress_bar_width (75 # 10)%Q 15%Q 20)
    as (filled & Hrange & Hbar & _); try reflexivity; try discriminate.
  exists filled. split; assumption.
Defined.

(** ** The recommendations of the reports *)

Section Recommendations.

Lemma no_complex_average (t : Ast.node) :
  CodeMetrics.complex_functions (CodeMetrics._function_complexity t) = [] ->
  (CodeMetrics.average (CodeMetrics._function_complexity t) <= 10)%Q.
Proof.
  unfold CodeMetrics._function_complexity.
  destruct (CodeMetrics.non_test_functions t) as [|f0 rest].
  { intros _. simpl. unfold Qle. simpl. lia. }
  rewrite function_fold, !app_nil_l.
  set (fs := f0 :: rest).
  cbn [CodeMetrics.average CodeMetrics.complex_functions].
  intro Hnil. apply map_eq_nil in Hnil.
  unfold Py.sum. rewrite sum_fold, Z.add_0_l.
  apply (round1_le 10), mean_le; [simpl length; lia|].
  apply sum_le. intros x Hx. apply in_map_iff in Hx as [f [<- Hf]].
  destruct (Z.ltb_spec 10 (CodeMetrics._calculate_complexity f)) as [Hgt|Hle];
    [|exact Hle].
  assert (Hin : In f (filter (fun f => 10 <? CodeMetrics._calculate_complexity f) fs)).
  { apply filter_In. split; [exact Hf|]. now apply Z.ltb_lt. }
  rewrite Hnil in Hin. destruct Hin.
Qed.

Lemma no_pairs_no_percent (d : DuplicateCodeDetector.detector) :
  DuplicateCodeDetector.duplicate_pairs (DuplicateCodeDetector.detect d) <= 0 ->
  (DuplicateCodeDetector.duplication_percent (DuplicateCodeDetector.detect d) == 0)%Q.
Proof.
  intro H0. destruct (detect_percent d) as (Hpairs & Hpercent & _).
  cbv zeta in Hpercent. rewrite Hpercent.
  pose proof (names_in_length
                (DuplicateCodeDetector.duplicates (DuplicateCodeDetector.detect d)))
    as Hnames.
  assert (Hzero : length (Ref.names_in (DuplicateCodeDetector.duplicates
                                          (DuplicateCodeDetector.detect d))) = 0%nat)
    by lia.
  rewrite Hzero.
  pose proof (raw_percent_zero
                (length (Ref.candidates d))) as Hraw0.
  apply Qeq_between; [apply (round1_ge 0)|apply (round1_le 0)];
    change (inject_Z 0) with 0%Q; rewrite Hraw0; apply Qle_refl.
Qed.

Lemma tests_are_functions (l : list Ast.node) :
  existsb CoverageAnalyzer.is_test (map Ref.function_entry_of l) = true ->
  (1 <= length l)%nat.
Proof.
  destruct l; [discriminate|]. simpl. lia.
Qed.

Ltac convert_tests :=
  repeat match goal with
         | H : Qle_bool _ _ = true |- _ => apply Qle_bool_iff in H
         | H : Qle_bool _ _ = false |- _ => apply Qle_bool_false_lt in H
         | H : (_ <? _) = true |- _ => apply Z.ltb_lt in H
         | H : (_ <? _) = false |- _ => apply Z.ltb_ge in H
         end.

Lemma recommendations_cases (r : CodeMetrics.report) :
  let m := CodeMetrics.metrics r in
  let recs := ReportGenerator._generate_recommendations r in
  (1 <= length recs <= 5)%nat
  /\ (In ReportGenerator.ExcellentQuality recs
      <-> recs = [ReportGenerator.ExcellentQuality])
  /\ (recs = [ReportGenerator.ExcellentQuality]
      <-> (80 <= CodeMetrics.coverage_percent (CodeMetrics.docstrings m))%Q
          /\ CodeMetrics.complex_functions (CodeMetrics.complexity m) = []
          /\ DuplicateCodeDetector.duplicate_pairs (CodeMetrics.duplication m) <= 0
          /\ ReportGenerator.coverage_get_has_tests (CodeMetrics.coverage m) = true
          /\ (80 <= CodeMetrics.get_coverage_estimate (CodeMetrics.coverage m))%Q
          /\ CodeMetrics.issues_count (CodeMetrics.code_style m) <= 0).
Proof.
  cbv zeta. unfold ReportGenerator._generate_recommendations. cbv zeta.
  destruct (Qle_bool 80 (CodeMetrics.coverage_percent _)) eqn:Ed;
    destruct (CodeMetrics.complex_functions _) as [|cf cfs];
    destruct (0 <? DuplicateCodeDetector.duplicate_pairs _) eqn:Ep;
    destruct (ReportGenerator.coverage_get_has_tests _);
    destruct (Qle_bool 80 (CodeMetrics.get_coverage_estimate _)) eqn:Ec;
    destruct (0 <? CodeMetrics.issues_count _) eqn:Ei;
    convert_tests; cbn [negb app length In];
    (split; [lia|]);
    (split;
     [split; [intuition congruence|intro H; first [discriminate H|now left]]|]);
    (split;
     [intro H;
      first [discriminate H
            |repeat split; first [assumption|reflexivity|lia|lra]]
     |intros (H1 & H2 & H3 & H4 & H5 & H6);
      first [reflexivity|exfalso; first [lra|lia|congruence]]]).
Qed.

(** X16.  The recommendations of the text and Markdown reports are one
    to five; the message of excellent quality stands alone, and is given
    exactly when the docstring coverage is at least 80, no function is
    complex, no duplicate pair is recorded, there are tests, the coverage
    estimate is at least 80 and there is no style issue.  For a report
    [analyze] returns this implies that the text has a function, that the
    total is at least 87 and that the grade is A or B. *)
Theorem X16_excellent_quality :
  (forall r,
      let m := CodeMetrics.metrics r in
      let recs := ReportGenerator._generate_recommendations r in
      (1 <= length recs <= 5)%nat
      /\ (In ReportGenerator.ExcellentQuality recs
          <-> recs = [ReportGenerator.ExcellentQuality])
      /\ (recs = [ReportGenerator.ExcellentQuality]
          <-> (80 <= CodeMetrics.coverage_percent (CodeMetrics.docstrings m))%Q
              /\ CodeMetrics.complex_functions (CodeMetrics.complexity m) = []
              /\ DuplicateCodeDetector.duplicate_pairs (CodeMetrics.duplication m) <= 0
              /\ ReportGenerator.coverage_get_has_tests (CodeMetrics.coverage m) = true
              /\ (80 <= CodeMetrics.get_coverage_estimate (CodeMetrics.coverage m))%Q
              /\ CodeMetrics.issues_count (CodeMetrics.code_style m) <= 0))
  /\ (forall pf code filename r,
         CodeMetrics.analyze pf (CodeMetrics.init pf code filename) = Py.Returned r ->
         ReportGenerator._generate_recommendations r
         = [ReportGenerator.ExcellentQuality] ->
         1 <= CodeMetrics.count (CodeMetrics.functions (CodeMetrics.metrics r))
         /\ (87 <= CodeMetrics.total (CodeMetrics.overall_score r))%Q
         /\ (CodeMetrics.letter_grade (CodeMetrics.overall_score r) = "A"
             \/ CodeMetrics.letter_grade (CodeMetrics.overall_score r) = "B")).
Proof.
  split; [exact recommendations_cases|].
  intros pf code filename r Hr Hrecs.
  apply recommendations_cases in Hrecs.
  destruct Hrecs as (Hdoc & Hcomplex & Hpairs & Htests & Hcov & Hstyle).
  destruct (parse_or_none_cases pf code) as [[Hnone _]|[t [_ Hparse]]].
  { unfold CodeMetrics.analyze, CodeMetrics.init in Hr. simpl in Hr.
    rewrite Hnone in Hr. injection Hr as <-. discriminate Htests. }
  rewrite (analyze_parsed pf code filename t Hparse) in Hr.
  injection Hr as <-. cbv zeta in *.
  cbn [CodeMetrics.metrics CodeMetrics.overall_score CodeMetrics.docstrings
       CodeMetrics.complexity CodeMetrics.duplication CodeMetrics.coverage
       CodeMetrics.code_style CodeMetrics.functions] in *.
  apply no_complex_average in Hcomplex.
  unfold CodeMetrics._check_duplication in Hpairs.
  cbn [CodeMetrics.code CodeMetrics.init] in Hpairs.
  rewrite detector_analyze_detect in Hpairs.
  apply no_pairs_no_percent in Hpairs. apply Qeq_bool_iff in Hpairs.
  assert (Hcount : 1 <= CodeMetrics.count (CodeMetrics._function_info t)).
  { unfold ReportGenerator.coverage_get_has_tests in Htests.
    cbn [CoverageAnalyzer.analyze CoverageAnalyzer.has_tests] in Htests.
    unfold CoverageAnalyzer.check_test_presence,
      CoverageAnalyzer._check_test_file_exists in Htests.
    cbn [CoverageAnalyzer.filepath CoverageAnalyzer.functions] in Htests.
    change (negb (Py.truthy "code.py") || String.eqb "code.py" "code.py")
      with true in Htests.
    rewrite orb_false_r in Htests.
    apply tests_are_functions in Htests.
    unfold CodeMetrics._function_info. cbn [CodeMetrics.count]. lia. }
  split; [exact Hcount|].
  unfold CodeMetrics._calculate_score. cbv zeta.
  cbn [CodeMetrics.total CodeMetrics.letter_grade CodeMetrics.docstrings
       CodeMetrics.complexity CodeMetrics.duplication CodeMetrics.coverage
       CodeMetrics.code_style CodeMetrics.functions CodeMetrics.code_lines].
  unfold CodeMetrics._check_duplication.
  cbn [CodeMetrics.code CodeMetrics.init].
  rewrite detector_analyze_detect, Hpairs.
  cbn [CodeMetrics.get_coverage_estimate] in Hcov |- *.
  apply Qle_bool_iff in Hcov. rewrite Hcov. apply Qle_bool_iff in Hcov.
  destruct (Z.eqb_spec (CodeMetrics.issues_count (CodeMetrics._check_code_style t)) 0)
    as [_|Hne];
    [|unfold CodeMetrics._check_code_style in Hne, Hstyle;
      cbn [CodeMetrics.issues_count] in Hne, Hstyle; lia].
  destruct (Z.eqb_spec (CodeMetrics.count (CodeMetrics._function_info t)) 0)
    as [H0|_]; [lia|].
  match goal with
  | |- (87 <= Py.round1 ?x)%Q /\ _ =>
      assert (Htotal : (87 <= Py.round1 x)%Q); [|set (total := Py.round1 x) in *]
  end.
  { apply (round1_ge 87). change (inject_Z 87) with 87%Q.
    assert (Hstructure :
              (10 <= inject_Z
                       (Z.max 0
                          (if 500 <? CodeMetrics._count_code_lines
                                       (CodeMetrics.init pf code filename)
                           then 15 - 5 else 15)))%Q).
    { destruct (500 <? _); unfold Qle; simpl; lia. }
    set (structure := inject_Z _) in *. clearbody structure.
    set (c := CodeMetrics.coverage_percent (CodeMetrics._check_docstrings t)) in *.
    pose proof (doc_score_from_80 c Hdoc) as Hd.
    set (doc_score := Py.fmul _ 15) in *. clearbody doc_score.
    set (avg := CodeMetrics.average (CodeMetrics._function_complexity t)) in *.
    assert (Hcs : (15 <= (if Qle_bool avg 5 then 20
                          else if Qle_bool avg 10 then 15
                               else if Qle_bool avg 15 then 10 else 5))%Q).
    { destruct (Qle_bool avg 5); [lra|].
      destruct (Qle_bool avg 10) eqn:E10; [lra|].
      apply Qle_bool_false_lt in E10. lra. }
    set (complexity_score := if Qle_bool avg 5 then _ else _) in *.
    clearbody complexity_score.
    assert (H1 : (27 <= Py.fadd doc_score complexity_score)%Q)
      by (apply fadd_ge; [vm_compute; reflexivity|lra]).
    set (s1 := Py.fadd doc_score complexity_score) in *.
    assert (H2 : (47 <= Py.fadd s1 20)%Q)
      by (apply fadd_ge; [vm_compute; reflexivity|lra]).
    set (s2 := Py.fadd s1 20) in *.
    assert (H3 : (57 <= Py.fadd s2 structure)%Q)
      by (apply fadd_ge; [vm_compute; reflexivity|lra]).
    set (s3 := Py.fadd s2 structure) in *.
    assert (H4 : (72 <= Py.fadd s3 15)%Q)
      by (apply fadd_ge; [vm_compute; reflexivity|lra]).
    set (s4 := Py.fadd s3 15) in *.
    apply fadd_ge; [vm_compute; reflexivity|lra]. }
  split; [exact Htotal|].
  destruct (grade_of_spec total) as (HA & HB & _).
  destruct (Qlt_le_dec total 90) as [Hlt|Hge]; [right|left]; [apply HB|apply HA];
    try assumption; lra.
Qed.

(** X17.  The web page gives one to five recommendations, never more
    than the text report and at most one fewer.  It says that the quality
    is excellent whenever the text report does, and also when the only
    recommendation of the text report is to increase a test coverage that
    is below 80. *)
Theorem X17_web_recommendations (r : CodeMetrics.report) :
  let web := WebApp.generate_recommendations r in
  let cli := ReportGenerator._generate_recommendations r in
  (1 <= length web <= 5)%nat
  /\ (length web <= length cli <= length web + 1)%nat
  /\ (web = [WebApp.ExcellentQuality]
      <-> cli = [ReportGenerator.ExcellentQuality]
          \/ cli = [ReportGenerator.IncreaseCoverage
                      (CodeMetrics.get_coverage_estimate
                         (CodeMetrics.coverage (CodeMetrics.metrics r)))]).
Proof.
  cbv zeta.
  unfold WebApp.generate_recommendations, ReportGenerator._generate_recommendations.
  cbv zeta.
  destruct (Qle_bool 80 (CodeMetrics.coverage_percent _));
    destruct (CodeMetrics.complex_functions _) as [|cf cfs];
    destruct (0 <? DuplicateCodeDetector.duplicate_pairs _);
    destruct (ReportGenerator.coverage_get_has_tests _);
    destruct (Qle_bool 80 (CodeMetrics.get_coverage_estimate _));
    destruct (0 <? CodeMetrics.issues_count _);
    cbn [negb app length];
    (split; [lia|]); (split; [lia|]);
    (split;
     [intro H; first [discriminate H|now left|now right]
     |intros [H|H]; first [discriminate H|reflexivity]]).
Qed.

End Recommendations.

Lemma X16_witness :
  exists r,
    CodeMetrics.analyze MoreExamples.pf_more
      (CodeMetrics.init MoreExamples.pf_more MoreExamples.documented_text "code.py")
    = Py.Returned r
    /\ ReportGenerator._generate_recommendations r
       = [ReportGenerator.ExcellentQuality]
    /\ (87 <= CodeMetrics.total (CodeMetrics.overall_score r))%Q.
Proof.
  eexists. split; [vm_compute; reflexivity|]. split; [vm_compute; reflexivity|].
  apply (proj2 X16_excellent_quality MoreExamples.pf_more
           MoreExamples.documented_text "code.py");
    vm_compute; reflexivity.
Defined.

Lemma X17_witness :
  exists r,
    CodeMetrics.analyze MoreExamples.pf_more
      (CodeMetrics.init MoreExamples.pf_more MoreExamples.documented_text "code.py")
    = Py.Returned r
    /\ WebApp.generate_recommendations r = [WebApp.ExcellentQuality].
Proof.
  eexists. split; [vm_compute; reflexivity|].
  apply (proj2 (proj2 (X17_web_recommendations _))). left.
  vm_compute. reflexivity.
Defined.

(** ** Grade, label and colour; the line of test functions *)

Section Presentation.

(** X18.  For every report [analyze] returns, the letter grade, the
    label the web page derives from the total and the colour it derives
    from the grade are one of five matching triples; the default colour
    is never shown. *)
Theorem X18_grade_label_colour (pf : platform) (code filename : string)
    (r : CodeMetrics.report) :
  CodeMetrics.analyze pf (CodeMetrics.init pf code filename) = Py.Returned r ->
  let s := CodeMetrics.overall_score r in
  let grade := CodeMetrics.letter_grade s in
  let label := WebApp.get_quality_label (CodeMetrics.total s) in
  let colour := WebApp.get_grade_color grade in
  (grade = "A" /\ label = WebApp.label_excellent /\ colour = "#28a745")
  \/ (grade = "B" /\ label = WebApp.label_good /\ colour = "#5cb85c")
  \/ (grade = "C" /\ label = WebApp.label_average /\ colour = "#ffc107")
  \/ (grade = "D" /\ label = WebApp.label_below_average /\ colour = "#fd7e14")
  \/ (grade = "F" /\ label = WebApp.label_poor /\ colour = "#dc3545").
Proof.
  intro Hr. cbv zeta.
  destruct (parse_or_none_cases pf code) as [[Hnone _]|[t [_ Hparse]]].
  { unfold CodeMetrics.analyze, CodeMetrics.init in Hr. simpl in Hr.
    rewrite Hnone in Hr. injection Hr as <-.
    do 4 right. repeat split. }
  rewrite (analyze_parsed pf code filename t Hparse) in Hr.
  injection Hr as <-. cbv zeta. cbn [CodeMetrics.overall_score].
  unfold CodeMetrics._calculate_score. cbv zeta.
  cbn [CodeMetrics.total CodeMetrics.letter_grade].
  set (total := Py.round1 _).
  unfold CodeMetrics.grade_of, WebApp.get_quality_label.
  destruct (Qle_bool 90 total); [left; repeat split|].
  destruct (Qle_bool 80 total); [right; left; repeat split|].
  destruct (Qle_bool 70 total); [do 2 right; left; repeat split|].
  destruct (Qle_bool 60 total); [do 3 right; left; repeat split|].
  do 4 right. repeat split.
Qed.

Lemma existsb_filter {A : Type} (p : A -> bool) (l : list A) :
  existsb p l = true <-> (0 < length (filter p l))%nat.
Proof.
  induction l as [|x l IH]; simpl; [split; [discriminate|lia]|].
  destruct (p x); simpl; [split; [lia|reflexivity]|exact IH].
Qed.

Lemma filter_tests (l : list Ast.node) :
  length (filter CoverageAnalyzer.is_test (map Ref.function_entry_of l))
  = length (filter (fun n => Py.startswith (Ast.name n) "test_") l).
Proof.
  induction l as [|n l IH]; simpl; [reflexivity|].
  destruct (Py.startswith (Ast.name n) "test_"); simpl; now rewrite IH.
Qed.

(** X19.  The line [Test Functions] of the text report reads the key
    [test_functions], which the coverage part of a report [analyze]
    returns does not have: the line shows 0 for every text.  The number
    of test functions is under [test_count]: the function definitions of
    the walk whose name starts with [test_], and [has_tests] holds
    exactly when it is positive. *)
Theorem X19_test_functions_line (pf : platform) (code filename : string)
    (r : CodeMetrics.report) :
  CodeMetrics.analyze pf (CodeMetrics.init pf code filename) = Py.Returned r ->
  ReportGenerator.coverage_get_test_functions
    (CodeMetrics.coverage (CodeMetrics.metrics r)) = 0
  /\ (forall t,
         ast_parse pf code = Py.Returned t ->
         exists c,
           CodeMetrics.coverage (CodeMetrics.metrics r) = CodeMetrics.CoverageOf c
           /\ CoverageAnalyzer.test_count c
              = Z.of_nat
                  (length
                     (filter (fun n => Ast.is_FunctionDef n
                                       && Py.startswith (Ast.name n) "test_")
                        (Ast.walk t)))
           /\ (CoverageAnalyzer.has_tests c = true
               <-> 0 < CoverageAnalyzer.test_count c)).
Proof.
  intro Hr.
  destruct (parse_or_none_cases pf code) as [[Hnone Hraised]|[t [_ Hparse]]].
  { unfold CodeMetrics.analyze, CodeMetrics.init in Hr. simpl in Hr.
    rewrite Hnone in Hr. injection Hr as <-.
    split; [reflexivity|]. intros t Ht. congruence. }
  rewrite (analyze_parsed pf code filename t Hparse) in Hr.
  injection Hr as <-. cbv zeta. cbn [CodeMetrics.metrics CodeMetrics.coverage].
  split; [reflexivity|].
  intros t' Ht'. assert (t' = t) as -> by congruence.
  eexists. split; [reflexivity|].
  cbn [CoverageAnalyzer.analyze CoverageAnalyzer.test_count
       CoverageAnalyzer.has_tests CoverageAnalyzer.functions].
  unfold CoverageAnalyzer.check_test_presence,
    CoverageAnalyzer._check_test_file_exists.
  cbn [CoverageAnalyzer.filepath CoverageAnalyzer.functions].
  change (negb (Py.truthy "code.py") || String.eqb "code.py" "code.py") with true.
  rewrite orb_false_r, existsb_filter, filter_tests.
  assert (Hfilter :
            filter (fun n => Py.startswith (Ast.name n) "test_")
              (filter Ast.is_FunctionDef (Ast.walk t))
            = filter (fun n => Ast.is_FunctionDef n
                               && Py.startswith (Ast.name n) "test_")
                (Ast.walk t)).
  { induction (Ast.walk t) as [|n l IH]; simpl; [reflexivity|].
    destruct (Ast.is_FunctionDef n); simpl; [|exact IH].
    destruct (Py.startswith (Ast.name n) "test_"); now rewrite IH. }
  rewrite Hfilter. split; [reflexivity|]. lia.
Qed.

End Presentation.

Lemma X18_witness :
  exists r,
    CodeMetrics.analyze MoreExamples.pf_more
      (CodeMetrics.init MoreExamples.pf_more MoreExamples.documented_text "code.py")
    = Py.Returned r
    /\ CodeMetrics.letter_grade (CodeMetrics.overall_score r) = "A"
    /\ WebApp.get_quality_label (CodeMetrics.total (CodeMetrics.overall_score r))
       = WebApp.label_excellent.
Proof.
  eexists. split; [vm_compute; reflexivity|].
  match goal with
  | |- context [CodeMetrics.overall_score ?r] =>
      destruct (X18_grade_label_colour MoreExamples.pf_more
                  MoreExamples.documented_text "code.py" r)
        as [(Hg & Hl & _)|[(Hg & _)|[(Hg & _)|[(Hg & _)|(Hg & _)]]]];
        [vm_compute; reflexivity|split; [exact Hg|exact Hl]
        |vm_compute in Hg; discriminate Hg..]
  end.
Defined.

Lemma X19_witness :
  exists r c,
    CodeMetrics.analyze MoreExamples.pf_more
      (CodeMetrics.init MoreExamples.pf_more MoreExamples.documented_text "code.py")
    = Py.Returned r
    /\ CodeMetrics.coverage (CodeMetrics.metrics r) = CodeMetrics.CoverageOf c
    /\ CoverageAnalyzer.test_count c = 1
    /\ ReportGenerator.coverage_get_test_functions
         (CodeMetrics.coverage (CodeMetrics.metrics r)) = 0.
Proof.
  eexists. eexists. split; [vm_compute; reflexivity|].
  split; [vm_compute; reflexivity|]. split; [vm_compute; reflexivity|].
  apply (X19_test_functions_line MoreExamples.pf_more
           MoreExamples.documented_text "code.py").
  vm_compute. reflexivity.
Defined.

(** ** Normalisation of a function's text *)

Section Normalisation.

Lemma lower_char_newline (c : ascii) :
  Ascii.eqb (Py.lower_char c) Py.newline = Ascii.eqb c Py.newline.
Proof.
  destruct c as [[] [] [] [] [] [] [] []]; reflexivity.
Qed.

Lemma lower_char_space (c : ascii) : Py.isspace (Py.lower_char c) = Py.isspace c.
Proof.
  destruct c as [[] [] [] [] [] [] [] []]; reflexivity.
Qed.

Lemma lower_char_idempotent (c : ascii) :
  Py.lower_char (Py.lower_char c) = Py.lower_char c.
Proof.
  destruct c as [[] [] [] [] [] [] [] []]; reflexivity.
Qed.

Lemma lower_idempotent (s : string) : Py.lower (Py.lower s) = Py.lower s.
Proof.
  induction s as [|c r IH]; simpl; [reflexivity|].
  now rewrite lower_char_idempotent, IH.
Qed.

Lemma lower_app (a b : string) :
  Py.lower (a ++ b)%string = (Py.lower a ++ Py.lower b)%string.
Proof.
  induction a as [|c r IH]; simpl; [reflexivity|]. now rewrite IH.
Qed.

Lemma lower_join (ls : list string) :
  Py.lower (Py.join_nl ls) = Py.join_nl (map Py.lower ls).
Proof.
  induction ls as [|l ls IH]; [reflexivity|].
  destruct ls as [|l2 ls]; [reflexivity|].
  change (Py.join_nl (l :: l2 :: ls))
    with (l ++ String Py.newline (Py.join_nl (l2 :: ls)))%string.
  change (Py.join_nl (map Py.lower (l :: l2 :: ls)))
    with (Py.lower l
          ++ String Py.newline (Py.join_nl (map Py.lower (l2 :: ls))))%string.
  rewrite lower_app.
  change (Py.lower (String Py.newline (Py.join_nl (l2 :: ls))))
    with (String Py.newline (Py.lower (Py.join_nl (l2 :: ls)))).
  now rewrite IH.
Qed.

Lemma split_lower (s : string) :
  Py.split_nl (Py.lower s) = map Py.lower (Py.split_nl s).
Proof.
  induction s as [|c r IH]; [reflexivity|].
  simpl. rewrite lower_char_newline, IH.
  destruct (Ascii.eqb c Py.newline); [reflexivity|].
  destruct (Py.split_nl r) eqn:E; [now destruct (split_nl_nonempty r)|].
  reflexivity.
Qed.

Lemma lstrip_lower (s : string) : Py.lstrip (Py.lower s) = Py.lower (Py.lstrip s).
Proof.
  induction s as [|c r IH]; [reflexivity|].
  simpl. rewrite lower_char_space. now destruct (Py.isspace c).
Qed.

Lemma rstrip_lower (s : string) : Py.rstrip (Py.lower s) = Py.lower (Py.rstrip s).
Proof.
  induction s as [|c r IH]; [reflexivity|].
  simpl. rewrite IH, lower_char_space.
  destruct (Py.rstrip r); simpl; [now destruct (Py.isspace c)|reflexivity].
Qed.

Lemma strip_lower (s : string) : Py.strip (Py.lower s) = Py.lower (Py.strip s).
Proof.
  unfold Py.strip. now rewrite lstrip_lower, rstrip_lower.
Qed.

Lemma truthy_lower (s : string) : Py.truthy (Py.lower s) = Py.truthy s.
Proof.
  now destruct s.
Qed.

Lemma rstrip_idempotent (s : string) : Py.rstrip (Py.rstrip s) = Py.rstrip s.
Proof.
  induction s as [|c r IH]; [reflexivity|].
  simpl. destruct (Py.rstrip r) as [|d r'] eqn:E.
  - destruct (Py.isspace c) eqn:Ec; [reflexivity|]. simpl. now rewrite Ec.
  - change (Py.rstrip (String c (String d r')))
      with (match Py.rstrip (String d r') with
            | EmptyString =>
                if Py.isspace c then EmptyString else String c EmptyString
            | String _ _ as r'' => String c r''
            end).
    now rewrite IH.
Qed.

Lemma lstrip_head (s : string) :
  Py.lstrip s = EmptyString
  \/ exists c r, Py.lstrip s = String c r /\ Py.isspace c = false.
Proof.
  induction s as [|c r IH]; [now left|].
  simpl. destruct (Py.isspace c) eqn:Ec; [exact IH|].
  right. exists c, r. now split.
Qed.

Lemma rstrip_head (c : ascii) (r : string) :
  Py.isspace c = false -> exists r', Py.rstrip (String c r) = String c r'.
Proof.
  intro Hc. simpl. destruct (Py.rstrip r).
  - rewrite Hc. now exists EmptyString.
  - eexists. reflexivity.
Qed.

Lemma strip_idempotent (s : string) : Py.strip (Py.strip s) = Py.strip s.
Proof.
  unfold Py.strip.
  destruct (lstrip_head s) as [Hs|[c [r [Hs Hc]]]]; rewrite Hs; [reflexivity|].
  destruct (rstrip_head c r Hc) as [r' Hr].
  assert (Hl : Py.lstrip (Py.rstrip (String c r)) = Py.rstrip (String c r)).
  { rewrite Hr. simpl. now rewrite Hc. }
  rewrite Hl. apply rstrip_idempotent.
Qed.

Lemma lstrip_newlines (s : string) :
  (Terms.count_newlines (Py.lstrip s) <= Terms.count_newlines s)%nat.
Proof.
  induction s as [|c r IH]; simpl; [lia|].
  destruct (Py.isspace c); simpl; [|lia].
  destruct (Ascii.eqb c Py.newline); lia.
Qed.

Lemma rstrip_newlines (s : string) :
  (Terms.count_newlines (Py.rstrip s) <= Terms.count_newlines s)%nat.
Proof.
  induction s as [|c r IH]; simpl; [lia|].
  destruct (Py.rstrip r) as [|d r'].
  - destruct (Py.isspace c); simpl; destruct (Ascii.eqb c Py.newline); simpl in *; lia.
  - change (Terms.count_newlines (String c (String d r')))
      with (if Ascii.eqb c Py.newline
            then S (Terms.count_newlines (String d r'))
            else Terms.count_newlines (String d r')).
    destruct (Ascii.eqb c Py.newline); lia.
Qed.

Lemma split_lines_no_newline (s : string) :
  Forall (fun l => Terms.count_newlines l = 0%nat) (Py.split_nl s).
Proof.
  induction s as [|c r IH]; simpl; [constructor; [reflexivity|constructor]|].
  destruct (Ascii.eqb c Py.newline) eqn:Ec; [constructor; [reflexivity|exact IH]|].
  destruct (Py.split_nl r) as [|seg segs].
  - constructor; [simpl; now rewrite Ec|constructor].
  - inversion IH as [|x l Hseg Hsegs]. subst.
    constructor; [|exact Hsegs]. simpl. now rewrite Ec.
Qed.

Lemma split_one_line (l : string) :
  Terms.count_newlines l = 0%nat -> Py.split_nl l = [l].
Proof.
  induction l as [|c r IH]; simpl; [reflexivity|].
  destruct (Ascii.eqb c Py.newline); [discriminate|].
  intro Hr. now rewrite (IH Hr).
Qed.

Lemma split_join (ls : list string) :
  ls <> [] ->
  Forall (fun l => Terms.count_newlines l = 0%nat) ls ->
  Py.split_nl (Py.join_nl ls) = ls.
Proof.
  induction ls as [|l ls IH]; [congruence|].
  intros _ Hall. inversion Hall as [|x xs Hl Hls]. subst.
  destruct ls as [|l2 ls]; [now apply split_one_line|].
  change (Py.join_nl (l :: l2 :: ls))
    with (l ++ String Py.newline (Py.join_nl (l2 :: ls)))%string.
  rewrite split_nl_app, (split_one_line l Hl), IH; [reflexivity|discriminate|exact Hls].
Qed.

(** The lines [_normalize_code] keeps: stripped, not empty, without a
    newline. *)
Lemma kept_lines (code : string) (x : string) :
  In x (map Py.strip (filter (fun line => Py.truthy (Py.strip line))
                        (Py.split_nl code))) ->
  Py.strip x = x /\ Py.truthy x = true /\ Terms.count_newlines x = 0%nat.
Proof.
  intro Hx. apply in_map_iff in Hx as [line [<- Hline]].
  apply filter_In in Hline as [Hline Htruthy].
  split; [apply strip_idempotent|]. split; [exact Htruthy|].
  pose proof (split_lines_no_newline code) as Hall.
  rewrite Forall_forall in Hall. specialize (Hall line Hline).
  unfold Py.strip.
  pose proof (rstrip_newlines (Py.lstrip line)).
  pose proof (lstrip_newlines line). lia.
Qed.

Lemma normalized_lines (code : string) :
  let kept := map Py.strip (filter (fun line => Py.truthy (Py.strip line))
                              (Py.split_nl code)) in
  kept <> [] ->
  Py.split_nl (DuplicateCodeDetector._normalize_code code) = map Py.lower kept.
Proof.
  intros kept Hkept. unfold DuplicateCodeDetector._normalize_code.
  fold kept. rewrite split_lower, split_join; [reflexivity|exact Hkept|].
  apply Forall_forall. intros x Hx. now apply (kept_lines code).
Qed.

Lemma filter_all {A : Type} (p : A -> bool) (l : list A) :
  (forall x, In x l -> p x = true) -> filter p l = l.
Proof.
  induction l as [|x l IH]; intro Hall; simpl; [reflexivity|].
  rewrite (Hall x (or_introl eq_refl)), IH; [reflexivity|].
  intros y Hy. apply Hall. now right.
Qed.

Lemma map_fixed {A : Type} (f : A -> A) (l : list A) :
  (forall x, In x l -> f x = x) -> map f l = l.
Proof.
  induction l as [|x l IH]; intro Hall; simpl; [reflexivity|].
  rewrite (Hall x (or_introl eq_refl)), IH; [reflexivity|].
  intros y Hy. apply Hall. now right.
Qed.

(** X20.  Normalising a text twice gives what normalising it once
    gives, and the result is in lower case.  Unless it is empty, none of
    its lines is empty or has white space at either end. *)
Theorem X20_normalize_idempotent (code : string) :
  DuplicateCodeDetector._normalize_code (DuplicateCodeDetector._normalize_code code)
  = DuplicateCodeDetector._normalize_code code
  /\ Py.lower (DuplicateCodeDetector._normalize_code code)
     = DuplicateCodeDetector._normalize_code code
  /\ (DuplicateCodeDetector._normalize_code code <> EmptyString ->
      forall line,
        In line (Py.split_nl (DuplicateCodeDetector._normalize_code code)) ->
        line <> EmptyString /\ Py.strip line = line).
Proof.
  pose proof (normalized_lines code) as Hlines. cbv zeta in Hlines.
  pose proof (kept_lines code) as Hkept.
  set (kept := map Py.strip (filter (fun line => Py.truthy (Py.strip line))
                               (Py.split_nl code))) in *.
  assert (Hdef : DuplicateCodeDetector._normalize_code code
                 = Py.lower (Py.join_nl kept)) by reflexivity.
  assert (Hlow : forall y, In y (map Py.lower kept) ->
                   Py.strip y = y /\ Py.truthy y = true).
  { intros y Hy. apply in_map_iff in Hy as [x [<- Hx]].
    destruct (Hkept x Hx) as (Hs & Ht & _).
    rewrite strip_lower, Hs, truthy_lower. now split. }
  split; [|split].
  - destruct kept as [|k ks] eqn:Ek; [rewrite Hdef; reflexivity|].
    unfold DuplicateCodeDetector._normalize_code at 1.
    rewrite Hlines by discriminate.
    rewrite filter_all by (intros y Hy; destruct (Hlow y Hy) as [-> Ht]; exact Ht).
    rewrite map_fixed by (intros y Hy; now destruct (Hlow y Hy)).
    rewrite <- lower_join, lower_idempotent. now rewrite Hdef.
  - rewrite Hdef. apply lower_idempotent.
  - intros Hne line Hline.
    destruct kept as [|k ks] eqn:Ek; [now rewrite Hdef in Hne|].
    rewrite Hlines in Hline by discriminate.
    destruct (Hlow line Hline) as [Hs Ht].
    split; [|exact Hs]. intros ->. discriminate Ht.
Qed.

End Normalisation.

Lemma X20_witness :
  DuplicateCodeDetector._normalize_code Examples.text_f <> EmptyString
  /\ forall line,
       In line (Py.split_nl (DuplicateCodeDetector._normalize_code Examples.text_f)) ->
       line <> EmptyString /\ Py.strip line = line.
Proof.
  split; [vm_compute; discriminate|].
  apply (proj2 (proj2 (X20_normalize_idempotent Examples.text_f))).
  vm_compute. discriminate.
Defined.

(** ** The score never falls when a measure improves *)

Section ScoreMonotone.

Lemma round1_monotone (x y : Q) : (x <= y)%Q -> (Py.round1 x <= Py.round1 y)%Q.
Proof.
  intro Hxy. unfold Py.round1, Qle. simpl.
  assert (H : Py.round_half_even (x * 10) <= Py.round_half_even (y * 10))
    by (apply round_half_even_monotone; lra).
  lia.
Qed.

Ltac case_tests :=
  repeat match goal with
         | |- context [Qle_bool ?a ?b] =>
             let E := fresh "E" in
             destruct (Qle_bool a b) eqn:E;
             [apply Qle_bool_iff in E|apply Qle_bool_false_lt in E]
         | |- context [?a =? ?b] => destruct (Z.eqb_spec a b)
         | |- context [?a <=? ?b] => destruct (Z.leb_spec a b)
         | |- context [?a <? ?b] => destruct (Z.ltb_spec a b)
         end.

(** X21.  Between two sets of measures of which the second has at least
    the docstring coverage and the coverage estimate of the first, at
    most its average complexity, its style issues, its code lines and its
    duplication percentage, and functions if the first has any, the total
    of the second is at least the total of the first: a grade A stays an
    A, and an F was an F. *)
Theorem X21_score_monotone (m m' : CodeMetrics.measures) :
  (CodeMetrics.coverage_percent (CodeMetrics.docstrings m)
   <= CodeMetrics.coverage_percent (CodeMetrics.docstrings m'))%Q ->
  (CodeMetrics.average (CodeMetrics.complexity m')
   <= CodeMetrics.average (CodeMetrics.complexity m))%Q ->
  0 <= CodeMetrics.issues_count (CodeMetrics.code_style m')
    <= CodeMetrics.issues_count (CodeMetrics.code_style m) ->
  (CodeMetrics.count (CodeMetrics.functions m') = 0 ->
   CodeMetrics.count (CodeMetrics.functions m) = 0) ->
  CodeMetrics.code_lines m' <= CodeMetrics.code_lines m ->
  (0 <= DuplicateCodeDetector.duplication_percent (CodeMetrics.duplication m'))%Q ->
  (DuplicateCodeDetector.duplication_percent (CodeMetrics.duplication m')
   <= DuplicateCodeDetector.duplication_percent (CodeMetrics.duplication m))%Q ->
  (CodeMetrics.get_coverage_estimate (CodeMetrics.coverage m)
   <= CodeMetrics.get_coverage_estimate (CodeMetrics.coverage m'))%Q ->
  let s := CodeMetrics._calculate_score m in
  let s' := CodeMetrics._calculate_score m' in
  (CodeMetrics.total s <= CodeMetrics.total s')%Q
  /\ (CodeMetrics.letter_grade s = "A" -> CodeMetrics.letter_grade s' = "A")
  /\ (CodeMetrics.letter_grade s' = "F" -> CodeMetrics.letter_grade s = "F").
Proof.
  intros Hdoc Havg Hstyle Hcount Hlines Hdup0 Hdup Hcov. cbv zeta.
  assert (Htotal : (CodeMetrics.total (CodeMetrics._calculate_score m)
                    <= CodeMetrics.total (CodeMetrics._calculate_score m'))%Q).
  { unfold CodeMetrics._calculate_score. cbv zeta. cbn [CodeMetrics.total].
    set (c := CodeMetrics.coverage_percent (CodeMetrics.docstrings m)) in *.
    set (c' := CodeMetrics.coverage_percent (CodeMetrics.docstrings m')) in *.
    set (avg := CodeMetrics.average (CodeMetrics.complexity m)) in *.
    set (avg' := CodeMetrics.average (CodeMetrics.complexity m')) in *.
    set (dup := DuplicateCodeDetector.duplication_percent (CodeMetrics.duplication m))
      in *.
    set (dup' := DuplicateCodeDetector.duplication_percent (CodeMetrics.duplication m'))
      in *.
    set (cov := CodeMetrics.get_coverage_estimate (CodeMetrics.coverage m)) in *.
    set (cov' := CodeMetrics.get_coverage_estimate (CodeMetrics.coverage m')) in *.
    set (issues := CodeMetrics.issues_count (CodeMetrics.code_style m)) in *.
    set (issues' := CodeMetrics.issues_count (CodeMetrics.code_style m')) in *.
    assert (H1 : ((if Qle_bool avg 5 then 20
                   else if Qle_bool avg 10 then 15
                        else if Qle_bool avg 15 then 10 else 5)
                  <= (if Qle_bool avg' 5 then 20
                      else if Qle_bool avg' 10 then 15
                           else if Qle_bool avg' 15 then 10 else 5))%Q)
      by (case_tests; lra).
    assert (H2 : ((if issues =? 0 then 20
                   else if issues <=? 3 then 15 else if issues <=? 10 then 10 else 5)
                  <= (if issues' =? 0 then 20
                      else if issues' <=? 3 then 15
                           else if issues' <=? 10 then 10 else 5))%Q)
      by (case_tests; first [lra|exfalso; lia]).
    assert (H3 : Z.max 0
                   (if 500 <? CodeMetrics.code_lines m
                    then (if CodeMetrics.count (CodeMetrics.functions m) =? 0
                          then 15 - 5 else 15) - 5
                    else if CodeMetrics.count (CodeMetrics.functions m) =? 0
                         then 15 - 5 else 15)
                 <= Z.max 0
                      (if 500 <? CodeMetrics.code_lines m'
                       then (if CodeMetrics.count (CodeMetrics.functions m') =? 0
                             then 15 - 5 else 15) - 5
                       else if CodeMetrics.count (CodeMetrics.functions m') =? 0
                            then 15 - 5 else 15))
      by (case_tests; lia).
    rewrite Zle_Qle in H3.
    assert (Hzero : (dup == 0)%Q -> (dup' == 0)%Q)
      by (intro H0; apply Qle_antisym; [rewrite <- H0; exact Hdup|exact Hdup0]).
    assert (H4 : ((if Qeq_bool dup 0 then 15
                   else if negb (Qle_bool 10 dup) then 12
                        else if negb (Qle_bool 25 dup) then 8 else 3)
                  <= (if Qeq_bool dup' 0 then 15
                      else if negb (Qle_bool 10 dup') then 12
                           else if negb (Qle_bool 25 dup') then 8 else 3))%Q).
    { destruct (Qeq_bool dup' 0) eqn:E'.
      - destruct (Qeq_bool dup 0); case_tests; cbn [negb]; lra.
      - destruct (Qeq_bool dup 0) eqn:E.
        + apply Qeq_bool_iff in E. apply Hzero in E. apply Qeq_bool_iff in E.
          congruence.
        + case_tests; cbn [negb]; lra. }
    assert (H5 : ((if Qle_bool 80 cov then 15
                   else if Qle_bool 60 cov then 12
                        else if Qle_bool 40 cov then 8
                             else if Qle_bool 20 cov then 5 else 0)
                  <= (if Qle_bool 80 cov' then 15
                      else if Qle_bool 60 cov' then 12
                           else if Qle_bool 40 cov' then 8
                                else if Qle_bool 20 cov' then 5 else 0))%Q)
      by (case_tests; lra).
    apply round1_monotone.
    pose proof (doc_score_monotone c c' Hdoc) as H0.
    set (x0 := Py.fmul (Py.fdiv (Py.double c) 100) 15) in *.
    set (x0' := Py.fmul (Py.fdiv (Py.double c') 100) 15) in *.
    clearbody x0 x0'.
    match type of H3 with
    | (inject_Z ?a <= inject_Z ?b)%Q =>
        change (if 500 <? CodeMetrics.code_lines m
                then (if CodeMetrics.count (CodeMetrics.functions m) =? 0
                      then 15 - 5 else 15) - 5
                else if CodeMetrics.count (CodeMetrics.functions m) =? 0
                     then 15 - 5 else 15)
          with (if 500 <? CodeMetrics.code_lines m
                then (if CodeMetrics.count (CodeMetrics.functions m) =? 0
                      then 15 - 5 else 15) - 5
                else if CodeMetrics.count (CodeMetrics.functions m) =? 0
                     then 15 - 5 else 15) in H3;
        set (st := inject_Z a) in *; set (st' := inject_Z b) in *
    end.
    clearbody st st'.
    set (x1 := if Qle_bool avg 5 then _ else _) in *.
    set (x1' := if Qle_bool avg' 5 then _ else _) in *.
    set (x2 := if issues =? 0 then _ else _) in *.
    set (x2' := if issues' =? 0 then _ else _) in *.
    set (x4 := if Qeq_bool dup 0 then _ else _) in *.
    set (x4' := if Qeq_bool dup' 0 then _ else _) in *.
    set (x5 := if Qle_bool 80 cov then _ else _) in *.
    set (x5' := if Qle_bool 80 cov' then _ else _) in *.
    clearbody x1 x1' x2 x2' x4 x4' x5 x5'.
    repeat apply fadd_monotone; assumption. }
  split; [exact Htotal|].
  unfold CodeMetrics._calculate_score in *. cbv zeta in *.
  cbn [CodeMetrics.total CodeMetrics.letter_grade] in *.
  set (t := Py.round1 _) in *. set (t' := Py.round1 _) in *.
  clearbody t t'. unfold CodeMetrics.grade_of.
  split; case_tests; intro H; first [reflexivity|discriminate H|exfalso; lra].
Qed.

End ScoreMonotone.

Lemma X21_witness :
  let m := CodeMetrics.metrics
             (CodeMetrics._empty_metrics
                (CodeMetrics.init Examples.pf_empty Examples.invalid_text "code.py")) in
  let m' :=
    {| CodeMetrics.m_filename := CodeMetrics.m_filename m;
       CodeMetrics.total_lines := CodeMetrics.total_lines m;
       CodeMetrics.code_lines := CodeMetrics.code_lines m;
       CodeMetrics.functions := CodeMetrics.functions m;
       CodeMetrics.classes := CodeMetrics.classes m;
       CodeMetrics.imports := CodeMetrics.imports m;
       CodeMetrics.complexity := CodeMetrics.complexity m;
       CodeMetrics.docstrings :=
         {| CodeMetrics.total_functions := 0;
            CodeMetrics.functions_documented := 0;
            CodeMetrics.total_classes := 0;
            CodeMetrics.classes_documented := 0;
            CodeMetrics.coverage_percent := 100 |};
       CodeMetrics.code_style := CodeMetrics.code_style m;
       CodeMetrics.duplication := CodeMetrics.duplication m;
       CodeMetrics.coverage := CodeMetrics.coverage m |} in
  (CodeMetrics.total (CodeMetrics._calculate_score m)
   <= CodeMetrics.total (CodeMetrics._calculate_score m'))%Q.
Proof.
  intros m m'.
  apply (X21_score_monotone m m'); vm_compute; try discriminate; try reflexivity;
    try (split; discriminate); try (intros _; reflexivity).
Defined.
